(** * Ai-DQ: the web layer of the data-quality dashboard (src/app.py)

    A shallow embedding of the Flask routes that drive the data-quality
    analyzer, the insight generator and the review workflow, followed by
    the scoring engine they call.

    Python dictionaries are finite maps with string keys, exceptions are
    values of a sum type, and the effects of a handler (the shared analyzer
    instance, the database session, the calls it makes) are threaded through
    an explicit world. *)

From Stdlib Require Import ZArith QArith Qcanon Lqa Lia.
From stdpp Require Import base option list gmap strings.

Set Warnings "-register-all".
#[local] Open Scope string_scope.

(* ===================================================================== *)
(** ** Values *)
(* ===================================================================== *)

(** JSON-serialisable Python values: what [jsonify] accepts and what the
    services exchange with the routes. *)
Inductive Json : Type :=
  | JNull
  | JBool (b : bool)
  | JNum (q : Q)
  | JStr (s : string)
  | JList (l : list Json)
  | JObj (m : gmap string Json).

(** A Python [dict] with string keys. *)
Abbreviation Dict := (gmap string Json).

(** An exception object: its class and the text [str(e)] gives. Only
    subclasses of [Exception] are modelled, which is what every [except
    Exception] clause of the file catches. *)
Record Exn : Type := mkExn { exn_class : string; exn_msg : string }.

Definition str_exn (e : Exn) : string := exn_msg e.

(** A cell of a table. *)
Inductive Scalar : Type :=
  | SNull
  | SBool (b : bool)
  | SNum (q : Qc)
  | SStr (s : string).

#[global] Instance Scalar_eq_dec : EqDecision Scalar.
Proof. solve_decision. Defined.

(** A [pandas.DataFrame], and the engine's dataset: declared columns in
    order, and rows mapping column names to cells. *)
Record DataFrame : Type := mkDataFrame {
  columns : list string;
  rows : list (gmap string Scalar)
}.

(** Rows of [DQInsight] (src/models/database_models.py), with the columns
    this file reads and writes. *)
Record DQInsight : Type := mkDQInsight {
  entity_type : string;
  entity_name : string;
  issue_type : string;
  severity : string;
  insight : string;
  recommendation : string;
  is_reviewed : bool;
  is_approved : Json;
  reviewed_by : Json;
  reviewed_at : option Z
}.

(** [(body, status)] as a Flask view returns it; a bare [jsonify(...)] has
    status 200. *)
Record Response : Type := mkResponse { status : Z; body : Json }.

(* ===================================================================== *)
(** ** The world of a running application *)
(* ===================================================================== *)

(** What a handler does that is visible outside it, in order. *)
Inductive Event : Type :=
  | EvConstructAnalyzer
  | EvQueryAll (table : string)
  | EvReadSql (table : string)
  | EvReadCsv (name : string)
  | EvAnalyze (self : Dict) (df : DataFrame) (label : string)
  | EvDetectDomain (cols : list string) (name : string)
  | EvInsights (payload : Json)
  | EvPrint (line : string)
  | EvQueryInsight (id : Z)
  | EvCommit
  | EvRollback
  | EvClose.

(** [dq_analyzer] is the attribute dictionary of the one module-level
    [DataQualityAnalyzer] instance (line 40); [insights] is the persisted
    [DQInsight] table; [session_dirty] holds the objects the current
    session has modified and not yet committed. *)
Record World : Type := mkWorld {
  dq_analyzer : Dict;
  insights : gmap Z DQInsight;
  session_dirty : gmap Z DQInsight;
  trace : list Event
}.

(** The class [DataQualityAnalyzer] (src/services/dq_analyzer.py) is not
    part of this file: the routes only construct it once and call
    [analyze_dataframe] on the instance. It is taken as a parameter: the
    attributes [__init__] sets, and the method, which may read and update
    the instance and either raises or returns a dictionary. *)
Record Analyzer : Type := mkAnalyzer {
  dqa_init : Dict;
  analyze_dataframe : Dict -> DataFrame -> string -> Dict * (Exn + Dict)
}.

(** What lies outside the process while one request is handled: the
    database, pandas, the clock and the LLM service. *)
Record Env : Type := mkEnv {
  (** [session.query(model).all()]: the rows of a table, as objects. *)
  db_query_all : string -> Exn + list (gmap string Scalar);
  (** [pd.read_sql(session.query(model).statement, session.bind)]. *)
  pd_read_sql : string -> Exn + DataFrame;
  (** [pd.read_csv(file)] on the uploaded content. *)
  pd_read_csv : string -> Exn + DataFrame;
  (** [llm_service.analyze_table_quality(payload)]. *)
  analyze_table_quality : Json -> Exn + Json;
  (** [llm_service.detect_domain_single_word(columns, filename)]. *)
  detect_domain_single_word : list string -> string -> Exn + string;
  (** A failure of [session.query(DQInsight)...first()], if any. *)
  db_query_insight_error : option Exn;
  (** A failure of [session.commit()] for the pending changes, if any; a
      failed commit writes nothing. *)
  db_commit_error : gmap Z DQInsight -> option Exn;
  (** [pd.Timestamp.now()]. *)
  now : Z
}.

(* ===================================================================== *)
(** ** Handlers as computations *)
(* ===================================================================== *)

(** A computation that reads and updates the world and either raises or
    returns. *)
Definition Run (A : Type) : Type := World -> (Exn + A) * World.

Definition ret {A} (a : A) : Run A := fun w => (inr a, w).

Definition raise {A} (e : Exn) : Run A := fun w => (inl e, w).

Definition bind {A B} (c : Run A) (k : A -> Run B) : Run B :=
  fun w => match c w with
           | (inl e, w') => (inl e, w')
           | (inr a, w') => k a w'
           end.

Notation "'let*' x := c 'in' k" := (bind c (fun x => k))
  (at level 10, x name, c at level 100, k at level 200).
Notation "'exec' c 'in' k" := (bind c (fun _ => k))
  (at level 10, c at level 100, k at level 200).

(** [try: c except Exception as e: h e]. *)
Definition try_except {A} (c : Run A) (h : Exn -> Run A) : Run A :=
  fun w => match c w with
           | (inl e, w') => h e w'
           | (inr a, w') => (inr a, w')
           end.

(** [try: c finally: f]; [f] runs on both exits and the outcome of [c] is
    kept unless [f] itself raises. *)
Definition try_finally {A} (c : Run A) (f : Run unit) : Run A :=
  fun w => match c w with
           | (r, w') => match f w' with
                        | (inl e, w'') => (inl e, w'')
                        | (inr _, w'') => (r, w'')
                        end
           end.

(** Lifts an outcome decided outside the process. *)
Definition lift {A} (r : Exn + A) : Run A := fun w => (r, w).

Definition log (ev : Event) : Run unit :=
  fun w => (inr tt, mkWorld (dq_analyzer w) (insights w) (session_dirty w)
                            (trace w ++ [ev])).

(** [print(line)]. *)
Definition print (line : string) : Run unit := log (EvPrint line).

(** [@app.errorhandler(500)]: what Flask answers when a view lets an
    exception escape. *)
Definition internal_error : Response :=
  mkResponse 500 (JObj (<["error" := JStr "Internal server error"]>
                        (<["success" := JBool false]> ∅))).

Definition serve (view : Run Response) (w : World) : Response * World :=
  match view w with
  | (inr r, w') => (r, w')
  | (inl _, w') => (internal_error, w')
  end.

(** [jsonify({'success': False, 'error': msg}), code]. *)
Definition failure (code : Z) (msg : string) : Response :=
  mkResponse code (JObj (<["error" := JStr msg]>
                         (<["success" := JBool false]> ∅))).

(** Module initialisation, lines 36-41: the one analyzer is constructed. *)
Definition module_init (A : Analyzer) : World :=
  mkWorld (dqa_init A) ∅ ∅ [EvConstructAnalyzer].

(** [Session()]: a new session has no pending changes. *)
Definition new_session : Run unit :=
  fun w => (inr tt, mkWorld (dq_analyzer w) (insights w) ∅ (trace w)).

(** [session.close()]: pending changes are dropped. *)
Definition session_close : Run unit :=
  fun w => (inr tt, mkWorld (dq_analyzer w) (insights w) ∅
                            (trace w ++ [EvClose])).

(** [session.rollback()]. *)
Definition session_rollback : Run unit :=
  fun w => (inr tt, mkWorld (dq_analyzer w) (insights w) ∅
                            (trace w ++ [EvRollback])).

(** [session.commit()]: the pending objects replace the persisted rows of
    the same key, or the commit fails and persists nothing. *)
Definition session_commit (env : Env) : Run unit :=
  fun w => match db_commit_error env (session_dirty w) with
           | Some e => (inl e, w)
           | None =>
               (inr tt, mkWorld (dq_analyzer w)
                                (session_dirty w ∪ insights w) ∅
                                (trace w ++ [EvCommit]))
           end.

(** [dq_analyzer.analyze_dataframe(df, label)] on the module-level
    instance: the method sees the instance as the previous calls left it
    and its updates stay in it. *)
Definition call_analyzer (A : Analyzer) (df : DataFrame) (label : string)
  : Run Dict :=
  fun w => let '(self', r) := analyze_dataframe A (dq_analyzer w) df label in
           (r, mkWorld self' (insights w) (session_dirty w)
                       (trace w ++ [EvAnalyze (dq_analyzer w) df label])).

(* ===================================================================== *)
(** ** The insight step shared by both analysis routes *)
(* ===================================================================== *)

(** [d[k]]; a missing key raises [KeyError], whose text is the repr of the
    key. *)
Definition getitem (d : Dict) (k : string) : Exn + Json :=
  match d !! k with
  | Some v => inr v
  | None => inl (mkExn "KeyError" ("'" ++ k ++ "'"))
  end.

(** The operand of [**] in a dict display must be a mapping. *)
Definition as_mapping (v : Json) : Exn + Dict :=
  match v with
  | JObj m => inr m
  | _ => inl (mkExn "TypeError" "argument after ** must be a mapping")
  end.

(** The dict display of lines 100-105 and 158-163,
    [{'table_name': name, 'domain': domain, **analysis['table_scores'],
      'issues': analysis['issues']}]: later entries win, so the spread
    scores override the two keys before them and ['issues'] overrides a
    score of that name. *)
Definition insights_payload (name : string) (domain : Json) (analysis : Dict)
  : Exn + Dict :=
  match getitem analysis "table_scores" with
  | inl e => inl e
  | inr scores =>
      match as_mapping scores with
      | inl e => inl e
      | inr m =>
          match getitem analysis "issues" with
          | inl e => inl e
          | inr issues =>
              inr (<["issues" := issues]>
                     (m ∪ <["domain" := domain]>
                            (<["table_name" := JStr name]> ∅)))
          end
      end
  end.

(** The record stored when the insight generator fails. *)
Definition insights_failure (e : Exn) : Json :=
  JObj (<["error" := JStr (str_exn e)]> (<["success" := JBool false]> ∅)).

(** Lines 98-112 and 156-170: the [try] builds the payload, calls the
    generator and stores its result; the [except] prints and stores the
    failure record. *)
Definition generate_insights (env : Env) (name : string) (domain : Json)
    (analysis : Dict) : Run Dict :=
  try_except
    (let* payload := lift (insights_payload name domain analysis) in
     exec log (EvInsights (JObj payload)) in
     let* llm_result := lift (analyze_table_quality env (JObj payload)) in
     ret (<["ai_insights" := llm_result]> analysis))
    (fun llm_error =>
       exec print ("LLM Error: " ++ str_exn llm_error) in
       ret (<["ai_insights" := insights_failure llm_error]> analysis)).

(** [jsonify({'success': True, 'analysis': analysis})]. *)
Definition analysis_response (analysis : Dict) : Response :=
  mkResponse 200 (JObj (<["analysis" := JObj analysis]>
                        (<["success" := JBool true]> ∅))).

(* ===================================================================== *)
(** ** POST /api/analyze/table/<table_name> *)
(* ===================================================================== *)

(** The keys of [table_map], lines 75-80. *)
Definition table_map : list string :=
  ["employees"; "payroll"; "invoices"; "expenses"].

Definition analyze_table_view (A : Analyzer) (env : Env) (table_name : string)
  : Run Response :=
  exec new_session in
  try_finally
    (try_except
       (if negb (bool_decide (table_name ∈ table_map)) then
          ret (failure 400 "Invalid table name")
        else
          exec log (EvQueryAll table_name) in
          let* data := lift (db_query_all env table_name) in
          match data with
          | [] => ret (failure 404 "No data found")
          | _ :: _ =>
              exec log (EvReadSql table_name) in
              let* df := lift (pd_read_sql env table_name) in
              let* analysis := call_analyzer A df table_name in
              let* analysis := generate_insights env table_name
                            (JStr "HR/Finance") analysis in
              ret (analysis_response analysis)
          end)
       (fun e =>
          exec print "traceback" in
          ret (failure 500 (str_exn e))))
    session_close.

Definition analyze_table (A : Analyzer) (env : Env) (table_name : string)
  : World -> Response * World :=
  serve (analyze_table_view A env table_name).

(* ===================================================================== *)
(** ** POST /api/analyze/csv *)
(* ===================================================================== *)

(** An uploaded file: [file.filename] and its content. *)
Record FileStorage : Type := mkFile { filename : string; content : string }.

(** [s.endswith(suffix)]. *)
Definition endswith (s suffix : string) : bool :=
  String.prefix (String.rev suffix) (String.rev s).

(** Lines 148-154. *)
Definition detect_domain_step (env : Env) (df : DataFrame) (name : string)
    (analysis : Dict) : Run Dict :=
  try_except
    (exec log (EvDetectDomain (columns df) name) in
     let* detected_domain := lift (detect_domain_single_word env (columns df) name) in
     ret (<["detected_domain" := JStr detected_domain]> analysis))
    (fun domain_error =>
       exec print ("Domain Detection Error: " ++ str_exn domain_error) in
       ret (<["detected_domain" := JStr "Unknown"]> analysis)).

(** [request.files] is the mapping of uploaded files. *)
Definition analyze_csv_view (A : Analyzer) (env : Env)
    (files : gmap string FileStorage) : Run Response :=
  match files !! "file" with
  | None => ret (failure 400 "No file uploaded")
  | Some file =>
      if bool_decide (filename file = "") then
        ret (failure 400 "No file selected")
      else if negb (endswith (filename file) ".csv") then
        ret (failure 400 "Only CSV files are supported")
      else
        try_except
          (exec log (EvReadCsv (filename file)) in
           let* df := lift (pd_read_csv env (content file)) in
           let* analysis := call_analyzer A df (filename file) in
           let* analysis := detect_domain_step env df (filename file) analysis in
           let* analysis := generate_insights env (filename file)
                         (default (JStr "Uploaded Data")
                                  (analysis !! "detected_domain"))
                         analysis in
           ret (analysis_response analysis))
          (fun e => ret (failure 500 (str_exn e)))
  end.

Definition analyze_csv (A : Analyzer) (env : Env)
    (files : gmap string FileStorage) : World -> Response * World :=
  serve (analyze_csv_view A env files).

(* ===================================================================== *)
(** ** POST /api/insights/<int:insight_id>/review *)
(* ===================================================================== *)

(** [data.get(key, dflt)]; on anything but a dict the attribute is
    missing. *)
Definition json_get (data : Json) (key : string) (dflt : Json) : Exn + Json :=
  match data with
  | JObj m => inr (default dflt (m !! key))
  | _ => inl (mkExn "AttributeError" "object has no attribute 'get'")
  end.

(** [session.query(DQInsight).filter_by(id=insight_id).first()]: the
    object the session holds for that key, else the persisted row. *)
Definition query_insight (env : Env) (insight_id : Z)
  : Run (option DQInsight) :=
  exec log (EvQueryInsight insight_id) in
  match db_query_insight_error env with
  | Some e => raise e
  | None => fun w => (inr ((session_dirty w ∪ insights w) !! insight_id), w)
  end.

(** An attribute assignment on a loaded object marks it dirty in the
    session; nothing is written to the table before a commit. *)
Definition set_insight (insight_id : Z) (i : DQInsight) : Run unit :=
  fun w => (inr tt, mkWorld (dq_analyzer w) (insights w)
                            (<[insight_id := i]> (session_dirty w))
                            (trace w)).

Definition with_is_reviewed (b : bool) (i : DQInsight) : DQInsight :=
  mkDQInsight (entity_type i) (entity_name i) (issue_type i) (severity i)
              (insight i) (recommendation i) b (is_approved i)
              (reviewed_by i) (reviewed_at i).

Definition with_is_approved (v : Json) (i : DQInsight) : DQInsight :=
  mkDQInsight (entity_type i) (entity_name i) (issue_type i) (severity i)
              (insight i) (recommendation i) (is_reviewed i) v
              (reviewed_by i) (reviewed_at i).

Definition with_reviewed_by (v : Json) (i : DQInsight) : DQInsight :=
  mkDQInsight (entity_type i) (entity_name i) (issue_type i) (severity i)
              (insight i) (recommendation i) (is_reviewed i) (is_approved i)
              v (reviewed_at i).

Definition with_reviewed_at (t : Z) (i : DQInsight) : DQInsight :=
  mkDQInsight (entity_type i) (entity_name i) (issue_type i) (severity i)
              (insight i) (recommendation i) (is_reviewed i) (is_approved i)
              (reviewed_by i) (Some t).

(** [jsonify({'success': True, 'message': ...})]. *)
Definition review_ok : Response :=
  mkResponse 200 (JObj (<["message" := JStr "Insight reviewed successfully"]>
                        (<["success" := JBool true]> ∅))).

(** [request_json] is what evaluating [request.json] gives. *)
Definition review_insight_view (env : Env) (request_json : Exn + Json)
    (insight_id : Z) : Run Response :=
  exec new_session in
  try_finally
    (try_except
       (let* data := lift request_json in
        let* found := query_insight env insight_id in
        match found with
        | None => ret (failure 404 "Insight not found")
        | Some i0 =>
            let i1 := with_is_reviewed true i0 in
            exec set_insight insight_id i1 in
            let* approved := lift (json_get data "approved" (JBool false)) in
            let i2 := with_is_approved approved i1 in
            exec set_insight insight_id i2 in
            let* reviewer := lift (json_get data "reviewer" (JStr "Admin")) in
            let i3 := with_reviewed_by reviewer i2 in
            exec set_insight insight_id i3 in
            exec set_insight insight_id (with_reviewed_at (now env) i3) in
            exec session_commit env in
            ret review_ok
        end)
       (fun e =>
          exec session_rollback in
          ret (failure 500 (str_exn e))))
    session_close.

Definition review_insight (env : Env) (request_json : Exn + Json)
    (insight_id : Z) : World -> Response * World :=
  serve (review_insight_view env request_json insight_id).

(* ===================================================================== *)
(** ** The scoring engine behind [analyze_dataframe] *)
(* ===================================================================== *)

(** The engine lives in src/services/dq_analyzer.py, which is not among the
    sources at hand; the definitions of this part follow its written
    specification, section by section. Scores are exact rationals. *)

(** Modelled from the spec: the Inferred Type tags of section 3 (the
    analyzer's source is missing). *)
Inductive InferredType : Type :=
  | TNumeric | TInteger | TDate | TEmail | TPhone
  | TCategorical | TText | TIdentifier | TBoolean | TUnknown.

(** Modelled from the spec: the severities of an Issue, section 3, most
    severe first (the analyzer's source is missing). *)
Inductive Severity : Type := Critical | High | Medium | Low | Info.

#[global] Instance Severity_eq_dec : EqDecision Severity.
Proof. solve_decision. Defined.

(** Modelled from the spec: the issue kinds named in sections 4.2 to 4.5
    (the analyzer's source is missing). *)
Inductive IssueKind : Type :=
  | MissingValues | FormatViolation | OutOfRange
  | DuplicateKey | DuplicateValues | FormatInconsistency.

(** Modelled from the spec: an Issue, section 3; [issue_field] is the column
    name and [issue_rows] the row count affected (the analyzer's source is
    missing). *)
Record Issue : Type := mkIssue {
  issue_kind : IssueKind;
  issue_severity : Severity;
  issue_description : string;
  issue_field : string;
  issue_rows : option nat
}.

(** Modelled from the spec: the letter grades of section 3 (the analyzer's
    source is missing). *)
Inductive Grade : Type := GradeA | GradeB | GradeC | GradeD | GradeF.

(** Modelled from the spec: a Field Analysis, section 3 (the analyzer's
    source is missing). *)
Record FieldAnalysis : Type := mkFieldAnalysis {
  field_name : string;
  data_type : InferredType;
  f_completeness : Q;
  f_correctness : Q;
  f_uniqueness : Q;
  f_consistency : Q;
  f_overall : Q;
  f_grade : Grade
}.

(** Modelled from the spec: a Table Score, section 3 (the analyzer's source
    is missing). *)
Record TableScore : Type := mkTableScore {
  completeness_score : Q;
  correctness_score : Q;
  uniqueness_score : Q;
  consistency_score : Q;
  overall_score : Q;
  quality_grade : Grade
}.

(** Modelled from the spec: the result of [analyze], section 4.8 (the
    analyzer's source is missing). *)
Record Report : Type := mkReport {
  table_scores : TableScore;
  field_analyses : list FieldAnalysis;
  issues : list Issue
}.

(** Modelled from the spec: the only failure of the engine, section 7 (the
    analyzer's source is missing). *)
Inductive EngineError : Type := InputError (msg : string).

(** Modelled from the spec: the override weights of section 4.6 (the
    analyzer's source is missing). *)
Record Weights : Type := mkWeights {
  w_completeness : Q;
  w_correctness : Q;
  w_uniqueness : Q;
  w_consistency : Q
}.

(** Modelled from the spec: the configuration of section 6 together with
    the value-level rules that sections 4.1, 4.3 and 4.5 describe by
    pattern vocabularies and plausible ranges without fixing them (the
    analyzer's source is missing). *)
Record Config : Type := mkConfig {
  weights : option Weights;
  sample_bound : nat;
  parses_number : Scalar -> bool;
  has_fraction : Scalar -> bool;
  matches_date : Scalar -> bool;
  matches_email : Scalar -> bool;
  matches_phone : Scalar -> bool;
  suggests_identifier : string -> list Scalar -> bool;
  in_plausible_range : InferredType -> Scalar -> bool;
  allow_list : string -> option (list Scalar);
  structural_pattern : Scalar -> string;
  canonical_form : Scalar -> Scalar;
  categorical_max_distinct : nat;
  categorical_max_percent : nat
}.

(** Modelled from the spec: section 4.2, "blank strings, whitespace-only
    strings, and explicit null markers all count as missing" (the
    analyzer's source is missing). *)
Fixpoint is_blank (s : string) : bool :=
  match s with
  | EmptyString => true
  | String c s' => Ascii.is_space c && is_blank s'
  end.

Definition is_missing (v : Scalar) : bool :=
  match v with
  | SNull => true
  | SStr s => is_blank s
  | _ => false
  end.

(** The values of one column, top to bottom; a row without the key holds a
    null there. *)
Definition column_values (d : DataFrame) (c : string) : list Scalar :=
  map (fun r => default SNull (r !! c)) (rows d).

Definition non_null (col : list Scalar) : list Scalar :=
  filter (fun v => is_missing v = false) col.

Definition count_if (p : Scalar -> bool) (l : list Scalar) : nat :=
  length (filter (fun v => p v = true) l).

(** [100 * a / b] as a rational. *)
Definition pct (a b : nat) : Q :=
  100 * inject_Z (Z.of_nat a) / inject_Z (Z.of_nat b).

(** Modelled from the spec: section 4.1, the ordered chain of classifiers
    over a bounded sample of the non-null values; the first that applies
    wins (the analyzer's source is missing). *)
Definition infer_type (cfg : Config) (name : string) (col : list Scalar)
  : InferredType :=
  let s := take (sample_bound cfg) (non_null col) in
  let n := length s in
  if (n =? 0)%nat then TUnknown
  else if (100 * count_if (fun v => negb (parses_number cfg v)) s <=? 5 * n)%nat
  then (if existsb (has_fraction cfg) s then TNumeric else TInteger)
  else if (90 * n <? 100 * count_if (matches_date cfg) s)%nat then TDate
  else if (90 * n <? 100 * count_if (matches_email cfg) s)%nat then TEmail
  else if (90 * n <? 100 * count_if (matches_phone cfg) s)%nat then TPhone
  else if suggests_identifier cfg name s then TIdentifier
  else if (length (remove_dups s) <=? categorical_max_distinct cfg)%nat
          || (100 * length (remove_dups s)
                <=? categorical_max_percent cfg * length col)%nat
  then TCategorical
  else TText.

(** Modelled from the spec: section 4.2; with no row at all the score
    defaults to 100, section 4.8 (the analyzer's source is missing). *)
Definition completeness (col : list Scalar) : Q :=
  if (length col =? 0)%nat then 100
  else pct (length (non_null col)) (length col).

Definition missing_count (col : list Scalar) : nat :=
  length col - length (non_null col).

(** Modelled from the spec: section 4.2, severity by missing ratio, "at
    least 50% critical, at least 20% high, at least 5% medium, above 0
    low" (the analyzer's source is missing). *)
Definition missing_severity (missing total : nat) : Severity :=
  if (50 * total <=? 100 * missing)%nat then Critical
  else if (20 * total <=? 100 * missing)%nat then High
  else if (5 * total <=? 100 * missing)%nat then Medium
  else Low.

Definition completeness_issues (name : string) (col : list Scalar)
  : list Issue :=
  if (0 <? missing_count col)%nat then
    [mkIssue MissingValues
             (missing_severity (missing_count col) (length col))
             "missing values" name (Some (missing_count col))]
  else [].

(** Modelled from the spec: section 4.3, the format rule of each type;
    identifier, categorical and text have none unless the caller gives an
    allow-list (the analyzer's source is missing). *)
Definition format_ok (cfg : Config) (name : string) (ty : InferredType)
    (v : Scalar) : bool :=
  match ty with
  | TNumeric | TInteger => parses_number cfg v
  | TDate => matches_date cfg v
  | TEmail => matches_email cfg v
  | TPhone => matches_phone cfg v
  | TIdentifier | TCategorical | TText =>
      match allow_list cfg name with
      | None => true
      | Some allowed => bool_decide (v ∈ allowed)
      end
  | TBoolean | TUnknown => true
  end.

(** Modelled from the spec: section 4.3, numbers and dates must also fall
    in the plausible range (the analyzer's source is missing). *)
Definition range_ok (cfg : Config) (ty : InferredType) (v : Scalar) : bool :=
  match ty with
  | TNumeric | TInteger | TDate => in_plausible_range cfg ty v
  | _ => true
  end.

Definition value_ok (cfg : Config) (name : string) (ty : InferredType)
    (v : Scalar) : bool :=
  format_ok cfg name ty v && range_ok cfg ty v.

(** Modelled from the spec: section 4.3, the share of the non-null values
    that satisfy the rule, 100 when there is none (the analyzer's source is
    missing). *)
Definition correctness (cfg : Config) (name : string) (ty : InferredType)
    (col : list Scalar) : Q :=
  let nn := non_null col in
  if (length nn =? 0)%nat then 100
  else pct (count_if (value_ok cfg name ty) nn) (length nn).

(** Modelled from the spec: section 4.3, "severity high if violation ratio
    > 20%, else medium" (the analyzer's source is missing). *)
Definition violation_severity (violations total : nat) : Severity :=
  if (20 * total <? 100 * violations)%nat then High else Medium.

Definition correctness_issues (cfg : Config) (name : string)
    (ty : InferredType) (col : list Scalar) : list Issue :=
  let nn := non_null col in
  let bad_format := count_if (fun v => negb (format_ok cfg name ty v)) nn in
  let bad_range :=
    count_if (fun v => format_ok cfg name ty v && negb (range_ok cfg ty v)) nn in
  (if (0 <? bad_format)%nat then
     [mkIssue FormatViolation (violation_severity bad_format (length nn))
              "format violation" name (Some bad_format)]
   else [])
  ++
  (if (0 <? bad_range)%nat then
     [mkIssue OutOfRange (violation_severity bad_range (length nn))
              "value out of range" name (Some bad_range)]
   else []).

(** Modelled from the spec: section 4.4, distinct non-null values over
    non-null values, 100 when there is none (the analyzer's source is
    missing). *)
Definition uniqueness (col : list Scalar) : Q :=
  let nn := non_null col in
  if (length nn =? 0)%nat then 100
  else pct (length (remove_dups nn)) (length nn).

Definition uniqueness_issues (name : string) (ty : InferredType)
    (col : list Scalar) : list Issue :=
  let nn := non_null col in
  let dups := length nn - length (remove_dups nn) in
  if (0 <? dups)%nat then
    match ty with
    | TIdentifier =>
        [mkIssue DuplicateKey Critical "duplicate key" name (Some dups)]
    | _ =>
        [mkIssue DuplicateValues Medium "duplicate values" name (Some dups)]
    end
  else [].

(** The number of values that carry the most common structural pattern. *)
Definition mode_count (cfg : Config) (nn : list Scalar) : nat :=
  let pats := map (structural_pattern cfg) nn in
  foldr Nat.max 0%nat
        (map (fun p => length (filter (fun q => q = p) pats)) pats).

(** The number of values that are their own canonical form. *)
Definition canonical_count (cfg : Config) (nn : list Scalar) : nat :=
  count_if (fun v => bool_decide (canonical_form cfg v = v)) nn.

Definition uniform_count (cfg : Config) (ty : InferredType)
    (nn : list Scalar) : nat :=
  match ty with
  | TDate | TNumeric | TInteger | TPhone | TEmail => mode_count cfg nn
  | TCategorical | TText => canonical_count cfg nn
  | TIdentifier | TBoolean | TUnknown => length nn
  end.

(** Modelled from the spec: section 4.5, the share of the values with the
    most common pattern, or with canonical casing and spacing; 100 when
    there is no value (the analyzer's source is missing). *)
Definition consistency (cfg : Config) (ty : InferredType) (col : list Scalar)
  : Q :=
  let nn := non_null col in
  if (length nn =? 0)%nat then 100
  else pct (uniform_count cfg ty nn) (length nn).

Definition consistency_issues (cfg : Config) (name : string)
    (ty : InferredType) (col : list Scalar) : list Issue :=
  let nn := non_null col in
  let odd := length nn - uniform_count cfg ty nn in
  if (0 <? odd)%nat then
    [mkIssue FormatInconsistency Medium "format inconsistency" name (Some odd)]
  else [].

(** Modelled from the spec: section 4.6, "score >= 90 gives A; >= 75 B;
    >= 60 C; >= 40 D; otherwise F" (the analyzer's source is missing). *)
Definition grade_of (score : Q) : Grade :=
  if Qle_bool 90 score then GradeA
  else if Qle_bool 75 score then GradeB
  else if Qle_bool 60 score then GradeC
  else if Qle_bool 40 score then GradeD
  else GradeF.

Definition default_weights : Weights :=
  mkWeights (1 # 4) (1 # 4) (1 # 4) (1 # 4).

Definition weights_sum (w : Weights) : Q :=
  w_completeness w + w_correctness w + w_uniqueness w + w_consistency w.

(** Modelled from the spec: section 4.6, the weighted mean of the four
    dimension scores, with weight 0.25 each unless the caller overrides
    them, the overrides renormalised to sum to 1 (the analyzer's source is
    missing). *)
Definition field_overall (cfg : Config) (c1 c2 c3 c4 : Q) : Q :=
  let w := default default_weights (weights cfg) in
  (w_completeness w * c1 + w_correctness w * c2
   + w_uniqueness w * c3 + w_consistency w * c4) / weights_sum w.

(** Modelled from the spec: one Field Analysis per column, the type
    inferred first (the analyzer's source is missing). *)
Definition analyze_field (cfg : Config) (d : DataFrame) (name : string)
  : FieldAnalysis :=
  let col := column_values d name in
  let ty := infer_type cfg name col in
  let c1 := completeness col in
  let c2 := correctness cfg name ty col in
  let c3 := uniqueness col in
  let c4 := consistency cfg ty col in
  let o := field_overall cfg c1 c2 c3 c4 in
  mkFieldAnalysis name ty c1 c2 c3 c4 o (grade_of o).

Definition field_issues (cfg : Config) (d : DataFrame) (name : string)
  : list Issue :=
  let col := column_values d name in
  let ty := infer_type cfg name col in
  completeness_issues name col ++ correctness_issues cfg name ty col
  ++ uniqueness_issues name ty col ++ consistency_issues cfg name ty col.

(** Modelled from the spec: section 4.7, "ordered by severity (critical,
    high, medium, low, info) then by field declaration order" (the
    analyzer's source is missing). *)
Definition by_severity (l : list Issue) : list Issue :=
  concat (map (fun s => filter (fun i => issue_severity i = s) l)
              [Critical; High; Medium; Low; Info]).

Definition Qsum (l : list Q) : Q := foldr Qplus 0%Q l.

Definition mean (l : list Q) : Q :=
  Qsum l / inject_Z (Z.of_nat (length l)).

(** Modelled from the spec: section 4.6, the table-level scores are the
    unweighted means over the fields, and the grade follows the overall
    score (the analyzer's source is missing). *)
Definition aggregate (fs : list FieldAnalysis) : TableScore :=
  let o := mean (map f_overall fs) in
  mkTableScore (mean (map f_completeness fs)) (mean (map f_correctness fs))
               (mean (map f_uniqueness fs)) (mean (map f_consistency fs))
               o (grade_of o).

Definition build_report (cfg : Config) (d : DataFrame) : Report :=
  let fs := map (analyze_field cfg d) (columns d) in
  mkReport (aggregate fs) fs
           (by_severity (concat (map (field_issues cfg d) (columns d)))).

(** Modelled from the spec: the input contract of sections 3 and 4.8, at
    least one column and every row over exactly the declared columns (the
    analyzer's source is missing). *)
Definition well_formed_dataset (d : DataFrame) : bool :=
  negb (bool_decide (columns d = []))
  && forallb (fun r => bool_decide (dom r = list_to_set (columns d))) (rows d).

(** Modelled from the spec: the public entry point [analyze(dataset,
    label)] of section 4.8, which fails only on a malformed dataset (the
    analyzer's source is missing). *)
Definition analyze (cfg : Config) (d : DataFrame) (label : string)
  : EngineError + Report :=
  if well_formed_dataset d then inr (build_report cfg d)
  else inl (InputError "malformed dataset").

(* ===================================================================== *)
(** ** The engine as the routes see it *)
(* ===================================================================== *)

Definition grade_letter (g : Grade) : string :=
  match g with
  | GradeA => "A" | GradeB => "B" | GradeC => "C"
  | GradeD => "D" | GradeF => "F"
  end.

Definition type_name (t : InferredType) : string :=
  match t with
  | TNumeric => "numeric" | TInteger => "integer" | TDate => "date"
  | TEmail => "email" | TPhone => "phone" | TCategorical => "categorical"
  | TText => "text" | TIdentifier => "identifier" | TBoolean => "boolean"
  | TUnknown => "unknown"
  end.

Definition severity_name (s : Severity) : string :=
  match s with
  | Critical => "critical" | High => "high" | Medium => "medium"
  | Low => "low" | Info => "info"
  end.

Definition kind_name (k : IssueKind) : string :=
  match k with
  | MissingValues => "missing_values"
  | FormatViolation => "format_violation"
  | OutOfRange => "out_of_range"
  | DuplicateKey => "duplicate_key"
  | DuplicateValues => "duplicate_values"
  | FormatInconsistency => "format_inconsistency"
  end.

(** The keys are those the routes and the PDF export of src/app.py read
    (lines 495-502, 531-536 and 562-565). *)
Definition table_scores_dict (t : TableScore) : Dict :=
  <["completeness_score" := JNum (completeness_score t)]>
  (<["correctness_score" := JNum (correctness_score t)]>
  (<["uniqueness_score" := JNum (uniqueness_score t)]>
  (<["consistency_score" := JNum (consistency_score t)]>
  (<["overall_score" := JNum (overall_score t)]>
  (<["quality_grade" := JStr (grade_letter (quality_grade t))]> ∅))))).

Definition field_dict (f : FieldAnalysis) : Dict :=
  <["field_name" := JStr (field_name f)]>
  (<["data_type" := JStr (type_name (data_type f))]>
  (<["completeness_score" := JNum (f_completeness f)]>
  (<["correctness_score" := JNum (f_correctness f)]>
  (<["uniqueness_score" := JNum (f_uniqueness f)]>
  (<["consistency_score" := JNum (f_consistency f)]>
  (<["overall_score" := JNum (f_overall f)]>
  (<["quality_grade" := JStr (grade_letter (f_grade f))]> ∅))))))).

Definition issue_dict (i : Issue) : Dict :=
  <["type" := JStr (kind_name (issue_kind i))]>
  (<["severity" := JStr (severity_name (issue_severity i))]>
  (<["description" := JStr (issue_description i)]>
  (<["field" := JStr (issue_field i)]> ∅))).

Definition report_dict (r : Report) : Dict :=
  <["table_scores" := JObj (table_scores_dict (table_scores r))]>
  (<["field_analyses" := JList (map (fun f => JObj (field_dict f))
                                    (field_analyses r))]>
  (<["issues" := JList (map (fun i => JObj (issue_dict i)) (issues r))]> ∅)).

(** Modelled from the spec: the analyzer object the routes would hold if
    [analyze_dataframe] were the [analyze] of sections 4.8 and 5, which
    keeps nothing in the instance and surfaces [InputError] as it is (the
    analyzer's source is missing). *)
Definition engine_analyzer (cfg : Config) : Analyzer :=
  mkAnalyzer ∅
    (fun self df label =>
       (self,
        match analyze cfg df label with
        | inl (InputError msg) => inl (mkExn "InputError" msg)
        | inr r => inr (report_dict r)
        end)).

(** A small rule set for worked examples: numbers are the numeric cells,
    an e-mail address is a string without blank, and every value is its
    own pattern. *)
Definition sample_config : Config :=
  mkConfig None 1000
           (fun v => match v with SNum _ => true | _ => false end)
           (fun _ => false)
           (fun _ => false)
           (fun v => match v with SStr s => negb (is_blank s) | _ => false end)
           (fun _ => false)
           (fun _ _ => false)
           (fun _ _ => true)
           (fun _ => None)
           (fun _ => "x")
           (fun v => v)
           20 10.

(* ===================================================================== *)
(** ** Observations used by the statements *)
(* ===================================================================== *)

(** A world after some more events, with the same analyzer instance, table
    and session. *)
Definition logged (w : World) (evs : list Event) : World :=
  mkWorld (dq_analyzer w) (insights w) (session_dirty w) (trace w ++ evs).

(** The domain the CSV route hands to the insight generator: the word
    the generator detected, or ['Unknown'] when detection raised. *)
Definition csv_domain (env : Env) (df : DataFrame) (name : string) : string :=
  match detect_domain_single_word env (columns df) name with
  | inr word => word
  | inl _ => "Unknown"
  end.

(** What the domain step of the CSV route leaves in the trace. *)
Definition detect_events (env : Env) (df : DataFrame) (name : string)
  : list Event :=
  match detect_domain_single_word env (columns df) name with
  | inr _ => [EvDetectDomain (columns df) name]
  | inl e => [EvDetectDomain (columns df) name;
              EvPrint ("Domain Detection Error: " ++ str_exn e)]
  end.

(** The world a table request leaves when it only logged [evs]: the
    session opened for it is closed again. *)
Definition closed_after (w : World) (evs : list Event) : World :=
  mkWorld (dq_analyzer w) (insights w) ∅ (trace w ++ evs ++ [EvClose]).

(** How many times [DataQualityAnalyzer()] was evaluated in a trace. *)
Definition analyzers_constructed (tr : list Event) : nat :=
  length (omap (fun ev => match ev with
                          | EvConstructAnalyzer => Some tt
                          | _ => None
                          end) tr).

(** The instances, as attribute dictionaries, that the calls to
    [analyze_dataframe] in a trace ran on. *)
Definition analyzer_instances (tr : list Event) : list Dict :=
  omap (fun ev => match ev with
                  | EvAnalyze self _ _ => Some self
                  | _ => None
                  end) tr.

(** A computation whose every run relates the world before to the world
    after by [R]. *)
Definition respects {T} (R : World -> World -> Prop) (c : Run T) : Prop :=
  forall w, R w (snd (c w)).

(** A computation that sees of the world only the analyzer instance: from
    two worlds with the same instance it gives the same outcome and leaves
    the same instance. *)
Definition instance_only {T} (c : Run T) : Prop :=
  forall w w',
    dq_analyzer w = dq_analyzer w' ->
    fst (c w) = fst (c w')
    /\ dq_analyzer (snd (c w)) = dq_analyzer (snd (c w')).

(** The analyzer instance is the same before and after. *)
Definition same_instance (w w' : World) : Prop :=
  dq_analyzer w' = dq_analyzer w.

(** No analyzer was constructed in between. *)
Definition none_constructed (w w' : World) : Prop :=
  analyzers_constructed (trace w') = analyzers_constructed (trace w).

(** The three entries of a report that the engine owns. *)
Definition engine_fields (d : Dict) : option Json * option Json * option Json :=
  (d !! "table_scores", d !! "field_analyses", d !! "issues").

(** [body['analysis'][key]] of a response, when there is one. *)
Definition response_field (r : Response) (key : string) : option Json :=
  match body r with
  | JObj m => match m !! "analysis" with
              | Some (JObj a) => a !! key
              | _ => None
              end
  | _ => None
  end.

(** [body['success']] of a response. *)
Definition success_flag (r : Response) : option Json :=
  match body r with
  | JObj m => m !! "success"
  | _ => None
  end.

(** The arguments of the calls to the insight generator in a trace. *)
Definition insight_calls (tr : list Event) : list Json :=
  omap (fun ev => match ev with EvInsights p => Some p | _ => None end) tr.

(** The calls to [analyze_dataframe] in a trace. *)
Definition analyzer_calls (tr : list Event) : list (DataFrame * string) :=
  omap (fun ev => match ev with
                  | EvAnalyze _ df label => Some (df, label)
                  | _ => None
                  end) tr.

(** The mapping handed to the insight generator: the display name, the
    domain, every table-level score under its own key, and the issues. *)
Definition payload_shape (name : string) (domain : Json) (scores : Dict)
    (issues_v : Json) (p : Dict) : Prop :=
  p !! "table_name" = Some (JStr name)
  /\ p !! "domain" = Some domain
  /\ p !! "issues" = Some issues_v
  /\ (forall k, k <> "issues" -> is_Some (scores !! k) -> p !! k = scores !! k)
  /\ dom p = {[ "table_name"; "domain"; "issues" ]} ∪ dom scores.

(** An analyzer that never updates the instance it is called on. *)
Definition keeps_instance (A : Analyzer) : Prop :=
  forall self df label, fst (analyze_dataframe A self df label) = self.

(** What every handler guarantees about the analyzer: it constructs none,
    and it leaves the shared instance as it was if the method itself does. *)
Definition analyzer_kept (A : Analyzer) (w w' : World) : Prop :=
  none_constructed w w' /\ (keeps_instance A -> same_instance w w').

(** The engine's three entries as a response shows them. *)
Definition response_engine_fields (r : Response)
  : option Json * option Json * option Json :=
  (response_field r "table_scores", response_field r "field_analyses",
   response_field r "issues").

(** The engine's entries an upload is answered with, read off the
    analyzer's outcome: none unless a file named [*.csv] was parsed and
    analysed. *)
Definition csv_engine_outcome (A : Analyzer) (env : Env)
    (files : gmap string FileStorage) (self : Dict)
  : option Json * option Json * option Json :=
  match files !! "file" with
  | None => (None, None, None)
  | Some file =>
      if bool_decide (filename file = "") then (None, None, None)
      else if negb (endswith (filename file) ".csv") then (None, None, None)
      else match pd_read_csv env (content file) with
           | inl _ => (None, None, None)
           | inr df =>
               match snd (analyze_dataframe A self df (filename file)) with
               | inl _ => (None, None, None)
               | inr analysis => engine_fields analysis
               end
           end
  end.

(** Override weights that can be renormalised: none negative, not all
    zero. *)
Definition weights_ok (cfg : Config) : Prop :=
  match weights cfg with
  | None => True
  | Some w =>
      (0 <= w_completeness w /\ 0 <= w_correctness w
       /\ 0 <= w_uniqueness w /\ 0 <= w_consistency w
       /\ 0 < weights_sum w)%Q
  end.

(** The routes of this development, as Flask dispatches them. *)
Inductive Request : Type :=
  | PostAnalyzeTable (table_name : string)
  | PostAnalyzeCsv (files : gmap string FileStorage)
  | PostReviewInsight (insight_id : Z) (request_json : Exn + Json).

Definition dispatch (A : Analyzer) (env : Env) (req : Request)
  : World -> Response * World :=
  match req with
  | PostAnalyzeTable table_name => analyze_table A env table_name
  | PostAnalyzeCsv files => analyze_csv A env files
  | PostReviewInsight insight_id request_json =>
      review_insight env request_json insight_id
  end.

(* ===================================================================== *)
(** ** Worked inputs *)
(* ===================================================================== *)

(** A table with one row, and the same table with none. *)
Definition one_row : gmap string Scalar := <["id" := SStr "E1"]> ∅.
Definition df_one : DataFrame := mkDataFrame ["id"] [one_row].
Definition df_empty : DataFrame := mkDataFrame ["id"] [].

Definition llm_down : Exn := mkExn "ConnectionError" "connection refused".

(** A database with one employee, pandas reading it, and an insight
    generator that answers. *)
Definition env_up : Env :=
  mkEnv (fun _ => inr [one_row]) (fun _ => inr df_one) (fun _ => inr df_one)
        (fun _ => inr (JStr "looks fine")) (fun _ _ => inr "HR")
        None (fun _ => None) 1700000000.

(** The same with the insight generator unreachable. *)
Definition env_llm_down : Env :=
  mkEnv (fun _ => inr [one_row]) (fun _ => inr df_one) (fun _ => inr df_one)
        (fun _ => inl llm_down) (fun _ _ => inr "HR")
        None (fun _ => None) 1700000000.

(** Empty tables, and an upload with a header line only. *)
Definition env_no_rows : Env :=
  mkEnv (fun _ => inr []) (fun _ => inr df_empty) (fun _ => inr df_empty)
        (fun _ => inr (JStr "nothing to say")) (fun _ _ => inr "HR")
        None (fun _ => None) 1700000000.

(** A database that refuses the commit. *)
Definition env_commit_fails : Env :=
  mkEnv (fun _ => inr [one_row]) (fun _ => inr df_one) (fun _ => inr df_one)
        (fun _ => inr (JStr "looks fine")) (fun _ _ => inr "HR")
        None (fun _ => Some (mkExn "OperationalError" "database is locked"))
        1700000000.

Definition upload : gmap string FileStorage :=
  <["file" := mkFile "staff.csv" "id"]> ∅.

Definition an_insight : DQInsight :=
  mkDQInsight "table" "employees" "missing_values" "high"
              "many blanks" "fill them" false JNull JNull None.

Definition world_with_insight : World :=
  mkWorld ∅ (<[7%Z := an_insight]> ∅) ∅ [EvConstructAnalyzer].

(** An analyzer class that counts its calls in the instance and reports
    the count as the overall score: it makes visible which instance a call
    ran on. *)
Definition call_count (self : Dict) : Q :=
  match self !! "calls" with
  | Some (JNum n) => n
  | _ => 0
  end.

Definition counting_analyzer : Analyzer :=
  mkAnalyzer (<["calls" := JNum 0]> ∅)
    (fun self df label =>
       (<["calls" := JNum (Qred (call_count self + 1))]> self,
        inr (<["table_scores" :=
                 JObj (<["overall_score" := JNum (call_count self)]> ∅)]>
             (<["field_analyses" := JList []]>
             (<["issues" := JList []]> ∅))))).

(* ===================================================================== *)
(** ** The other routes: Python values at run time *)
(* ===================================================================== *)

(** What the map model of a value forgets or cannot compute, as the
    interpreter provides it: [str(v)] of a value that is not a string, the
    iteration order of a dictionary, [round(x, 1)] and the clock. *)
Record Runtime : Type := mkRuntime {
  py_repr : Json -> string;
  py_keys : Dict -> list string;
  py_round1 : Q -> Q;
  py_now_isoformat : string
}.

(** [str(v)]. *)
Definition py_str (rt : Runtime) (v : Json) : string :=
  match v with
  | JStr s => s
  | _ => py_repr rt v
  end.

(** An integer as a JSON number. *)
Definition JInt (n : Z) : Json := JNum (inject_Z n).

(** [bool(v)]: [None], [False], zero and the empty string, list and dict
    are false. *)
Definition truthy (v : Json) : bool :=
  match v with
  | JNull => false
  | JBool b => b
  | JNum q => negb (Qeq_bool q 0)
  | JStr s => negb (bool_decide (s = ""))
  | JList l => negb (bool_decide (l = []))
  | JObj m => negb (bool_decide (dom m = ∅))
  end.

(** [for x in v]: a list gives its items, a string its characters, a
    dictionary its keys; anything else is not iterable. *)
Definition py_iter (rt : Runtime) (v : Json) : Exn + list Json :=
  match v with
  | JList l => inr l
  | JStr s => inr (map (fun c => JStr (String c "")) (String.list_ascii_of_string s))
  | JObj m => inr (map JStr (py_keys rt m))
  | _ => inl (mkExn "TypeError" "object is not iterable")
  end.

(** [item in container] for a string [item]. *)
Definition py_contains (container : Json) (item : string) : Exn + bool :=
  match container with
  | JObj m => inr (match m !! item with Some _ => true | None => false end)
  | JList l =>
      inr (existsb (fun v => match v with
                             | JStr s => bool_decide (s = item)
                             | _ => false
                             end) l)
  | JStr s =>
      inr (match String.index 0 item s with Some _ => true | None => false end)
  | _ => inl (mkExn "TypeError" "argument is not iterable")
  end.

(** [container[key]] for a string [key]. *)
Definition py_getitem (container : Json) (key : string) : Exn + Json :=
  match container with
  | JObj m => getitem m key
  | JList _ =>
      inl (mkExn "TypeError" "list indices must be integers or slices, not str")
  | JStr _ => inl (mkExn "TypeError" "string indices must be integers")
  | _ => inl (mkExn "TypeError" "object is not subscriptable")
  end.

(** Applies [f] to the items in order and stops at the first that
    raises. *)
Fixpoint collect {A B} (f : A -> Exn + B) (l : list A) : Exn + list B :=
  match l with
  | [] => inr []
  | x :: l' =>
      match f x with
      | inl e => inl e
      | inr y => match collect f l' with
                 | inl e => inl e
                 | inr ys => inr (y :: ys)
                 end
      end
  end.

(** Characters are code points below 256; [str.isspace] holds there for
    tab to carriage return, the four separators 28 to 31, the space, NEL
    and the no-break space. *)
Definition py_isspace (c : Ascii.ascii) : bool :=
  let n := Ascii.nat_of_ascii c in
  ((9 <=? n)%nat && (n <=? 13)%nat) || ((28 <=? n)%nat && (n <=? 32)%nat)
  || (n =? 133)%nat || (n =? 160)%nat.

Definition is_colon (c : Ascii.ascii) : bool :=
  (Ascii.nat_of_ascii c =? 58)%nat.

(** [':' in s]. *)
Fixpoint has_colon (s : string) : bool :=
  match s with
  | EmptyString => false
  | String c s' => is_colon c || has_colon s'
  end.

(** [s.split(':')[0]]: what precedes the first colon. *)
Fixpoint before_colon (s : string) : string :=
  match s with
  | EmptyString => EmptyString
  | String c s' => if is_colon c then EmptyString else String c (before_colon s')
  end.

(** [s.lstrip()]. *)
Fixpoint lstrip (s : string) : string :=
  match s with
  | EmptyString => EmptyString
  | String c s' => if py_isspace c then lstrip s' else s
  end.

(** [s.rstrip()]. *)
Fixpoint rstrip (s : string) : string :=
  match s with
  | EmptyString => EmptyString
  | String c s' =>
      match rstrip s' with
      | EmptyString => if py_isspace c then EmptyString else String c EmptyString
      | r => String c r
      end
  end.

(** [s.strip()]. *)
Definition strip (s : string) : string := rstrip (lstrip s).

Definition head_char (s : string) : option Ascii.ascii :=
  match s with
  | EmptyString => None
  | String c _ => Some c
  end.

Fixpoint last_char (s : string) : option Ascii.ascii :=
  match s with
  | EmptyString => None
  | String c EmptyString => Some c
  | String _ s' => last_char s'
  end.

(* ===================================================================== *)
(** ** GET /api/domains/from-database, /api/stats/overall and
       /api/stats/dashboard-overview *)
(* ===================================================================== *)

(** Rows of [DQScore] (src/models/database_models.py), with the two
    columns the overview reads. *)
Record DQScore : Type := mkDQScore { score_overall : Q; score_grade : string }.

(** The read-only queries of these routes: [session.query(Model).count()]
    by table, and [session.query(DQScore).all()]. *)
Record Database : Type := mkDatabase {
  db_count : string -> Exn + Z;
  db_scores : Exn + list DQScore
}.

(** [{'name': name, 'source': source}]. *)
Definition domain_entry (name source : string) : Json :=
  JObj (<["source" := JStr source]> (<["name" := JStr name]> ∅)).

(** [if count > 0: domains.append(entry)]. *)
Definition append_if_rows (n : Z) (entry : Json) (domains : list Json)
  : list Json :=
  if (0 <? n)%Z then domains ++ [entry] else domains.

Definition default_domains : list Json :=
  [domain_entry "HR" "default"; domain_entry "Finance" "default"].

(** Lines 198-228. Nothing catches here: a failing query leaves the view
    through the [finally]. *)
Definition get_domains_from_database_view (db : Database) : Run Response :=
  exec new_session in
  try_finally
    (let domains := [] in
     let* n := lift (db_count db "employees") in
     let domains := append_if_rows n (domain_entry "HR" "employees") domains in
     let* n := lift (db_count db "payroll") in
     let domains := append_if_rows n (domain_entry "Payroll" "payroll") domains in
     let* n := lift (db_count db "invoices") in
     let domains := append_if_rows n (domain_entry "Finance" "invoices") domains in
     let* n := lift (db_count db "expenses") in
     let domains := append_if_rows n (domain_entry "Expenses" "expenses") domains in
     let domains := match domains with [] => default_domains | _ => domains end in
     ret (mkResponse 200
            (JObj (<["source" := JStr "database"]>
                   (<["domains" := JList domains]>
                   (<["success" := JBool true]> ∅))))))
    session_close.

Definition get_domains_from_database (db : Database)
  : World -> Response * World :=
  serve (get_domains_from_database_view db).

(** Lines 381-399. *)
Definition get_overall_stats_view (db : Database) : Run Response :=
  exec new_session in
  try_finally
    (let* employees := lift (db_count db "employees") in
     let* invoices := lift (db_count db "invoices") in
     let* expenses := lift (db_count db "expenses") in
     let* payroll := lift (db_count db "payroll") in
     ret (mkResponse 200
            (JObj (<["stats" :=
                       JObj (<["total_payroll_records" := JInt payroll]>
                             (<["total_expenses" := JInt expenses]>
                             (<["total_invoices" := JInt invoices]>
                             (<["total_employees" := JInt employees]> ∅))))]>
                   (<["success" := JBool true]> ∅)))))
    session_close.

Definition get_overall_stats (db : Database) : World -> Response * World :=
  serve (get_overall_stats_view db).

(** [len([s for s in scores if s.quality_grade in ['C', 'D']])]. *)
Definition graded_c_or_d (scores : list DQScore) : list DQScore :=
  filter (fun s => score_grade s = "C" \/ score_grade s = "D") scores.

(** [sum(s.overall_score for s in scores) / len(scores)]. *)
Definition average_score (scores : list DQScore) : Q :=
  Qsum (map score_overall scores) / inject_Z (Z.of_nat (length scores)).

(** The [overview] dictionary of lines 410-437 once the queries are
    answered. *)
Definition overview_dict (rt : Runtime) (employees payroll invoices expenses : Z)
    (scores : list DQScore) : Dict :=
  let overview : Dict :=
    <["last_updated" := JStr (py_now_isoformat rt)]>
    (<["issues_found" := JInt 0]>
    (<["avg_quality" := JInt 0]>
    (<["data_tables" := JInt 4]>
    (<["total_records" := JInt 0]>
    (<["table_name" := JStr "Sample Data"]> ∅))))) in
  let overview :=
    <["total_records" := JInt (0 + employees + payroll + invoices + expenses)]>
      overview in
  match scores with
  | [] => overview
  | _ :: _ =>
      <["issues_found" := JInt (Z.of_nat (length (graded_c_or_d scores)))]>
      (<["avg_quality" := JNum (py_round1 rt (average_score scores))]> overview)
  end.

(** Lines 402-447: the session is opened inside the [try] and closed on
    its last line. *)
Definition get_dashboard_overview_view (rt : Runtime) (db : Database)
  : Run Response :=
  try_except
    (exec new_session in
     let* employees := lift (db_count db "employees") in
     let* payroll := lift (db_count db "payroll") in
     let* invoices := lift (db_count db "invoices") in
     let* expenses := lift (db_count db "expenses") in
     let* scores := lift (db_scores db) in
     let overview :=
       overview_dict rt employees payroll invoices expenses scores in
     exec session_close in
     ret (mkResponse 200
            (JObj (<["overview" := JObj overview]>
                   (<["success" := JBool true]> ∅)))))
    (fun e => ret (failure 500 (str_exn e))).

Definition get_dashboard_overview (rt : Runtime) (db : Database)
  : World -> Response * World :=
  serve (get_dashboard_overview_view rt db).

(* ===================================================================== *)
(** ** POST /api/generate-detailed-issue-analysis and /api/analyze/field *)
(* ===================================================================== *)

(** The two methods of [LLMService] these routes call. *)
Record Llm : Type := mkLlm {
  llm_generate_detailed_issue_analyses : Json -> Json -> Json -> Exn + Json;
  llm_analyze_field_quality : Json -> Exn + Json
}.

(** Line 269: ['Immediate' if i < 2 else ('High' if i < 4 else 'Medium')]. *)
Definition position_priority (i : nat) : string :=
  if (i <? 2)%nat then "Immediate"
  else if (i <? 4)%nat then "High"
  else "Medium".

(** Lines 272-275: the text before the first colon, stripped, else
    ['General']. *)
Definition finding_field (rt : Runtime) (finding : Json) : string :=
  if has_colon (py_str rt finding)
  then strip (before_colon (py_str rt finding))
  else "General".

(** Lines 277-282. *)
Definition critical_finding (rt : Runtime) (i : nat) (finding : Json) : Json :=
  JObj (<["impact" := JStr "Data quality and downstream processes affected"]>
        (<["priority" := JStr (position_priority i)]>
        (<["finding" := JStr (py_str rt finding)]>
        (<["field" := JStr (finding_field rt finding)]> ∅)))).

(** Line 287. *)
Definition priority_map : gmap string string :=
  <["low" := "Low"]> (<["medium" := "Medium"]>
  (<["high" := "High"]> (<["critical" := "Immediate"]> ∅))).

(** [priority_map.get(key, 'Medium')]: a list or a dict cannot be hashed. *)
Definition priority_map_get (key : Json) : Exn + string :=
  match key with
  | JStr s => inr (default "Medium" (priority_map !! s))
  | JList _ => inl (mkExn "TypeError" "unhashable type: 'list'")
  | JObj _ => inl (mkExn "TypeError" "unhashable type: 'dict'")
  | _ => inr "Medium"
  end.

(** Lines 285-300, one item. *)
Definition recommended_action (rt : Runtime) (action_item : Json)
  : Exn + Json :=
  match action_item with
  | JObj m =>
      match priority_map_get (default (JStr "medium") (m !! "priority")) with
      | inl e => inl e
      | inr priority =>
          inr (JObj (<["details" := JStr ""]>
                     (<["priority" := JStr priority]>
                     (<["action" := default (JStr "") (m !! "action")]> ∅))))
      end
  | _ =>
      inr (JObj (<["details" := JStr ""]>
                 (<["priority" := JStr "Medium"]>
                 (<["action" := JStr (py_str rt action_item)]> ∅))))
  end.

(** Lines 248-310; [data] is what [request.json] gave. The three
    [data.get] come before the [try]. *)
Definition generate_detailed_issue_analysis_view (rt : Runtime) (llm : Llm)
    (data : Json) : Run Response :=
  let* issues_v := lift (json_get data "issues" (JList [])) in
  let* field_analyses_v := lift (json_get data "field_analyses" (JList [])) in
  let* domain := lift (json_get data "domain" (JStr "Data")) in
  try_except
    (let* result :=
       lift (llm_generate_detailed_issue_analyses llm issues_v
               field_analyses_v domain) in
     let* result_domain := lift (json_get result "domain" domain) in
     let* findings_v := lift (json_get result "critical_findings" (JList [])) in
     let* findings := lift (py_iter rt findings_v) in
     let critical_findings := imap (critical_finding rt) findings in
     let* actions_v :=
       lift (json_get result "recommended_actions" (JList [])) in
     let* action_items := lift (py_iter rt actions_v) in
     let* recommended_actions :=
       lift (collect (recommended_action rt) action_items) in
     let* issue_analyses :=
       lift (json_get result "critical_findings" (JList [])) in
     ret (mkResponse 200
            (JObj (<["issue_analyses" := issue_analyses]>
                   (<["structured_analysis" :=
                        JObj (<["recommended_actions" :=
                                  JList recommended_actions]>
                              (<["critical_findings" :=
                                   JList critical_findings]>
                              (<["domain" := result_domain]> ∅)))]>
                   (<["success" := JBool true]> ∅))))))
    (fun e =>
       exec print "traceback" in
       ret (failure 500 (str_exn e))).

Definition generate_detailed_issue_analysis (rt : Runtime) (llm : Llm)
    (data : Json) : World -> Response * World :=
  serve (generate_detailed_issue_analysis_view rt llm data).

(** Lines 330-348; [data] is what [request.json] gave. The guard is
    outside the [try]. *)
Definition analyze_field_view (llm : Llm) (data : Json) : Run Response :=
  if negb (truthy data) then ret (failure 400 "Missing field statistics")
  else
    let* present := lift (py_contains data "field_stats") in
    if negb present then ret (failure 400 "Missing field statistics")
    else
      try_except
        (let* field_stats := lift (py_getitem data "field_stats") in
         let* llm_result := lift (llm_analyze_field_quality llm field_stats) in
         ret (mkResponse 200
                (JObj (<["insights" := llm_result]>
                       (<["success" := JBool true]> ∅)))))
        (fun e => ret (failure 500 (str_exn e))).

(** The route function [analyze_field] of line 331; the name is taken by
    the engine's per-column analysis. *)
Definition api_analyze_field (llm : Llm) (data : Json)
  : World -> Response * World :=
  serve (analyze_field_view llm data).

(** [body[k1][k2]] of a response. *)
Definition body_path (r : Response) (k1 k2 : string) : option Json :=
  match body r with
  | JObj m => match m !! k1 with
              | Some (JObj a) => a !! k2
              | _ => None
              end
  | _ => None
  end.

(** [body[k]] of a response. *)
Definition body_field (r : Response) (k : string) : option Json :=
  match body r with
  | JObj m => m !! k
  | _ => None
  end.

(** The row [review_insight] stores for a body [m] over the row [i0]. *)
Definition reviewed_row (env : Env) (m : Dict) (i0 : DQInsight) : DQInsight :=
  with_reviewed_at (now env)
    (with_reviewed_by (default (JStr "Admin") (m !! "reviewer"))
       (with_is_approved (default (JBool false) (m !! "approved"))
          (with_is_reviewed true i0))).

(** The pending changes [review_insight] asks the database to commit. *)
Definition review_pending (env : Env) (m : Dict) (insight_id : Z)
    (i0 : DQInsight) : gmap Z DQInsight :=
  let i1 := with_is_reviewed true i0 in
  let i2 := with_is_approved (default (JBool false) (m !! "approved")) i1 in
  let i3 := with_reviewed_by (default (JStr "Admin") (m !! "reviewer")) i2 in
  <[insight_id := with_reviewed_at (now env) i3]>
    (<[insight_id := i3]> (<[insight_id := i2]> (<[insight_id := i1]> ∅))).

(** The uploads the CSV route refuses. *)
Definition bad_upload (files : gmap string FileStorage) : Prop :=
  match files !! "file" with
  | None => True
  | Some file => filename file = "" \/ endswith (filename file) ".csv" = false
  end.

(** The engine's three entries of a response are those of [analysis]. *)
Definition engine_fields_of_response_eq (r : Response) (analysis : Dict)
  : Prop :=
  response_engine_fields r = engine_fields analysis.

(** An analyzer whose dictionary lacks the [table_scores] entry. *)
Definition bare_analyzer : Analyzer :=
  mkAnalyzer ∅ (fun self df label => (self, inr (<["issues" := JList []]> ∅))).

(** An analyzer's dictionary whose table scores hold a [table_name] and an
    [issues] key of their own. *)
Definition clashing_analysis : Dict :=
  <["issues" := JList [JStr "late"]]>
  (<["table_scores" :=
       JObj (<["issues" := JStr "early"]>
             (<["table_name" := JStr "other"]> ∅))]> ∅).

(** A review body. *)
Definition approve_body : Exn + Json :=
  inr (JObj (<["approved" := JBool true]> ∅)).

(** [v] is the record [{'success': False, 'error': msg}] and nothing
    more. *)
Definition is_failure_record (v : option Json) (msg : string) : Prop :=
  exists rec,
    v = Some (JObj rec)
    /\ rec !! "success" = Some (JBool false)
    /\ rec !! "error" = Some (JStr msg)
    /\ dom rec = {[ "success"; "error" ]}.

(** What the insight step may leave under [ai_insights] for an analysis:
    the value the generator returned for the payload built from it, or
    the failure record of the exception that building the payload or the
    generator raised. *)
Definition generator_entry (env : Env) (name : string) (domain : Json)
    (analysis : Dict) (v : option Json) : Prop :=
  (exists p r,
      insights_payload name domain analysis = inr p
      /\ analyze_table_quality env (JObj p) = inr r
      /\ v = Some r)
  \/ (exists e,
         (insights_payload name domain analysis = inl e
          \/ exists p, insights_payload name domain analysis = inr p
                       /\ analyze_table_quality env (JObj p) = inl e)
         /\ is_failure_record v (str_exn e)).

(** Line 31: [app.config['MAX_CONTENT_LENGTH']], 16 MB. *)
Definition MAX_CONTENT_LENGTH : Z := 16 * 1024 * 1024.

(** An upload as it reaches the view: the length its [Content-Length]
    header declares, if it has one, and what werkzeug's form parser makes
    of a body it agrees to read: the mapping of uploaded files, or
    nothing when the parser itself gives up with [RequestEntityTooLarge]
    on one of its own limits. *)
Record UploadRequest : Type := mkUpload {
  content_length : option Z;
  parsed_files : option (gmap string FileStorage)
}.

(** Evaluating [request.files]: a body declared longer than
    [MAX_CONTENT_LENGTH] is refused with [RequestEntityTooLarge] before
    it is parsed. *)
Definition request_files (req : UploadRequest)
  : option (gmap string FileStorage) :=
  match content_length req with
  | Some n =>
      if (MAX_CONTENT_LENGTH <? n)%Z then None else parsed_files req
  | None => parsed_files req
  end.

(** What Flask answers for a [RequestEntityTooLarge] that leaves a view:
    status 413 with werkzeug's own error page, which is not JSON and is
    kept here as its title; the handlers of lines 794-801 are for 404 and
    500 only. *)
Definition request_entity_too_large : Response :=
  mkResponse 413 (JStr "Request Entity Too Large").

(** The CSV route as Flask runs it: line 130 evaluates [request.files]
    outside any [try], so its exception leaves the view at once;
    otherwise the view runs on the mapping of files. *)
Definition analyze_csv_request (A : Analyzer) (env : Env)
    (req : UploadRequest) : World -> Response * World :=
  fun w =>
    match request_files req with
    | None => (request_entity_too_large, w)
    | Some files => analyze_csv A env files w
    end.

(** An upload declared one byte above the limit, and one within it that
    brings no file. *)
Definition oversized_upload : UploadRequest :=
  mkUpload (Some (MAX_CONTENT_LENGTH + 1)%Z) (Some upload).

Definition empty_upload : UploadRequest :=
  mkUpload (Some 0%Z) (Some ∅).

(** Worked inputs for the other routes. *)
Definition runtime0 : Runtime :=
  mkRuntime (fun _ => "?") (fun _ => []) (fun q => q) "2024-01-01T00:00:00".


Definition db_down : Database :=
  mkDatabase (fun _ => inl (mkExn "OperationalError" "no such table"))
             (inl (mkExn "OperationalError" "no such table")).

Definition llm_findings : Llm :=
  mkLlm (fun _ _ _ =>
           inr (JObj (<["recommended_actions" :=
                          JList [JObj (<["priority" := JStr "critical"]>
                                       (<["action" := JStr "fix"]> ∅));
                                 JStr "review"] ]>
                      (<["critical_findings" :=
                           JList [JStr " email : 40% invalid"; JStr "no owner";
                                  JStr "id: duplicates"] ]> ∅))))
        (fun stats => inr stats).

(* ===================================================================== *)
(** * Properties of the routes *)
(* ===================================================================== *)

Create HintDb run discriminated.
#[global] Hint Unfold bind ret raise lift try_except try_finally log print
  new_session session_close session_rollback serve : run.

(** Executes the glue of a handler symbolically. *)
Ltac run := autounfold with run; cbn [fst snd].

Section InsightStep.

Variable env : Env.
Variables (name : string) (domain : Json) (analysis : Dict).

(** The insight step written as the three ways it can go. *)
Lemma generate_insights_run (w : World) :
  generate_insights env name domain analysis w =
  match insights_payload name domain analysis with
  | inl e =>
      (inr (<["ai_insights" := insights_failure e]> analysis),
       logged w [EvPrint ("LLM Error: " ++ str_exn e)])
  | inr p =>
      match analyze_table_quality env (JObj p) with
      | inr llm_result =>
          (inr (<["ai_insights" := llm_result]> analysis),
           logged w [EvInsights (JObj p)])
      | inl e =>
          (inr (<["ai_insights" := insights_failure e]> analysis),
           logged w [EvInsights (JObj p);
                     EvPrint ("LLM Error: " ++ str_exn e)])
      end
  end.
Proof.
  unfold generate_insights, logged. run.
  destruct (insights_payload name domain analysis) as [e|p]; cbn.
  - reflexivity.
  - destruct (analyze_table_quality env (JObj p)) as [e|r]; cbn;
      rewrite <- ?app_assoc; reflexivity.
Qed.

(** The insight step never raises and only adds the key [ai_insights]. *)
Lemma generate_insights_total (w : World) :
  exists v evs,
    generate_insights env name domain analysis w
    = (inr (<["ai_insights" := v]> analysis), logged w evs).
Proof.
  rewrite generate_insights_run.
  destruct (insights_payload name domain analysis) as [e|p]; eauto.
  destruct (analyze_table_quality env (JObj p)); eauto.
Qed.

End InsightStep.

(** Adding the two pass-through keys leaves the engine's entries alone. *)
Lemma engine_fields_ai_insights (v : Json) (d : Dict) :
  engine_fields (<["ai_insights" := v]> d) = engine_fields d.
Proof.
  unfold engine_fields. rewrite !lookup_insert_ne by discriminate. reflexivity.
Qed.

Lemma engine_fields_detected_domain (v : Json) (d : Dict) :
  engine_fields (<["detected_domain" := v]> d) = engine_fields d.
Proof.
  unfold engine_fields. rewrite !lookup_insert_ne by discriminate. reflexivity.
Qed.

Lemma response_field_analysis (out : Dict) (k : string) :
  response_field (analysis_response out) k = out !! k.
Proof.
  unfold response_field, analysis_response; cbn.
  rewrite lookup_insert_eq. reflexivity.
Qed.

Lemma table_map_member (t : string) :
  t ∈ table_map -> bool_decide (t ∈ table_map) = true.
Proof. intros H. apply bool_decide_eq_true. exact H. Qed.

Section TableRoute.

Variables (A : Analyzer) (env : Env) (table_name : string) (w : World).

(** The table route when the name is known, the table has rows and
    pandas reads it: the analyzer runs on the shared instance and its
    outcome decides the rest. *)
Lemma analyze_table_reaches_analyzer row rows0 df :
  table_name ∈ table_map ->
  db_query_all env table_name = inr (row :: rows0) ->
  pd_read_sql env table_name = inr df ->
  analyze_table A env table_name w =
  let '(self', r) := analyze_dataframe A (dq_analyzer w) df table_name in
  let w1 := mkWorld self' (insights w) ∅
              (trace w ++ [EvQueryAll table_name; EvReadSql table_name;
                           EvAnalyze (dq_analyzer w) df table_name]) in
  match r with
  | inl e =>
      (failure 500 (str_exn e), logged w1 [EvPrint "traceback"; EvClose])
  | inr analysis =>
      match generate_insights env table_name (JStr "HR/Finance")
                              analysis w1 with
      | (inr out, w2) => (analysis_response out, logged w2 [EvClose])
      | (inl e, w2) =>
          (failure 500 (str_exn e), logged w2 [EvPrint "traceback"; EvClose])
      end
  end.
Proof.
  intros Hin Hq Hsql.
  unfold analyze_table, analyze_table_view, call_analyzer. run.
  rewrite (table_map_member _ Hin); cbn.
  rewrite Hq; cbn. rewrite Hsql; cbn.
  destruct (analyze_dataframe A (dq_analyzer w) df table_name) as [self' [e|an]];
    cbn.
  - unfold logged; cbn. rewrite <- !app_assoc. reflexivity.
  - rewrite <- !app_assoc; cbn.
    destruct (generate_insights_total env table_name (JStr "HR/Finance") an
                (mkWorld self' (insights w) ∅
                   (trace w ++ [EvQueryAll table_name; EvReadSql table_name;
                                EvAnalyze (dq_analyzer w) df table_name])))
      as (v & evs & ->).
    unfold logged; cbn. rewrite <- !app_assoc. reflexivity.
Qed.

End TableRoute.

Section CsvRoute.

Variables (A : Analyzer) (env : Env) (files : gmap string FileStorage).
Variable w : World.

(** The domain step never raises and only adds [detected_domain], the
    word the generator gave or ['Unknown']. *)
Lemma detect_domain_step_run (df : DataFrame) (name : string)
    (analysis : Dict) (w0 : World) :
  detect_domain_step env df name analysis w0 =
  (inr (<["detected_domain" := JStr (csv_domain env df name)]> analysis),
   logged w0 (detect_events env df name)).
Proof.
  unfold detect_domain_step, csv_domain, detect_events, logged. run.
  destruct (detect_domain_single_word env (columns df) name); cbn;
    rewrite <- ?app_assoc; reflexivity.
Qed.

(** The CSV route once a file named [*.csv] is there and pandas parses
    it. *)
Lemma analyze_csv_reaches_analyzer file df :
  files !! "file" = Some file ->
  filename file <> "" ->
  endswith (filename file) ".csv" = true ->
  pd_read_csv env (content file) = inr df ->
  analyze_csv A env files w =
  let '(self', r) := analyze_dataframe A (dq_analyzer w) df (filename file) in
  let w1 := mkWorld self' (insights w) (session_dirty w)
              (trace w ++ [EvReadCsv (filename file);
                           EvAnalyze (dq_analyzer w) df (filename file)]) in
  match r with
  | inl e => (failure 500 (str_exn e), w1)
  | inr analysis =>
      let domain := JStr (csv_domain env df (filename file)) in
      match generate_insights env (filename file) domain
              (<["detected_domain" := domain]> analysis)
              (logged w1 (detect_events env df (filename file))) with
      | (inr out, w2) => (analysis_response out, w2)
      | (inl e, w2) => (failure 500 (str_exn e), w2)
      end
  end.
Proof.
  intros Hfile Hname Hcsv Hread.
  unfold analyze_csv, analyze_csv_view, call_analyzer.
  rewrite Hfile.
  rewrite bool_decide_eq_false_2 by exact Hname.
  rewrite Hcsv; cbn [negb].
  pose proof (detect_domain_step_run df (filename file)) as Hdet.
  run. rewrite Hread; cbn.
  destruct (analyze_dataframe A (dq_analyzer w) df (filename file))
    as [self' [e'|an]]; cbn.
  - rewrite <- !app_assoc. reflexivity.
  - rewrite <- !app_assoc; cbn.
    rewrite Hdet. cbn.
    rewrite lookup_insert_eq; cbn.
    match goal with
    | |- context [generate_insights ?a ?b ?c ?d ?e] =>
        destruct (generate_insights_total a b c d e) as (v & evs & ->)
    end.
    reflexivity.
Qed.

End CsvRoute.

(* ===================================================================== *)
(** ** A failing insight generator *)
(* ===================================================================== *)

Section InsightFailure.

Variables (A : Analyzer) (env : Env) (e : Exn).
Hypothesis generator_down :
  forall payload, analyze_table_quality env payload = inl e.

(** What the insight step stores when the generator is down: the
    failure record, for the generator's exception or for the one raised
    while the payload was assembled. *)
Lemma generate_insights_down name domain analysis w :
  exists e' evs,
    generate_insights env name domain analysis w
    = (inr (<["ai_insights" := insights_failure e']> analysis), logged w evs)
    /\ (e' = e \/ insights_payload name domain analysis = inl e').
Proof using generator_down.
  rewrite generate_insights_run.
  destruct (insights_payload name domain analysis) as [e'|p].
  - exists e'. eexists. split; [reflexivity | right; reflexivity].
  - rewrite generator_down. exists e. eexists.
    split; [reflexivity | left; reflexivity].
Qed.

(** The record stored for a failure is [{success: False, error: str(e)}]. *)
Lemma insights_failure_record (e0 : Exn) :
  is_failure_record (Some (insights_failure e0)) (str_exn e0).
Proof.
  unfold is_failure_record, insights_failure. eexists.
  split; [reflexivity|].
  split; [rewrite lookup_insert_ne by discriminate; apply lookup_insert_eq|].
  split; [apply lookup_insert_eq|].
  rewrite !dom_insert_L, dom_empty_L.
  apply set_eq. intros k.
  rewrite !elem_of_union, !elem_of_singleton, elem_of_empty. tauto.
Qed.

(** C1. When [llm_service.analyze_table_quality] raises, both analysis
    routes still answer 200 with [success] true, the [table_scores],
    [field_analyses] and [issues] entries of the response are those the
    analyzer returned, and [ai_insights] is the record
    [{success: False, error}] with the text of the exception raised in
    the insight step. *)
Theorem insight_failure_keeps_engine_fields :
  (forall table_name w row rows0 df analysis,
      table_name ∈ table_map ->
      db_query_all env table_name = inr (row :: rows0) ->
      pd_read_sql env table_name = inr df ->
      snd (analyze_dataframe A (dq_analyzer w) df table_name) = inr analysis ->
      exists e',
        status (fst (analyze_table A env table_name w)) = 200%Z
        /\ success_flag (fst (analyze_table A env table_name w))
           = Some (JBool true)
        /\ response_field (fst (analyze_table A env table_name w))
             "table_scores" = analysis !! "table_scores"
        /\ response_field (fst (analyze_table A env table_name w))
             "field_analyses" = analysis !! "field_analyses"
        /\ response_field (fst (analyze_table A env table_name w))
             "issues" = analysis !! "issues"
        /\ is_failure_record
             (response_field (fst (analyze_table A env table_name w))
                "ai_insights") (str_exn e')
        /\ (e' = e
            \/ insights_payload table_name (JStr "HR/Finance") analysis
               = inl e'))
  /\
  (forall files w file df analysis,
      files !! "file" = Some file ->
      filename file <> "" ->
      endswith (filename file) ".csv" = true ->
      pd_read_csv env (content file) = inr df ->
      snd (analyze_dataframe A (dq_analyzer w) df (filename file))
        = inr analysis ->
      exists e',
        status (fst (analyze_csv A env files w)) = 200%Z
        /\ success_flag (fst (analyze_csv A env files w)) = Some (JBool true)
        /\ response_field (fst (analyze_csv A env files w)) "table_scores"
           = analysis !! "table_scores"
        /\ response_field (fst (analyze_csv A env files w)) "field_analyses"
           = analysis !! "field_analyses"
        /\ response_field (fst (analyze_csv A env files w)) "issues"
           = analysis !! "issues"
        /\ is_failure_record
             (response_field (fst (analyze_csv A env files w)) "ai_insights")
             (str_exn e')
        /\ (e' = e
            \/ insights_payload (filename file)
                 (JStr (csv_domain env df (filename file)))
                 (<["detected_domain" :=
                      JStr (csv_domain env df (filename file))]> analysis)
               = inl e')).
Proof using generator_down.
  split.
  - intros table_name w row rows0 df analysis Hin Hq Hsql Han.
    rewrite (analyze_table_reaches_analyzer A env table_name w row rows0 df)
      by assumption.
    destruct (analyze_dataframe A (dq_analyzer w) df table_name)
      as [self' r]; cbn in Han; subst r.
    cbv zeta.
    match goal with
    | |- context [generate_insights ?a ?b ?c ?d ?w1] =>
        destruct (generate_insights_down b c d w1) as (e' & evs & Hrun & He')
    end.
    rewrite Hrun. exists e'. cbn [fst].
    rewrite !response_field_analysis.
    split; [reflexivity|]. split; [reflexivity|].
    split; [apply lookup_insert_ne; discriminate|].
    split; [apply lookup_insert_ne; discriminate|].
    split; [apply lookup_insert_ne; discriminate|].
    split; [rewrite lookup_insert_eq; apply insights_failure_record|].
    exact He'.
  - intros files w file df analysis Hfile Hname Hcsv Hread Han.
    rewrite (analyze_csv_reaches_analyzer A env files w file df)
      by assumption.
    destruct (analyze_dataframe A (dq_analyzer w) df (filename file))
      as [self' r]; cbn in Han; subst r.
    cbv zeta.
    match goal with
    | |- context [generate_insights ?a ?b ?c ?d ?w1] =>
        destruct (generate_insights_down b c d w1) as (e' & evs & Hrun & He')
    end.
    rewrite Hrun. exists e'. cbn [fst].
    rewrite !response_field_analysis.
    split; [reflexivity|]. split; [reflexivity|].
    split; [do 2 (rewrite lookup_insert_ne by discriminate); reflexivity|].
    split; [do 2 (rewrite lookup_insert_ne by discriminate); reflexivity|].
    split; [do 2 (rewrite lookup_insert_ne by discriminate); reflexivity|].
    split; [rewrite lookup_insert_eq; apply insights_failure_record|].
    exact He'.
Qed.

End InsightFailure.

Lemma employees_known : "employees" ∈ table_map.
Proof. apply list_elem_of_here. Defined.

Lemma insight_failure_keeps_engine_fields_witness :
  let resp := fst (analyze_table counting_analyzer env_llm_down "employees"
                     (module_init counting_analyzer)) in
  exists e',
    status resp = 200%Z
    /\ success_flag resp = Some (JBool true)
    /\ response_field resp "table_scores"
       = Some (JObj (<["overall_score" := JNum 0]> ∅))
    /\ response_field resp "field_analyses" = Some (JList [])
    /\ response_field resp "issues" = Some (JList [])
    /\ is_failure_record (response_field resp "ai_insights") (str_exn e')
    /\ (e' = llm_down
        \/ insights_payload "employees" (JStr "HR/Finance")
             (<["table_scores" :=
                  JObj (<["overall_score" := JNum 0]> ∅)]>
              (<["field_analyses" := JList []]>
              (<["issues" := JList []]> ∅))) = inl e').
Proof.
  cbv zeta.
  exact (proj1 (insight_failure_keeps_engine_fields
                  counting_analyzer env_llm_down llm_down
                  (fun _ => eq_refl))
           "employees" (module_init counting_analyzer)
           one_row [] df_one
           (<["table_scores" := JObj (<["overall_score" := JNum 0]> ∅)]>
            (<["field_analyses" := JList []]>
            (<["issues" := JList []]> ∅)))
           employees_known eq_refl eq_refl eq_refl).
Defined.

(* ===================================================================== *)
(** ** The ways the two analysis routes end early *)
(* ===================================================================== *)

Section TableRouteExits.

Variables (A : Analyzer) (env : Env) (table_name : string) (w : World).

Lemma analyze_table_unknown :
  table_name ∉ table_map ->
  analyze_table A env table_name w
  = (failure 400 "Invalid table name", closed_after w []).
Proof.
  intros Hout. unfold analyze_table, analyze_table_view, closed_after. run.
  rewrite bool_decide_eq_false_2 by exact Hout. reflexivity.
Qed.

Lemma analyze_table_query_fails e :
  table_name ∈ table_map ->
  db_query_all env table_name = inl e ->
  analyze_table A env table_name w
  = (failure 500 (str_exn e),
     closed_after w [EvQueryAll table_name; EvPrint "traceback"]).
Proof.
  intros Hin Hq. unfold analyze_table, analyze_table_view, closed_after. run.
  rewrite (table_map_member _ Hin); cbn. rewrite Hq; cbn.
  rewrite <- !app_assoc. reflexivity.
Qed.

Lemma analyze_table_no_rows :
  table_name ∈ table_map ->
  db_query_all env table_name = inr [] ->
  analyze_table A env table_name w
  = (failure 404 "No data found", closed_after w [EvQueryAll table_name]).
Proof.
  intros Hin Hq. unfold analyze_table, analyze_table_view, closed_after. run.
  rewrite (table_map_member _ Hin); cbn. rewrite Hq; cbn.
  rewrite <- !app_assoc. reflexivity.
Qed.

Lemma analyze_table_read_fails row rows0 e :
  table_name ∈ table_map ->
  db_query_all env table_name = inr (row :: rows0) ->
  pd_read_sql env table_name = inl e ->
  analyze_table A env table_name w
  = (failure 500 (str_exn e),
     closed_after w [EvQueryAll table_name; EvReadSql table_name;
                     EvPrint "traceback"]).
Proof.
  intros Hin Hq Hsql.
  unfold analyze_table, analyze_table_view, closed_after. run.
  rewrite (table_map_member _ Hin); cbn. rewrite Hq; cbn. rewrite Hsql; cbn.
  rewrite <- !app_assoc. reflexivity.
Qed.

(** A table request that answers 200 went all the way: pandas read the
    table, the analyzer returned, and the body is the analyzer's
    dictionary with [ai_insights] added. *)
Lemma analyze_table_success :
  status (fst (analyze_table A env table_name w)) = 200%Z ->
  exists row rows0 df analysis v,
    table_name ∈ table_map
    /\ db_query_all env table_name = inr (row :: rows0)
    /\ pd_read_sql env table_name = inr df
    /\ snd (analyze_dataframe A (dq_analyzer w) df table_name) = inr analysis
    /\ fst (analyze_table A env table_name w)
       = analysis_response (<["ai_insights" := v]> analysis).
Proof.
  intros Hok.
  destruct (decide (table_name ∈ table_map)) as [Hin|Hout];
    [|rewrite analyze_table_unknown in Hok by exact Hout; discriminate].
  destruct (db_query_all env table_name) as [e|[|row rows0]] eqn:Hq;
    [rewrite (analyze_table_query_fails e) in Hok by assumption; discriminate
    |rewrite analyze_table_no_rows in Hok by assumption; discriminate|].
  destruct (pd_read_sql env table_name) as [e|df] eqn:Hsql;
    [rewrite (analyze_table_read_fails row rows0 e) in Hok by assumption;
     discriminate|].
  rewrite (analyze_table_reaches_analyzer A env table_name w row rows0 df)
    in Hok |- * by assumption.
  destruct (analyze_dataframe A (dq_analyzer w) df table_name)
    as [self' [e|analysis]] eqn:Han; [discriminate|].
  cbv zeta in Hok |- *.
  match goal with
  | |- context [generate_insights ?a ?b ?c ?d ?w1] =>
      destruct (generate_insights_total a b c d w1) as (v & evs & Hrun)
  end.
  rewrite Hrun.
  exists row, rows0, df, analysis, v. repeat split; try assumption.
  rewrite Han. reflexivity.
Qed.

End TableRouteExits.

Section CsvRouteExits.

Variables (A : Analyzer) (env : Env) (files : gmap string FileStorage).
Variable w : World.

Lemma analyze_csv_rejected :
  match files !! "file" with
  | None => True
  | Some file => filename file = "" \/ endswith (filename file) ".csv" = false
  end ->
  status (fst (analyze_csv A env files w)) = 400%Z
  /\ snd (analyze_csv A env files w) = w.
Proof.
  unfold analyze_csv, analyze_csv_view. run.
  destruct (files !! "file") as [file|]; [|intros _; split; reflexivity].
  intros [Hname|Hcsv].
  - rewrite bool_decide_eq_true_2 by exact Hname. split; reflexivity.
  - destruct (bool_decide (filename file = "")); [split; reflexivity|].
    rewrite Hcsv. split; reflexivity.
Qed.

Lemma analyze_csv_read_fails file e :
  files !! "file" = Some file ->
  filename file <> "" ->
  endswith (filename file) ".csv" = true ->
  pd_read_csv env (content file) = inl e ->
  analyze_csv A env files w
  = (failure 500 (str_exn e), logged w [EvReadCsv (filename file)]).
Proof.
  intros Hfile Hname Hcsv Hread.
  unfold analyze_csv, analyze_csv_view, logged. rewrite Hfile.
  rewrite bool_decide_eq_false_2 by exact Hname.
  rewrite Hcsv; cbn [negb]. run. rewrite Hread. reflexivity.
Qed.

(** A CSV request that answers 200 went all the way: the body is the
    analyzer's dictionary with [detected_domain] and [ai_insights]
    added. *)
Lemma analyze_csv_success :
  status (fst (analyze_csv A env files w)) = 200%Z ->
  exists file df analysis v,
    files !! "file" = Some file
    /\ filename file <> ""
    /\ endswith (filename file) ".csv" = true
    /\ pd_read_csv env (content file) = inr df
    /\ snd (analyze_dataframe A (dq_analyzer w) df (filename file))
       = inr analysis
    /\ fst (analyze_csv A env files w)
       = analysis_response
           (<["ai_insights" := v]>
              (<["detected_domain" :=
                   JStr (csv_domain env df (filename file))]> analysis)).
Proof.
  intros Hok.
  destruct (files !! "file") as [file|] eqn:Hfile;
    [|destruct analyze_csv_rejected as [H4 _];
      [rewrite Hfile; exact I | rewrite H4 in Hok; discriminate]].
  destruct (decide (filename file = "")) as [Hname|Hname];
    [destruct analyze_csv_rejected as [H4 _];
      [rewrite Hfile; left; exact Hname | rewrite H4 in Hok; discriminate]|].
  destruct (endswith (filename file) ".csv") eqn:Hcsv;
    [|destruct analyze_csv_rejected as [H4 _];
      [rewrite Hfile; right; exact Hcsv | rewrite H4 in Hok; discriminate]].
  destruct (pd_read_csv env (content file)) as [e|df] eqn:Hread;
    [rewrite (analyze_csv_read_fails file e) in Hok by assumption;
     discriminate|].
  rewrite (analyze_csv_reaches_analyzer A env files w file df)
    in Hok |- * by assumption.
  destruct (analyze_dataframe A (dq_analyzer w) df (filename file))
    as [self' [e|analysis]] eqn:Han; [discriminate|].
  cbv zeta in Hok |- *.
  match goal with
  | |- context [generate_insights ?a ?b ?c ?d ?w1] =>
      destruct (generate_insights_total a b c d w1) as (v & evs & Hrun)
  end.
  rewrite Hrun.
  exists file, df, analysis, v. repeat split; try assumption.
  rewrite Han. reflexivity.
Qed.

End CsvRouteExits.

(* ===================================================================== *)
(** ** The fields of a successful response *)
(* ===================================================================== *)

(** C5, as stated, fails on the table route: a successful answer of
    [/api/analyze/table/employees] has [ai_insights] and no
    [detected_domain]. *)
Lemma table_route_omits_detected_domain :
  let r := fst (analyze_table (engine_analyzer sample_config) env_up
                  "employees" (module_init (engine_analyzer sample_config))) in
  status r = 200%Z
  /\ success_flag r = Some (JBool true)
  /\ response_field r "ai_insights" = Some (JStr "looks fine")
  /\ response_field r "detected_domain" = None
  /\ ~ (exists v, response_field r "detected_domain" = Some v).
Proof.
  cbv zeta. repeat split; try (vm_compute; reflexivity).
  intros [v Hv]. vm_compute in Hv. discriminate.
Qed.

(** The insight step ends with [ai_insights] set to the generator's
    answer or to the failure record. *)
Lemma generate_insights_entry (env : Env) (name : string) (domain : Json)
    (analysis : Dict) (w : World) :
  exists v evs,
    generate_insights env name domain analysis w
    = (inr (<["ai_insights" := v]> analysis), logged w evs)
    /\ generator_entry env name domain analysis (Some v).
Proof.
  rewrite generate_insights_run. unfold generator_entry.
  destruct (insights_payload name domain analysis) as [e|p] eqn:Hp.
  - eexists _, _. split; [reflexivity|]. right. exists e.
    split; [left; reflexivity | apply insights_failure_record].
  - destruct (analyze_table_quality env (JObj p)) as [e|r] eqn:Hr.
    + eexists _, _. split; [reflexivity|]. right. exists e.
      split; [right; exists p; split; [reflexivity | exact Hr]
             | apply insights_failure_record].
    + eexists _, _. split; [reflexivity|]. left. exists p, r.
      split; [reflexivity|]. split; [exact Hr | reflexivity].
Qed.

(** C5, amended. A successful answer of either analysis route has
    [success] true and carries the analyzer's [table_scores],
    [field_analyses] and [issues] entries unchanged; its [ai_insights] is
    the generator's answer for the payload built from the analysis, or
    the failure record. The CSV route also sets [detected_domain], to the
    word the generator detected or to ['Unknown']; the table route sets
    none: the response has that entry only if the analyzer's own
    dictionary has it. *)
Theorem successful_response_fields (A : Analyzer) (env : Env) :
  (forall table_name w,
      status (fst (analyze_table A env table_name w)) = 200%Z ->
      exists df analysis,
        pd_read_sql env table_name = inr df
        /\ snd (analyze_dataframe A (dq_analyzer w) df table_name)
           = inr analysis
        /\ success_flag (fst (analyze_table A env table_name w))
           = Some (JBool true)
        /\ response_field (fst (analyze_table A env table_name w))
             "table_scores" = analysis !! "table_scores"
        /\ response_field (fst (analyze_table A env table_name w))
             "field_analyses" = analysis !! "field_analyses"
        /\ response_field (fst (analyze_table A env table_name w))
             "issues" = analysis !! "issues"
        /\ generator_entry env table_name (JStr "HR/Finance") analysis
             (response_field (fst (analyze_table A env table_name w))
                "ai_insights")
        /\ response_field (fst (analyze_table A env table_name w))
             "detected_domain" = analysis !! "detected_domain")
  /\
  (forall files w,
      status (fst (analyze_csv A env files w)) = 200%Z ->
      exists file df analysis,
        files !! "file" = Some file
        /\ pd_read_csv env (content file) = inr df
        /\ snd (analyze_dataframe A (dq_analyzer w) df (filename file))
           = inr analysis
        /\ success_flag (fst (analyze_csv A env files w)) = Some (JBool true)
        /\ response_field (fst (analyze_csv A env files w)) "table_scores"
           = analysis !! "table_scores"
        /\ response_field (fst (analyze_csv A env files w)) "field_analyses"
           = analysis !! "field_analyses"
        /\ response_field (fst (analyze_csv A env files w)) "issues"
           = analysis !! "issues"
        /\ generator_entry env (filename file)
             (JStr (csv_domain env df (filename file)))
             (<["detected_domain" :=
                  JStr (csv_domain env df (filename file))]> analysis)
             (response_field (fst (analyze_csv A env files w)) "ai_insights")
        /\ response_field (fst (analyze_csv A env files w)) "detected_domain"
           = Some (JStr (csv_domain env df (filename file)))).
Proof.
  split.
  - intros table_name w Hok.
    destruct (analyze_table_success A env table_name w Hok)
      as (row & rows0 & df & analysis & v0 & Hin & Hq & Hsql & Han & _).
    exists df, analysis.
    split; [exact Hsql|]. split; [exact Han|].
    rewrite (analyze_table_reaches_analyzer A env table_name w row rows0 df)
      by assumption.
    destruct (analyze_dataframe A (dq_analyzer w) df table_name)
      as [self' r]; cbn in Han; subst r.
    cbv zeta.
    match goal with
    | |- context [generate_insights ?a ?b ?c ?d ?w1] =>
        destruct (generate_insights_entry a b c d w1) as (v & evs & Hrun & Hv)
    end.
    rewrite Hrun. cbn [fst].
    rewrite !response_field_analysis.
    split; [reflexivity|].
    split; [apply lookup_insert_ne; discriminate|].
    split; [apply lookup_insert_ne; discriminate|].
    split; [apply lookup_insert_ne; discriminate|].
    split; [rewrite lookup_insert_eq; exact Hv|].
    apply lookup_insert_ne; discriminate.
  - intros files w Hok.
    destruct (analyze_csv_success A env files w Hok)
      as (file & df & analysis & v0 & Hfile & Hname & Hcsv & Hread & Han & _).
    exists file, df, analysis.
    split; [exact Hfile|]. split; [exact Hread|]. split; [exact Han|].
    rewrite (analyze_csv_reaches_analyzer A env files w file df)
      by assumption.
    destruct (analyze_dataframe A (dq_analyzer w) df (filename file))
      as [self' r]; cbn in Han; subst r.
    cbv zeta.
    match goal with
    | |- context [generate_insights ?a ?b ?c ?d ?w1] =>
        destruct (generate_insights_entry a b c d w1) as (v & evs & Hrun & Hv)
    end.
    rewrite Hrun. cbn [fst].
    rewrite !response_field_analysis.
    split; [reflexivity|].
    split; [do 2 (rewrite lookup_insert_ne by discriminate); reflexivity|].
    split; [do 2 (rewrite lookup_insert_ne by discriminate); reflexivity|].
    split; [do 2 (rewrite lookup_insert_ne by discriminate); reflexivity|].
    split; [rewrite lookup_insert_eq; exact Hv|].
    rewrite lookup_insert_ne by discriminate. apply lookup_insert_eq.
Qed.

Lemma successful_response_fields_witness :
  let resp := fst (analyze_csv counting_analyzer env_up upload
                     (module_init counting_analyzer)) in
  exists file df analysis,
    upload !! "file" = Some file
    /\ pd_read_csv env_up (content file) = inr df
    /\ snd (analyze_dataframe counting_analyzer
              (dq_analyzer (module_init counting_analyzer))
              df (filename file)) = inr analysis
    /\ success_flag resp = Some (JBool true)
    /\ response_field resp "table_scores" = analysis !! "table_scores"
    /\ response_field resp "field_analyses" = analysis !! "field_analyses"
    /\ response_field resp "issues" = analysis !! "issues"
    /\ generator_entry env_up (filename file)
         (JStr (csv_domain env_up df (filename file)))
         (<["detected_domain" :=
              JStr (csv_domain env_up df (filename file))]> analysis)
         (response_field resp "ai_insights")
    /\ response_field resp "detected_domain"
       = Some (JStr (csv_domain env_up df (filename file))).
Proof.
  cbv zeta.
  apply (proj2 (successful_response_fields counting_analyzer env_up)
           upload (module_init counting_analyzer)).
  vm_compute. reflexivity.
Defined.

(* ===================================================================== *)
(** ** What the insight generator is called with *)
(* ===================================================================== *)

Lemma insight_calls_app (l1 l2 : list Event) :
  insight_calls (l1 ++ l2) = (insight_calls l1 ++ insight_calls l2)%list.
Proof. unfold insight_calls. apply omap_app. Qed.

Lemma analyzer_calls_app (l1 l2 : list Event) :
  analyzer_calls (l1 ++ l2) = (analyzer_calls l1 ++ analyzer_calls l2)%list.
Proof. unfold analyzer_calls. apply omap_app. Qed.

(** The dict display builds the mapping of [payload_shape] as soon as the
    analyzer's dictionary has a mapping under [table_scores] whose keys do
    not collide with the two leading ones, and an [issues] entry. *)
Lemma insights_payload_shape (name : string) (domain : Json)
    (analysis scores : Dict) (issues_v : Json) :
  analysis !! "table_scores" = Some (JObj scores) ->
  analysis !! "issues" = Some issues_v ->
  scores !! "table_name" = None ->
  scores !! "domain" = None ->
  exists p, insights_payload name domain analysis = inr p
            /\ payload_shape name domain scores issues_v p.
Proof.
  intros Hs Hi Hname Hdom.
  unfold insights_payload, getitem. rewrite Hs; cbn. rewrite Hi.
  eexists; split; [reflexivity|].
  unfold payload_shape. repeat split.
  - rewrite lookup_insert_ne by discriminate.
    rewrite lookup_union_r by exact Hname.
    rewrite lookup_insert_ne by discriminate. apply lookup_insert_eq.
  - rewrite lookup_insert_ne by discriminate.
    rewrite lookup_union_r by exact Hdom. apply lookup_insert_eq.
  - apply lookup_insert_eq.
  - intros k Hk [v Hv]. rewrite lookup_insert_ne by congruence.
    rewrite Hv. apply lookup_union_Some_l. exact Hv.
  - rewrite dom_insert_L, dom_union_L, !dom_insert_L, dom_empty_L.
    apply set_eq. intros k.
    rewrite !elem_of_union, !elem_of_singleton, elem_of_empty. tauto.
Qed.

(** C6. On both routes the insight generator is called once, with the
    mapping assembled from the engine's output: [table_name] is the
    display name, [domain] a domain string (['HR/Finance'] for a table,
    the detected word or ['Unknown'] for an upload), the table-level
    scores appear under their own keys and [issues] is the issues list;
    what the generator returns is stored under [ai_insights] as it is. *)
Theorem insight_generator_argument (A : Analyzer) (env : Env) :
  (forall table_name w row rows0 df analysis scores issues_v,
      table_name ∈ table_map ->
      db_query_all env table_name = inr (row :: rows0) ->
      pd_read_sql env table_name = inr df ->
      snd (analyze_dataframe A (dq_analyzer w) df table_name) = inr analysis ->
      analysis !! "table_scores" = Some (JObj scores) ->
      analysis !! "issues" = Some issues_v ->
      scores !! "table_name" = None ->
      scores !! "domain" = None ->
      exists p,
        payload_shape table_name (JStr "HR/Finance") scores issues_v p
        /\ insight_calls (trace (snd (analyze_table A env table_name w)))
           = (insight_calls (trace w) ++ [JObj p])%list
        /\ (forall text,
               analyze_table_quality env (JObj p) = inr text ->
               response_field (fst (analyze_table A env table_name w))
                 "ai_insights" = Some text))
  /\
  (forall files w file df analysis scores issues_v,
      files !! "file" = Some file ->
      filename file <> "" ->
      endswith (filename file) ".csv" = true ->
      pd_read_csv env (content file) = inr df ->
      snd (analyze_dataframe A (dq_analyzer w) df (filename file))
        = inr analysis ->
      analysis !! "table_scores" = Some (JObj scores) ->
      analysis !! "issues" = Some issues_v ->
      scores !! "table_name" = None ->
      scores !! "domain" = None ->
      exists p,
        payload_shape (filename file)
          (JStr (csv_domain env df (filename file))) scores issues_v p
        /\ insight_calls (trace (snd (analyze_csv A env files w)))
           = (insight_calls (trace w) ++ [JObj p])%list
        /\ (forall text,
               analyze_table_quality env (JObj p) = inr text ->
               response_field (fst (analyze_csv A env files w))
                 "ai_insights" = Some text)).
Proof.
  split.
  - intros table_name w row rows0 df analysis scores issues_v
      Hin Hq Hsql Han Hs Hi Hname Hdom.
    destruct (insights_payload_shape table_name (JStr "HR/Finance")
                analysis scores issues_v Hs Hi Hname Hdom) as (p & Hp & Hshape).
    exists p. split; [exact Hshape|].
    rewrite (analyze_table_reaches_analyzer A env table_name w row rows0 df)
      by assumption.
    destruct (analyze_dataframe A (dq_analyzer w) df table_name)
      as [self' r]; cbn in Han; subst r.
    cbv zeta. rewrite generate_insights_run, Hp.
    destruct (analyze_table_quality env (JObj p)) as [e|text0]; cbn [fst snd].
    + split; [|intros text Ht; discriminate].
      unfold logged; cbn [trace].
      rewrite !insight_calls_app; cbn. rewrite !app_nil_r. reflexivity.
    + split.
      * unfold logged; cbn [trace].
        rewrite !insight_calls_app; cbn. rewrite !app_nil_r. reflexivity.
      * intros text Ht. injection Ht as <-.
        rewrite response_field_analysis. apply lookup_insert_eq.
  - intros files w file df analysis scores issues_v
      Hfile Hfn Hcsv Hread Han Hs Hi Hname Hdom.
    set (domain := JStr (csv_domain env df (filename file))).
    assert (Hs' : (<["detected_domain" := domain]> analysis) !! "table_scores"
                  = Some (JObj scores))
      by (rewrite lookup_insert_ne by discriminate; exact Hs).
    assert (Hi' : (<["detected_domain" := domain]> analysis) !! "issues"
                  = Some issues_v)
      by (rewrite lookup_insert_ne by discriminate; exact Hi).
    destruct (insights_payload_shape (filename file) domain _ scores issues_v
                Hs' Hi' Hname Hdom) as (p & Hp & Hshape).
    exists p. split; [exact Hshape|].
    rewrite (analyze_csv_reaches_analyzer A env files w file df)
      by assumption.
    destruct (analyze_dataframe A (dq_analyzer w) df (filename file))
      as [self' r]; cbn in Han; subst r.
    cbv zeta. fold domain. rewrite generate_insights_run, Hp.
    assert (Hdet : insight_calls (detect_events env df (filename file)) = [])
      by (unfold detect_events;
          destruct (detect_domain_single_word env (columns df) (filename file));
          reflexivity).
    destruct (analyze_table_quality env (JObj p)) as [e|text0]; cbn [fst snd].
    + split; [|intros text Ht; discriminate].
      unfold logged; cbn [trace].
      rewrite !insight_calls_app, Hdet; cbn. rewrite !app_nil_r. reflexivity.
    + split.
      * unfold logged; cbn [trace].
        rewrite !insight_calls_app, Hdet; cbn. rewrite !app_nil_r. reflexivity.
      * intros text Ht. injection Ht as <-.
        rewrite response_field_analysis. apply lookup_insert_eq.
Qed.

Lemma insight_generator_argument_witness :
  let E := engine_analyzer sample_config in
  let r := build_report sample_config df_one in
  exists p,
    payload_shape "employees" (JStr "HR/Finance")
      (table_scores_dict (table_scores r))
      (JList (map (fun i => JObj (issue_dict i)) (issues r))) p
    /\ insight_calls (trace (snd (analyze_table E env_up "employees"
                                    (module_init E))))
       = (insight_calls (trace (module_init E)) ++ [JObj p])%list
    /\ (forall text,
           analyze_table_quality env_up (JObj p) = inr text ->
           response_field (fst (analyze_table E env_up "employees"
                                  (module_init E)))
             "ai_insights" = Some text).
Proof.
  cbv zeta.
  apply (proj1 (insight_generator_argument
                  (engine_analyzer sample_config) env_up)
           "employees" (module_init (engine_analyzer sample_config))
           one_row [] df_one
           (report_dict (build_report sample_config df_one))).
  - exact employees_known.
  - reflexivity.
  - reflexivity.
  - reflexivity.
  - reflexivity.
  - reflexivity.
  - reflexivity.
  - reflexivity.
Defined.

(* ===================================================================== *)
(** ** The guards of the table route *)
(* ===================================================================== *)

(** C9. A POST to [/api/analyze/table/<table_name>] with a name outside
    [employees], [payroll], [invoices], [expenses] is answered 400 with
    [success] false, and one for a known table without rows is answered
    404 with [success] false; neither calls [analyze_dataframe], and
    whenever the route does call it, the name is a known one and the
    table had at least one row. *)
Theorem table_route_guards (A : Analyzer) (env : Env) (table_name : string)
    (w : World) :
  (table_name ∉ table_map ->
     fst (analyze_table A env table_name w) = failure 400 "Invalid table name"
     /\ success_flag (fst (analyze_table A env table_name w))
        = Some (JBool false)
     /\ analyzer_calls (trace (snd (analyze_table A env table_name w)))
        = analyzer_calls (trace w)
     /\ dq_analyzer (snd (analyze_table A env table_name w)) = dq_analyzer w)
  /\
  (table_name ∈ table_map ->
   db_query_all env table_name = inr [] ->
     fst (analyze_table A env table_name w) = failure 404 "No data found"
     /\ success_flag (fst (analyze_table A env table_name w))
        = Some (JBool false)
     /\ analyzer_calls (trace (snd (analyze_table A env table_name w)))
        = analyzer_calls (trace w)
     /\ dq_analyzer (snd (analyze_table A env table_name w)) = dq_analyzer w)
  /\
  (analyzer_calls (trace (snd (analyze_table A env table_name w)))
   <> analyzer_calls (trace w) ->
     table_name ∈ table_map
     /\ exists row rows0, db_query_all env table_name = inr (row :: rows0)).
Proof.
  split; [|split].
  - intros Hout. rewrite analyze_table_unknown by exact Hout.
    unfold closed_after; cbn [fst snd trace dq_analyzer].
    repeat split. rewrite analyzer_calls_app; cbn. apply app_nil_r.
  - intros Hin Hq. rewrite analyze_table_no_rows by assumption.
    unfold closed_after; cbn [fst snd trace dq_analyzer].
    repeat split. rewrite analyzer_calls_app; cbn. apply app_nil_r.
  - intros Hcalls.
    destruct (decide (table_name ∈ table_map)) as [Hin|Hout].
    + split; [exact Hin|].
      destruct (db_query_all env table_name) as [e|[|row rows0]] eqn:Hq.
      * exfalso. apply Hcalls.
        rewrite (analyze_table_query_fails A env table_name w e) by assumption.
        unfold closed_after; cbn [snd trace].
        rewrite analyzer_calls_app; cbn. apply app_nil_r.
      * exfalso. apply Hcalls.
        rewrite analyze_table_no_rows by assumption.
        unfold closed_after; cbn [snd trace].
        rewrite analyzer_calls_app; cbn. apply app_nil_r.
      * eauto.
    + exfalso. apply Hcalls.
      rewrite analyze_table_unknown by exact Hout.
      unfold closed_after; cbn [snd trace].
      rewrite analyzer_calls_app; cbn. apply app_nil_r.
Qed.

Lemma table_route_guards_witness :
  (fst (analyze_table (engine_analyzer sample_config) env_no_rows "employees"
          (module_init (engine_analyzer sample_config)))
   = failure 404 "No data found"
   /\ success_flag (fst (analyze_table (engine_analyzer sample_config)
                           env_no_rows "employees"
                           (module_init (engine_analyzer sample_config))))
      = Some (JBool false)
   /\ analyzer_calls (trace (snd (analyze_table (engine_analyzer sample_config)
                                    env_no_rows "employees"
                                    (module_init (engine_analyzer sample_config)))))
      = analyzer_calls (trace (module_init (engine_analyzer sample_config)))
   /\ dq_analyzer (snd (analyze_table (engine_analyzer sample_config)
                          env_no_rows "employees"
                          (module_init (engine_analyzer sample_config))))
      = dq_analyzer (module_init (engine_analyzer sample_config)))
  /\
  (fst (analyze_table (engine_analyzer sample_config) env_no_rows "customers"
          (module_init (engine_analyzer sample_config)))
   = failure 400 "Invalid table name").
Proof.
  split.
  - apply (proj1 (proj2 (table_route_guards
                           (engine_analyzer sample_config) env_no_rows
                           "employees"
                           (module_init (engine_analyzer sample_config))))).
    + exact employees_known.
    + reflexivity.
  - apply (proj1 (table_route_guards
                    (engine_analyzer sample_config) env_no_rows "customers"
                    (module_init (engine_analyzer sample_config)))).
    unfold table_map. intros H.
    repeat (apply elem_of_cons in H as [H|H]; [discriminate H|]).
    apply elem_of_nil in H. exact H.
Defined.

(* ===================================================================== *)
(** ** Reviewing an insight *)
(* ===================================================================== *)

Ltac member_facts :=
  repeat match goal with
         | H : _ ∈ _ :: _ |- _ => apply elem_of_cons in H as [H|H]
         | H : _ ∈ [] |- _ => apply elem_of_nil in H; contradiction
         | H : @eq Event _ _ |- _ => discriminate H
         | H : @eq Z _ _ |- _ => discriminate H
         end.

Ltac review_leaf :=
  cbn [fst snd status insights trace session_dirty failure review_ok];
  rewrite <- ?app_assoc; cbn [app];
  repeat match goal with
         | |- _ /\ _ => split
         | |- _ ∉ _ => intro
         | |- forall _, _ => intro
         | |- _ <-> _ => split
         end;
  try reflexivity; try congruence; try discriminate; member_facts.

(** The events of a review, given what comes before the rollback. *)
Ltac review_events evs pre :=
  review_leaf; try (exists evs; review_leaf; try (exists pre; review_leaf)).

(** The paths of a review: whenever it does not answer 200 the persisted
    insights are what they were; with the body read and the lookup done,
    an unknown id is answered 404; every 500 answer is preceded by
    [session.rollback()] and then [session.close()], with no commit before
    it; a commit happens exactly on the path that answers 200, where the
    row is stored as reviewed. *)
Lemma review_insight_paths (env : Env) (request_json : Exn + Json)
    (insight_id : Z) (w : World) :
  let resp := fst (review_insight env request_json insight_id w) in
  let w' := snd (review_insight env request_json insight_id w) in
  (status resp <> 200%Z -> insights w' = insights w)
  /\ (forall data,
         request_json = inr data ->
         db_query_insight_error env = None ->
         insights w !! insight_id = None ->
         resp = failure 404 "Insight not found" /\ insights w' = insights w)
  /\ (exists evs,
         trace w' = (trace w ++ evs)%list
         /\ (status resp = 500%Z ->
             exists pre, evs = (pre ++ [EvRollback; EvClose])%list
                         /\ EvCommit ∉ pre)
         /\ (EvCommit ∈ evs <-> status resp = 200%Z))
  /\ (status resp = 200%Z ->
      exists i, insights w' !! insight_id = Some i /\ is_reviewed i = true)
  /\ session_dirty w' = ∅.
Proof.
  cbv zeta.
  unfold review_insight, review_insight_view, query_insight, set_insight,
    session_commit.
  run.
  destruct request_json as [e|data]; cbn.
  { review_events [EvRollback; EvClose] (@nil Event). }
  destruct (db_query_insight_error env) as [e|] eqn:Hquery; cbn.
  { review_events [EvQueryInsight insight_id; EvRollback; EvClose]
                  [EvQueryInsight insight_id]. }
  rewrite (left_id_L ∅ (∪)).
  destruct (insights w !! insight_id) as [i0|] eqn:Hfind; cbn.
  2: { review_events [EvQueryInsight insight_id; EvClose] (@nil Event). }
  destruct (json_get data "approved" (JBool false)) as [e|approved]; cbn.
  { review_events [EvQueryInsight insight_id; EvRollback; EvClose]
                  [EvQueryInsight insight_id]. }
  destruct (json_get data "reviewer" (JStr "Admin")) as [e|reviewer]; cbn.
  { review_events [EvQueryInsight insight_id; EvRollback; EvClose]
                  [EvQueryInsight insight_id]. }
  match goal with
  | |- context [db_commit_error env ?d] =>
      destruct (db_commit_error env d) as [e|] eqn:Hcommit
  end; cbn.
  { review_events [EvQueryInsight insight_id; EvRollback; EvClose]
                  [EvQueryInsight insight_id]. }
  review_events [EvQueryInsight insight_id; EvCommit; EvClose] (@nil Event).
  - apply elem_of_cons; right; apply elem_of_cons; left; reflexivity.
  - eexists. split.
    + apply lookup_union_Some_l. apply lookup_insert_eq.
    + reflexivity.
Qed.

(** The answer for an id that has no row: the body is read first, then the
    lookup runs, and only then the 404 is returned. *)
Lemma review_insight_unknown_id (env : Env) (request_json : Exn + Json)
    (insight_id : Z) (w : World) :
  insights w !! insight_id = None ->
  fst (review_insight env request_json insight_id w) =
  match request_json with
  | inl e => failure 500 (str_exn e)
  | inr _ =>
      match db_query_insight_error env with
      | Some e => failure 500 (str_exn e)
      | None => failure 404 "Insight not found"
      end
  end.
Proof.
  intros Hnone.
  unfold review_insight, review_insight_view, query_insight.
  run.
  destruct request_json as [e|data]; cbn; [reflexivity|].
  destruct (db_query_insight_error env) as [e|]; cbn; [reflexivity|].
  rewrite (left_id_L ∅ (∪)). rewrite Hnone. reflexivity.
Qed.

(** C10, as stated, fails: for an id without a row the answer is 404 only
    once [request.json] has been read; a body that cannot be read is
    answered 500, and so is a lookup that raises. *)
Lemma review_unknown_id_unreadable_body :
  let unreadable :=
    mkExn "UnsupportedMediaType" "415 Unsupported Media Type" in
  let r := review_insight env_up (inl unreadable) 9 world_with_insight in
  insights world_with_insight !! 9%Z = None
  /\ status (fst r) = 500%Z
  /\ status (fst r) <> 404%Z
  /\ insights (snd r) = insights world_with_insight.
Proof.
  cbv zeta. split; [reflexivity|]. split; [reflexivity|].
  split; [vm_compute; discriminate | reflexivity].
Qed.

(** C10, amended. [review_insight] is atomic on error: whenever it does
    not answer 200 the persisted insights are what they were. For an id
    without a row no row is modified and the answer is 404 exactly when
    [request.json] was read and the lookup did not raise; when either
    raised the answer is 500 with the text of that exception. Every 500
    answer is preceded by [session.rollback()] and then [session.close()],
    with no commit before it; a commit happens exactly on the path that
    answers 200, where the row is stored as reviewed. *)
Theorem review_insight_atomic (env : Env) (request_json : Exn + Json)
    (insight_id : Z) (w : World) :
  let resp := fst (review_insight env request_json insight_id w) in
  let w' := snd (review_insight env request_json insight_id w) in
  (status resp <> 200%Z -> insights w' = insights w)
  /\ (insights w !! insight_id = None ->
      insights w' = insights w
      /\ (status resp = 404%Z \/ status resp = 500%Z)
      /\ (status resp = 404%Z <->
          (exists data, request_json = inr data)
          /\ db_query_insight_error env = None)
      /\ (status resp = 404%Z -> resp = failure 404 "Insight not found")
      /\ (forall e, request_json = inl e -> resp = failure 500 (str_exn e))
      /\ (forall data e,
             request_json = inr data ->
             db_query_insight_error env = Some e ->
             resp = failure 500 (str_exn e)))
  /\ (exists evs,
         trace w' = (trace w ++ evs)%list
         /\ (status resp = 500%Z ->
             exists pre, evs = (pre ++ [EvRollback; EvClose])%list
                         /\ EvCommit ∉ pre)
         /\ (EvCommit ∈ evs <-> status resp = 200%Z))
  /\ (status resp = 200%Z ->
      exists i, insights w' !! insight_id = Some i /\ is_reviewed i = true)
  /\ session_dirty w' = ∅.
Proof.
  cbv zeta.
  destruct (review_insight_paths env request_json insight_id w)
    as (Hkeep & _ & Hevs & Hrow & Hdirty).
  split; [exact Hkeep|].
  split; [|split; [exact Hevs|split; [exact Hrow | exact Hdirty]]].
  intros Hnone.
  pose proof (review_insight_unknown_id env request_json insight_id w Hnone)
    as Hresp.
  split.
  { apply Hkeep. rewrite Hresp.
    destruct request_json as [e|data];
      [|destruct (db_query_insight_error env)]; discriminate. }
  rewrite Hresp.
  destruct request_json as [e|data].
  - split; [right; reflexivity|].
    split; [split; [discriminate | intros [[data Hd] _]; discriminate]|].
    split; [discriminate|].
    split; [intros e0 He; injection He as <-; reflexivity|].
    intros data e0 Hd; discriminate.
  - destruct (db_query_insight_error env) as [e|].
    + split; [right; reflexivity|].
      split; [split; [discriminate | intros [_ Hq]; discriminate]|].
      split; [discriminate|].
      split; [intros e0 He; discriminate|].
      intros data0 e0 _ He; injection He as <-; reflexivity.
    + split; [left; reflexivity|].
      split; [split; [intros _; split; [eauto | reflexivity] | reflexivity]|].
      split; [reflexivity|].
      split; [intros e0 He; discriminate|].
      intros data0 e0 _ He; discriminate.
Qed.

Lemma review_insight_atomic_witness :
  (status (fst (review_insight env_commit_fails
                  (inr (JObj (<["approved" := JBool true]> ∅))) 7
                  world_with_insight)) = 500%Z
   /\ insights (snd (review_insight env_commit_fails
                       (inr (JObj (<["approved" := JBool true]> ∅))) 7
                       world_with_insight))
      = insights world_with_insight)
  /\ (insights (snd (review_insight env_up (inr (JObj ∅)) 9
                       world_with_insight))
      = insights world_with_insight
      /\ status (fst (review_insight env_up (inr (JObj ∅)) 9
                        world_with_insight)) = 404%Z).
Proof.
  split.
  - split.
    + vm_compute. reflexivity.
    + apply (proj1 (review_insight_atomic env_commit_fails
                      (inr (JObj (<["approved" := JBool true]> ∅))) 7
                      world_with_insight)).
      vm_compute. discriminate.
  - pose proof (proj1 (proj2 (review_insight_atomic env_up
                                (inr (JObj ∅)) 9 world_with_insight))
                  eq_refl) as (Hkeep & _ & Hiff & _).
    split; [exact Hkeep|].
    apply Hiff. split; [eauto | reflexivity].
Defined.

(* ===================================================================== *)
(** ** The shared analyzer instance *)
(* ===================================================================== *)

Section Respects.

Context {R : World -> World -> Prop}.
Hypothesis R_refl : forall w, R w w.
Hypothesis R_trans : forall w1 w2 w3, R w1 w2 -> R w2 w3 -> R w1 w3.

Lemma respects_ret {T} (a : T) : respects R (ret a).
Proof using R_refl. intros w. apply R_refl. Qed.

Lemma respects_lift {T} (r : Exn + T) : respects R (lift r).
Proof using R_refl. intros w. apply R_refl. Qed.

Lemma respects_bind {T U} (c : Run T) (k : T -> Run U) :
  respects R c -> (forall a, respects R (k a)) -> respects R (bind c k).
Proof using R_trans.
  intros Hc Hk w. unfold bind. specialize (Hc w).
  destruct (c w) as [[e|a] w1]; cbn in *; [exact Hc|].
  eapply R_trans; [exact Hc | apply Hk].
Qed.

Lemma respects_try_except {T} (c : Run T) (h : Exn -> Run T) :
  respects R c -> (forall e, respects R (h e)) -> respects R (try_except c h).
Proof using R_trans.
  intros Hc Hh w. unfold try_except. specialize (Hc w).
  destruct (c w) as [[e|a] w1]; cbn in *; [|exact Hc].
  eapply R_trans; [exact Hc | apply Hh].
Qed.

Lemma respects_try_finally {T} (c : Run T) (f : Run unit) :
  respects R c -> respects R f -> respects R (try_finally c f).
Proof using R_trans.
  intros Hc Hf w. unfold try_finally. specialize (Hc w).
  destruct (c w) as [r w1]; cbn in *. specialize (Hf w1).
  destruct (f w1) as [[e|u] w2]; cbn in *; eapply R_trans; eassumption.
Qed.

Lemma respects_serve (view : Run Response) (w : World) :
  respects R view -> R w (snd (serve view w)).
Proof.
  intros Hv. unfold serve. specialize (Hv w).
  destruct (view w) as [[e|r] w1]; exact Hv.
Qed.

End Respects.

Lemma analyzers_constructed_app (l1 l2 : list Event) :
  analyzers_constructed (l1 ++ l2)
  = (analyzers_constructed l1 + analyzers_constructed l2)%nat.
Proof. unfold analyzers_constructed. rewrite omap_app. apply length_app. Qed.

Lemma same_instance_trans w1 w2 w3 :
  same_instance w1 w2 -> same_instance w2 w3 -> same_instance w1 w3.
Proof. unfold same_instance. congruence. Qed.

Lemma none_constructed_trans w1 w2 w3 :
  none_constructed w1 w2 -> none_constructed w2 w3 -> none_constructed w1 w3.
Proof. unfold none_constructed. congruence. Qed.

(** Logging anything but a construction constructs nothing. *)
Lemma none_constructed_log (ev : Event) :
  ev <> EvConstructAnalyzer -> respects none_constructed (log ev).
Proof.
  intros Hev w. unfold none_constructed, log; cbn [snd trace].
  rewrite analyzers_constructed_app.
  destruct ev; try contradiction; cbn; lia.
Qed.

#[global] Hint Resolve none_constructed_trans same_instance_trans : run.

Section AnalyzerKept.

Variable A : Analyzer.

Lemma analyzer_kept_refl w : analyzer_kept A w w.
Proof. split; [|intros _]; reflexivity. Qed.

Lemma analyzer_kept_trans w1 w2 w3 :
  analyzer_kept A w1 w2 -> analyzer_kept A w2 w3 -> analyzer_kept A w1 w3.
Proof.
  intros [Hn1 Hs1] [Hn2 Hs2]. split.
  - eapply none_constructed_trans; eassumption.
  - intros Hk. eapply same_instance_trans; eauto.
Qed.

(** A step that keeps the instance and appends events other than a
    construction. *)
Lemma analyzer_kept_step {T} (c : Run T) :
  (forall w, dq_analyzer (snd (c w)) = dq_analyzer w
             /\ exists evs, trace (snd (c w)) = (trace w ++ evs)%list
                            /\ analyzers_constructed evs = 0%nat) ->
  respects (analyzer_kept A) c.
Proof.
  intros Hc w. destruct (Hc w) as (Hself & evs & Htr & Hev).
  split; [|intros _; exact Hself].
  unfold none_constructed. rewrite Htr, analyzers_constructed_app, Hev. lia.
Qed.

Lemma analyzer_kept_log ev :
  ev <> EvConstructAnalyzer -> respects (analyzer_kept A) (log ev).
Proof.
  intros Hev. apply analyzer_kept_step. intros w; cbn. split; [reflexivity|].
  exists [ev]. split; [reflexivity|]. destruct ev; try contradiction; reflexivity.
Qed.

Lemma analyzer_kept_new_session : respects (analyzer_kept A) new_session.
Proof.
  apply analyzer_kept_step. intros w; cbn. split; [reflexivity|].
  exists []. split; [symmetry; apply app_nil_r | reflexivity].
Qed.

Lemma analyzer_kept_close : respects (analyzer_kept A) session_close.
Proof.
  apply analyzer_kept_step. intros w; cbn. split; [reflexivity|].
  exists [EvClose]. split; reflexivity.
Qed.

Lemma analyzer_kept_rollback : respects (analyzer_kept A) session_rollback.
Proof.
  apply analyzer_kept_step. intros w; cbn. split; [reflexivity|].
  exists [EvRollback]. split; reflexivity.
Qed.

Lemma analyzer_kept_commit env : respects (analyzer_kept A) (session_commit env).
Proof.
  apply analyzer_kept_step. intros w. unfold session_commit.
  destruct (db_commit_error env (session_dirty w)); cbn.
  - split; [reflexivity|]. exists []. split; [symmetry; apply app_nil_r | reflexivity].
  - split; [reflexivity|]. exists [EvCommit]. split; reflexivity.
Qed.

Lemma analyzer_kept_set_insight id i :
  respects (analyzer_kept A) (set_insight id i).
Proof.
  apply analyzer_kept_step. intros w; cbn. split; [reflexivity|].
  exists []. split; [symmetry; apply app_nil_r | reflexivity].
Qed.

(** The call itself: it logs the call, and the instance afterwards is
    what the method left. *)
Lemma analyzer_kept_call df label :
  respects (analyzer_kept A) (call_analyzer A df label).
Proof.
  intros w. unfold call_analyzer.
  pose proof (fun Hk : keeps_instance A => Hk (dq_analyzer w) df label) as Hk.
  destruct (analyze_dataframe A (dq_analyzer w) df label) as [self' r].
  cbn [fst snd] in *. split.
  - unfold none_constructed; cbn [trace].
    rewrite analyzers_constructed_app; cbn. lia.
  - exact Hk.
Qed.

End AnalyzerKept.

#[global] Hint Resolve analyzer_kept_refl analyzer_kept_trans : run.

(** Decomposes a handler into its steps and discharges each. *)
Ltac kept_steps :=
  repeat first
    [ apply respects_ret; [auto with run]
    | apply respects_lift; [auto with run]
    | apply analyzer_kept_new_session
    | apply analyzer_kept_close
    | apply analyzer_kept_rollback
    | apply analyzer_kept_commit
    | apply analyzer_kept_set_insight
    | apply analyzer_kept_call
    | apply analyzer_kept_log; discriminate
    | apply respects_bind; [eauto with run | | intro]
    | apply respects_try_except; [eauto with run | | intro]
    | apply respects_try_finally; [eauto with run | | ]
    | match goal with
      | |- respects _ (match ?x with _ => _ end) => destruct x
      | |- respects _ (raise _) => intros ?; auto with run
      | |- respects _ (fun _ => _) => intros ?; cbn; auto with run
      end ].

Section HandlersKeepAnalyzer.

Variables (A : Analyzer) (env : Env).

Lemma generate_insights_kept name domain analysis :
  respects (analyzer_kept A) (generate_insights env name domain analysis).
Proof. unfold generate_insights, print. kept_steps. Qed.

Lemma detect_domain_step_kept df name analysis :
  respects (analyzer_kept A) (detect_domain_step env df name analysis).
Proof. unfold detect_domain_step, print. kept_steps. Qed.

Lemma analyze_table_kept table_name w :
  analyzer_kept A w (snd (analyze_table A env table_name w)).
Proof.
  unfold analyze_table. apply respects_serve.
  unfold analyze_table_view, print. kept_steps.
Qed.

Lemma analyze_csv_kept files w :
  analyzer_kept A w (snd (analyze_csv A env files w)).
Proof.
  unfold analyze_csv. apply respects_serve.
  unfold analyze_csv_view. kept_steps.
Qed.

Lemma review_insight_kept request_json insight_id w :
  analyzer_kept A w (snd (review_insight env request_json insight_id w)).
Proof.
  unfold review_insight. apply respects_serve.
  unfold review_insight_view, query_insight. kept_steps.
Qed.

Lemma dispatch_kept req w : analyzer_kept A w (snd (dispatch A env req w)).
Proof.
  destruct req; cbn.
  - apply analyze_table_kept.
  - apply analyze_csv_kept.
  - apply review_insight_kept.
Qed.

End HandlersKeepAnalyzer.

Section InstanceOnly.

Lemma instance_only_ret {T} (a : T) : instance_only (ret a).
Proof. intros w w' H. split; [reflexivity | exact H]. Qed.

Lemma instance_only_lift {T} (r : Exn + T) : instance_only (lift r).
Proof. intros w w' H. split; [reflexivity | exact H]. Qed.

Lemma instance_only_log ev : instance_only (log ev).
Proof. intros w w' H. split; [reflexivity | exact H]. Qed.

Lemma instance_only_new_session : instance_only new_session.
Proof. intros w w' H. split; [reflexivity | exact H]. Qed.

Lemma instance_only_close : instance_only session_close.
Proof. intros w w' H. split; [reflexivity | exact H]. Qed.

Lemma instance_only_call A df label : instance_only (call_analyzer A df label).
Proof.
  intros w w' H. unfold call_analyzer. rewrite H.
  destruct (analyze_dataframe A (dq_analyzer w') df label).
  split; reflexivity.
Qed.

Lemma instance_only_bind {T U} (c : Run T) (k : T -> Run U) :
  instance_only c -> (forall a, instance_only (k a)) ->
  instance_only (bind c k).
Proof.
  intros Hc Hk w w' H. unfold bind. destruct (Hc w w' H) as [Hr Hs].
  destruct (c w) as [r1 w1], (c w') as [r2 w2]; cbn in Hr, Hs. subst r2.
  destruct r1 as [e|a]; [split; [reflexivity | exact Hs]|].
  apply Hk. exact Hs.
Qed.

Lemma instance_only_try_except {T} (c : Run T) (h : Exn -> Run T) :
  instance_only c -> (forall e, instance_only (h e)) ->
  instance_only (try_except c h).
Proof.
  intros Hc Hh w w' H. unfold try_except. destruct (Hc w w' H) as [Hr Hs].
  destruct (c w) as [r1 w1], (c w') as [r2 w2]; cbn in Hr, Hs. subst r2.
  destruct r1 as [e|a]; [|split; [reflexivity | exact Hs]].
  apply Hh. exact Hs.
Qed.

Lemma instance_only_try_finally {T} (c : Run T) (f : Run unit) :
  instance_only c -> instance_only f -> instance_only (try_finally c f).
Proof.
  intros Hc Hf w w' H. unfold try_finally. destruct (Hc w w' H) as [Hr Hs].
  destruct (c w) as [r1 w1], (c w') as [r2 w2]; cbn in Hr, Hs. subst r2.
  destruct (Hf w1 w2 Hs) as [Hr' Hs'].
  destruct (f w1) as [u1 w1'], (f w2) as [u2 w2']; cbn in Hr', Hs'. subst u2.
  destruct u1; split; (reflexivity || exact Hs').
Qed.

Lemma instance_only_serve (view : Run Response) :
  instance_only view ->
  forall w w', dq_analyzer w = dq_analyzer w' ->
               fst (serve view w) = fst (serve view w').
Proof.
  intros Hv w w' H. unfold serve. destruct (Hv w w' H) as [Hr _].
  destruct (view w) as [r1 w1], (view w') as [r2 w2]; cbn in Hr. subst r2.
  destruct r1; reflexivity.
Qed.

End InstanceOnly.

Ltac instance_steps :=
  repeat first
    [ apply instance_only_ret
    | apply instance_only_lift
    | apply instance_only_log
    | apply instance_only_new_session
    | apply instance_only_close
    | apply instance_only_call
    | apply instance_only_bind; [ | intro]
    | apply instance_only_try_except; [ | intro]
    | apply instance_only_try_finally
    | match goal with
      | |- instance_only (match ?x with _ => _ end) => destruct x
      end ].

(** The answer of an analysis route depends on the world only through
    the shared analyzer instance. *)
Lemma analyze_table_instance_only A env table_name w w' :
  dq_analyzer w = dq_analyzer w' ->
  fst (analyze_table A env table_name w)
  = fst (analyze_table A env table_name w').
Proof.
  unfold analyze_table. apply instance_only_serve.
  unfold analyze_table_view, generate_insights, print. instance_steps.
Qed.

Lemma analyze_csv_instance_only A env files w w' :
  dq_analyzer w = dq_analyzer w' ->
  fst (analyze_csv A env files w) = fst (analyze_csv A env files w').
Proof.
  unfold analyze_csv. apply instance_only_serve.
  unfold analyze_csv_view, generate_insights, detect_domain_step, print.
  instance_steps.
Qed.

(** C4, as stated, fails: the routes run on the one instance built when
    the module is loaded. With an analyzer that keeps a counter in its
    instance, the second of two identical requests runs on the instance
    the first one left, no instance is constructed for it, and it gets
    another overall score than the same request on a fresh instance. *)
Lemma shared_instance_interferes :
  let w0 := module_init counting_analyzer in
  let w1 := snd (analyze_table counting_analyzer env_up "employees" w0) in
  let second := analyze_table counting_analyzer env_up "employees" w1 in
  analyzers_constructed (trace (snd second)) = 1%nat
  /\ analyzer_instances (trace (snd second))
     = [dqa_init counting_analyzer; dq_analyzer w1]
  /\ dq_analyzer w1 <> dqa_init counting_analyzer
  /\ response_field (fst second) "table_scores"
     <> response_field
          (fst (analyze_table counting_analyzer env_up "employees" w0))
          "table_scores".
Proof.
  cbv zeta. split; [|split; [|split]].
  - vm_compute. reflexivity.
  - vm_compute. reflexivity.
  - intros H. apply (f_equal (fun d => call_count d)) in H.
    vm_compute in H. discriminate H.
  - intros H.
    apply (f_equal (fun o => match o with
                             | Some (JObj m) =>
                                 match m !! "overall_score" with
                                 | Some (JNum q) => Some q
                                 | _ => None
                                 end
                             | _ => None
                             end)) in H.
    vm_compute in H. discriminate H.
Qed.

(** C4, amended. No request constructs an analyzer: every call runs on
    the module-level instance. If [analyze_dataframe] leaves that
    instance as it found it, a request leaves it unchanged, and the answer
    to an analysis request after any other request is the answer it would
    have got without it. *)
Theorem shared_analyzer_independence (A : Analyzer) (env1 env2 : Env)
    (first second : Request) (w : World) :
  analyzers_constructed (trace (snd (dispatch A env1 first w)))
  = analyzers_constructed (trace w)
  /\ (keeps_instance A ->
      dq_analyzer (snd (dispatch A env1 first w)) = dq_analyzer w
      /\ match second with
         | PostReviewInsight _ _ => True
         | _ => fst (dispatch A env2 second (snd (dispatch A env1 first w)))
                = fst (dispatch A env2 second w)
         end).
Proof.
  destruct (dispatch_kept A env1 first w) as [Hnone Hsame].
  split; [exact Hnone|].
  intros Hkeep. specialize (Hsame Hkeep). unfold same_instance in Hsame.
  split; [exact Hsame|].
  destruct second as [table_name|files|id req]; cbn [dispatch].
  - apply analyze_table_instance_only. exact Hsame.
  - apply analyze_csv_instance_only. exact Hsame.
  - exact I.
Qed.

Lemma engine_analyzer_keeps_instance (cfg : Config) :
  keeps_instance (engine_analyzer cfg).
Proof. intros self df label. reflexivity. Defined.

Lemma shared_analyzer_independence_witness :
  let E := engine_analyzer sample_config in
  dq_analyzer (snd (dispatch E env_llm_down (PostAnalyzeTable "employees")
                      (module_init E)))
  = dq_analyzer (module_init E)
  /\ fst (dispatch E env_up (PostAnalyzeCsv upload)
            (snd (dispatch E env_llm_down (PostAnalyzeTable "employees")
                    (module_init E))))
     = fst (dispatch E env_up (PostAnalyzeCsv upload) (module_init E)).
Proof.
  cbv zeta.
  apply (proj2 (shared_analyzer_independence
                  (engine_analyzer sample_config) env_llm_down env_up
                  (PostAnalyzeTable "employees") (PostAnalyzeCsv upload)
                  (module_init (engine_analyzer sample_config)))).
  exact (engine_analyzer_keeps_instance sample_config).
Defined.

(* ===================================================================== *)
(** * Properties of the scoring engine *)
(* ===================================================================== *)

#[local] Open Scope Q_scope.

Lemma inject_nat_pos (n : nat) : (0 < n)%nat -> 0 < inject_Z (Z.of_nat n).
Proof. intros H. change 0 with (inject_Z 0). rewrite <- Zlt_Qlt. lia. Qed.

(** The grade bands of section 4.6. *)
Lemma grade_of_thresholds (s : Q) :
  (90 <= s -> grade_of s = GradeA)
  /\ (75 <= s -> s < 90 -> grade_of s = GradeB)
  /\ (60 <= s -> s < 75 -> grade_of s = GradeC)
  /\ (40 <= s -> s < 60 -> grade_of s = GradeD)
  /\ (s < 40 -> grade_of s = GradeF).
Proof.
  unfold grade_of.
  destruct (Qle_bool 90 s) eqn:H90;
  destruct (Qle_bool 75 s) eqn:H75;
  destruct (Qle_bool 60 s) eqn:H60;
  destruct (Qle_bool 40 s) eqn:H40;
  repeat match goal with
         | H : Qle_bool _ _ = true |- _ => apply Qle_bool_iff in H
         | H : Qle_bool _ _ = false |- _ =>
             apply (f_equal negb) in H; cbn in H;
             apply negb_true_iff in H;
             apply Bool.not_true_iff_false in H;
             rewrite Qle_bool_iff in H
         end;
  repeat split; intros; try reflexivity; exfalso; lra.
Qed.

(* ===================================================================== *)
(** ** The engine's entries in the answer to an upload *)
(* ===================================================================== *)

(** What an upload is answered with, as far as the engine's entries go. *)
Lemma analyze_csv_engine_fields (A : Analyzer) (env : Env)
    (files : gmap string FileStorage) (w : World) :
  response_engine_fields (fst (analyze_csv A env files w))
  = csv_engine_outcome A env files (dq_analyzer w).
Proof.
  unfold csv_engine_outcome.
  destruct (files !! "file") as [file|] eqn:Hfile.
  2: { unfold analyze_csv, analyze_csv_view. rewrite Hfile. reflexivity. }
  destruct (decide (filename file = "")) as [Hname|Hname].
  { unfold analyze_csv, analyze_csv_view. rewrite Hfile.
    rewrite !bool_decide_eq_true_2 by exact Hname. reflexivity. }
  rewrite bool_decide_eq_false_2 by exact Hname.
  destruct (endswith (filename file) ".csv") eqn:Hcsv; cbn [negb].
  2: { unfold analyze_csv, analyze_csv_view. rewrite Hfile.
       rewrite bool_decide_eq_false_2 by exact Hname. rewrite Hcsv.
       reflexivity. }
  destruct (pd_read_csv env (content file)) as [e|df] eqn:Hread.
  { rewrite (analyze_csv_read_fails A env files w file e) by assumption.
    reflexivity. }
  rewrite (analyze_csv_reaches_analyzer A env files w file df) by assumption.
  destruct (analyze_dataframe A (dq_analyzer w) df (filename file))
    as [self' [e|analysis]]; [reflexivity|].
  cbv zeta. cbn [snd].
  match goal with
  | |- context [generate_insights ?a ?b ?c ?d ?w1] =>
      destruct (generate_insights_total a b c d w1) as (v & evs & Hrun)
  end.
  rewrite Hrun. cbn [fst].
  unfold response_engine_fields. rewrite !response_field_analysis.
  change (engine_fields
            (<["ai_insights" := v]>
               (<["detected_domain" :=
                    JStr (csv_domain env df (filename file))]> analysis))
          = engine_fields analysis).
  rewrite engine_fields_ai_insights. apply engine_fields_detected_domain.
Qed.

(* ===================================================================== *)
(** ** A dataset without rows *)
(* ===================================================================== *)

(** C2, as stated, fails on the table route: a table with a column and no
    row is answered 404 ['No data found'] by the guard of lines 89-90,
    with no score at all, and the engine is not called. *)
Lemma zero_row_table_is_rejected :
  let E := engine_analyzer sample_config in
  let out := analyze_table E env_no_rows "employees" (module_init E) in
  pd_read_sql env_no_rows "employees" = inr df_empty
  /\ columns df_empty <> [] /\ rows df_empty = []
  /\ status (fst out) = 404%Z
  /\ success_flag (fst out) = Some (JBool false)
  /\ response_field (fst out) "table_scores" = None
  /\ analyzer_calls (trace (snd out)) = [].
Proof.
  cbv zeta. repeat split; try (vm_compute; reflexivity). discriminate.
Qed.

Section ZeroRows.

Variables (cfg : Config) (d : DataFrame).
Hypothesis some_column : columns d <> [].
Hypothesis no_row : rows d = [].

Lemma zero_rows_well_formed : well_formed_dataset d = true.
Proof using some_column no_row.
  unfold well_formed_dataset. rewrite no_row; cbn.
  rewrite bool_decide_eq_false_2 by exact some_column. reflexivity.
Qed.

Lemma zero_rows_column name : column_values d name = [].
Proof using no_row. unfold column_values. rewrite no_row. reflexivity. Qed.

Lemma zero_rows_field_issues name : field_issues cfg d name = [].
Proof using no_row.
  unfold field_issues. rewrite zero_rows_column.
  unfold infer_type; cbn. rewrite take_nil. reflexivity.
Qed.

Lemma zero_rows_issues : issues (build_report cfg d) = [].
Proof using no_row.
  unfold build_report; cbn [issues].
  assert (H : concat (map (field_issues cfg d) (columns d)) = []).
  { generalize (columns d) as cols.
    induction cols as [|c cs IH]; cbn; [reflexivity|].
    rewrite zero_rows_field_issues, IH. reflexivity. }
  rewrite H. reflexivity.
Qed.

Hypothesis weights_fine : weights_ok cfg.

Lemma field_overall_hundred : field_overall cfg 100 100 100 100 == 100.
Proof using weights_fine.
  unfold field_overall, weights_ok in *.
  destruct (weights cfg) as [w|]; cbn [default from_option id].
  - destruct weights_fine as (_ & _ & _ & _ & Hs).
    unfold weights_sum in *. field. lra.
  - reflexivity.
Qed.

Lemma zero_rows_field name :
  let f := analyze_field cfg d name in
  f_completeness f == 100 /\ f_correctness f == 100
  /\ f_uniqueness f == 100 /\ f_consistency f == 100
  /\ f_overall f == 100.
Proof using no_row weights_fine.
  cbv zeta. unfold analyze_field; cbn. rewrite zero_rows_column; cbn.
  repeat split; try reflexivity. apply field_overall_hundred.
Qed.

End ZeroRows.

Lemma Qsum_hundred (l : list Q) :
  Forall (fun q => q == 100) l ->
  Qsum l == 100 * inject_Z (Z.of_nat (length l)).
Proof.
  induction 1 as [|q l Hq _ IH]; cbn [Qsum foldr length].
  - reflexivity.
  - fold (Qsum l). rewrite Nat2Z.inj_succ, <- Z.add_1_r, inject_Z_plus.
    change (inject_Z 1) with 1. rewrite Hq, IH. ring.
Qed.

Lemma mean_hundred (l : list Q) :
  l <> [] -> Forall (fun q => q == 100) l -> mean l == 100.
Proof.
  intros Hne Hl. unfold mean. rewrite (Qsum_hundred l Hl).
  assert (Hn : 0 < inject_Z (Z.of_nat (length l))).
  { apply inject_nat_pos. destruct l; [contradiction | cbn; lia]. }
  field. lra.
Qed.

(** C2, amended. On a dataset with at least one column and no row the
    engine's [analyze] succeeds with every score at 100 and no issue, and
    the upload route answers 200 with that report; the table route, by its
    guard, answers such a table with 404 ['No data found'] and does not
    call the engine. *)
Theorem zero_rows_engine_and_routes (cfg : Config) (d : DataFrame)
    (label : string) :
  weights_ok cfg ->
  columns d <> [] ->
  rows d = [] ->
  (exists r,
      analyze cfg d label = inr r
      /\ overall_score (table_scores r) == 100
      /\ completeness_score (table_scores r) == 100
      /\ correctness_score (table_scores r) == 100
      /\ uniqueness_score (table_scores r) == 100
      /\ consistency_score (table_scores r) == 100
      /\ quality_grade (table_scores r) = GradeA
      /\ issues r = []
      /\ (forall env files file w,
             files !! "file" = Some file ->
             filename file <> ""%string ->
             endswith (filename file) ".csv" = true ->
             pd_read_csv env (content file) = inr d ->
             filename file = label ->
             status (fst (analyze_csv (engine_analyzer cfg) env files w))
             = 200%Z
             /\ response_engine_fields
                  (fst (analyze_csv (engine_analyzer cfg) env files w))
                = engine_fields (report_dict r)))
  /\ (forall A env table_name w,
         table_name ∈ table_map ->
         db_query_all env table_name = inr [] ->
         fst (analyze_table A env table_name w) = failure 404 "No data found"
         /\ analyzer_calls (trace (snd (analyze_table A env table_name w)))
            = analyzer_calls (trace w)).
Proof.
  intros Hw Hcol Hrow. split.
  - exists (build_report cfg d).
    assert (Hrun : analyze cfg d label = inr (build_report cfg d))
      by (unfold analyze; rewrite (zero_rows_well_formed d Hcol Hrow);
          reflexivity).
    assert (Hmean : forall proj : FieldAnalysis -> Q,
               (forall name, proj (analyze_field cfg d name) == 100) ->
               mean (map proj (map (analyze_field cfg d) (columns d))) == 100).
    { intros proj Hproj. apply mean_hundred.
      - destruct (columns d); [contradiction | discriminate].
      - apply Forall_map, Forall_map, Forall_forall. intros name _.
        apply Hproj. }
    assert (Ho : overall_score (table_scores (build_report cfg d)) == 100)
      by (apply Hmean; intros name;
          apply (zero_rows_field cfg d Hrow Hw name)).
    split; [exact Hrun|]. split; [exact Ho|].
    split; [apply Hmean; intros name;
            apply (zero_rows_field cfg d Hrow Hw name)|].
    split; [apply Hmean; intros name;
            apply (zero_rows_field cfg d Hrow Hw name)|].
    split; [apply Hmean; intros name;
            apply (zero_rows_field cfg d Hrow Hw name)|].
    split; [apply Hmean; intros name;
            apply (zero_rows_field cfg d Hrow Hw name)|].
    split.
    { cbn [build_report table_scores aggregate quality_grade].
      apply (proj1 (grade_of_thresholds _)).
      cbn [build_report table_scores aggregate overall_score] in Ho.
      rewrite Ho. lra. }
    split; [apply zero_rows_issues; exact Hrow|].
    intros env files file w Hfile Hname Hcsv Hread Hlabel.
    assert (Han : snd (analyze_dataframe (engine_analyzer cfg) (dq_analyzer w)
                         d (filename file))
                  = inr (report_dict (build_report cfg d))).
    { cbn. rewrite Hlabel, Hrun. reflexivity. }
    split.
    + rewrite (analyze_csv_reaches_analyzer _ env files w file d) by assumption.
      destruct (analyze_dataframe (engine_analyzer cfg) (dq_analyzer w) d
                  (filename file)) as [self' out]; cbn [snd] in Han; subst out.
      cbv zeta.
      match goal with
      | |- context [generate_insights ?a ?b ?c ?e ?w1] =>
          destruct (generate_insights_total a b c e w1) as (v & evs & Hgen)
      end.
      rewrite Hgen. reflexivity.
    + rewrite analyze_csv_engine_fields. unfold csv_engine_outcome.
      rewrite Hfile, bool_decide_eq_false_2 by exact Hname.
      rewrite Hcsv; cbn [negb]. rewrite Hread, Han. reflexivity.
  - intros A env table_name w Hin Hq.
    rewrite analyze_table_no_rows by assumption.
    split; [reflexivity|].
    unfold closed_after; cbn [snd trace].
    rewrite analyzer_calls_app; cbn. apply app_nil_r.
Qed.

Lemma zero_rows_engine_and_routes_witness :
  exists r,
    analyze sample_config df_empty "staff.csv" = inr r
    /\ overall_score (table_scores r) == 100
    /\ quality_grade (table_scores r) = GradeA
    /\ issues r = []
    /\ status (fst (analyze_csv (engine_analyzer sample_config) env_no_rows
                      upload (module_init (engine_analyzer sample_config))))
       = 200%Z.
Proof.
  destruct (proj1 (zero_rows_engine_and_routes sample_config df_empty
                     "staff.csv" I ltac:(discriminate) eq_refl))
    as (r & Hrun & Ho & _ & _ & _ & _ & Hg & Hi & Hcsv).
  exists r. split; [exact Hrun|]. split; [exact Ho|]. split; [exact Hg|].
  split; [exact Hi|].
  apply (proj1 (Hcsv env_no_rows upload (mkFile "staff.csv" "id")
                  (module_init (engine_analyzer sample_config))
                  eq_refl ltac:(discriminate) eq_refl eq_refl eq_refl)).
Defined.

(* ===================================================================== *)
(** ** Worked scenarios *)
(* ===================================================================== *)

(** [str.endswith] on a few names. *)
Example endswith_examples :
  endswith "staff.csv" ".csv" = true
  /\ endswith ".csv" ".csv" = true
  /\ endswith "csv" ".csv" = false
  /\ endswith "staff.csv.bak" ".csv" = false.
Proof. repeat split. Qed.

(** The scenario of section 8: 100 rows, a column [email] with 90 valid
    addresses and 10 empty cells, gives completeness 90, correctness 100
    and one [missing_values] issue of severity medium. *)
Example email_scenario :
  let cell n := SStr (String (Ascii.ascii_of_nat (33 + n)) "@x.org") in
  let row v : gmap string Scalar := <["email" := v]> ∅ in
  let d := mkDataFrame ["email"]
             (map (fun n => row (cell n)) (seq 0 90)
              ++ replicate 10 (row (SStr ""))) in
  match analyze sample_config d "staff" with
  | inr r =>
      map (fun f => (data_type f,
                     Qeq_bool (f_completeness f) 90,
                     Qeq_bool (f_correctness f) 100,
                     Qeq_bool (f_uniqueness f) 100))
          (field_analyses r)
      = [(TEmail, true, true, true)]
      /\ map (fun i => (issue_kind i, issue_severity i, issue_field i,
                        issue_rows i)) (issues r)
         = [(MissingValues, Medium, "email"%string, Some 10%nat)]
  | inl _ => False
  end.
Proof. vm_compute. split; reflexivity. Qed.

(** A column without any value scores 0 on completeness and 100 on the
    three other dimensions, and its type is unknown. *)
Example empty_column_scenario :
  let row : gmap string Scalar := <["note" := SNull]> ∅ in
  let f := analyze_field sample_config (mkDataFrame ["note"] [row; row]) "note" in
  data_type f = TUnknown
  /\ f_completeness f == 0 /\ f_correctness f == 100
  /\ f_uniqueness f == 100 /\ f_consistency f == 100.
Proof. vm_compute. repeat split. Qed.

(* ===================================================================== *)
(** * Further properties of the routes *)
(* ===================================================================== *)

#[local] Close Scope Q_scope.

(** ** The analysis routes and the database *)

Lemma success_flag_failure (code : Z) (msg : string) :
  success_flag (failure code msg) = Some (JBool false).
Proof. reflexivity. Qed.

Lemma success_flag_analysis (out : Dict) :
  success_flag (analysis_response out) = Some (JBool true).
Proof. reflexivity. Qed.

(** Every way a table request can end: one of four answers, the
    database as it was, and the session closed last. *)
Lemma analyze_table_outcome (A : Analyzer) (env : Env) (table_name : string)
    (w : World) :
  exists resp self' evs,
    analyze_table A env table_name w
    = (resp, mkWorld self' (insights w) ∅ (trace w ++ evs ++ [EvClose]))
    /\ (resp = failure 400 "Invalid table name"
        \/ resp = failure 404 "No data found"
        \/ (exists e, resp = failure 500 (str_exn e))
        \/ (exists out, resp = analysis_response out)).
Proof.
  destruct (decide (table_name ∈ table_map)) as [Hin|Hout].
  2: { rewrite analyze_table_unknown by exact Hout.
       eexists _, _, []. split; [reflexivity | auto]. }
  destruct (db_query_all env table_name) as [e|[|row rows0]] eqn:Hq.
  { rewrite (analyze_table_query_fails A env table_name w e) by assumption.
    eexists _, _, _. split; [reflexivity | eauto]. }
  { rewrite analyze_table_no_rows by assumption.
    eexists _, _, _. split; [reflexivity | eauto]. }
  destruct (pd_read_sql env table_name) as [e|df] eqn:Hsql.
  { rewrite (analyze_table_read_fails A env table_name w row rows0 e)
      by assumption.
    eexists _, _, _. split; [reflexivity | eauto]. }
  rewrite (analyze_table_reaches_analyzer A env table_name w row rows0 df)
    by assumption.
  destruct (analyze_dataframe A (dq_analyzer w) df table_name)
    as [self' [e|analysis]].
  { cbv zeta. unfold logged; cbn [dq_analyzer insights session_dirty trace].
    exists (failure 500 (str_exn e)), self',
      [EvQueryAll table_name; EvReadSql table_name;
       EvAnalyze (dq_analyzer w) df table_name; EvPrint "traceback"].
    split; [|eauto]. rewrite <- !app_assoc. reflexivity. }
  cbv zeta.
  match goal with
  | |- context [generate_insights ?a ?b ?c ?d ?w1] =>
      destruct (generate_insights_total a b c d w1) as (v & evs & Hrun)
  end.
  rewrite Hrun. unfold logged; cbn [dq_analyzer insights session_dirty trace].
  exists (analysis_response (<["ai_insights" := v]> analysis)), self',
    ([EvQueryAll table_name; EvReadSql table_name;
      EvAnalyze (dq_analyzer w) df table_name] ++ evs)%list.
  split; [|eauto 6]. rewrite <- !app_assoc. reflexivity.
Qed.

(** X1. A table request never writes to the database and always closes
    the session it opened, as its last action, whatever fails on the way;
    it answers 200, 400, 404 or 500, and [success] is true exactly in the
    answers with status 200. *)
Theorem analyze_table_closes_session (A : Analyzer) (env : Env)
    (table_name : string) (w : World) :
  let resp := fst (analyze_table A env table_name w) in
  let w' := snd (analyze_table A env table_name w) in
  (exists evs, trace w' = (trace w ++ evs ++ [EvClose])%list)
  /\ session_dirty w' = ∅
  /\ insights w' = insights w
  /\ (status resp = 200 \/ status resp = 400 \/ status resp = 404
      \/ status resp = 500)%Z
  /\ (success_flag resp = Some (JBool true) <-> status resp = 200%Z).
Proof.
  cbv zeta.
  destruct (analyze_table_outcome A env table_name w)
    as (resp & self' & evs & -> & Hresp).
  cbn [fst snd trace session_dirty insights].
  split; [eauto|]. split; [reflexivity|]. split; [reflexivity|].
  destruct Hresp as [-> | [-> | [[e ->] | [out ->]]]]; cbn [status failure];
    (split; [auto|]); try (split; intros H; discriminate H).
  split; intros _; reflexivity.
Qed.

(** A refused upload is answered 400 and changes nothing. *)
Lemma analyze_csv_refused (A : Analyzer) (env : Env)
    (files : gmap string FileStorage) (w : World) :
  bad_upload files ->
  exists msg, analyze_csv A env files w = (failure 400 msg, w).
Proof.
  unfold bad_upload, analyze_csv, analyze_csv_view. run.
  destruct (files !! "file") as [file|]; [|intros _; eauto].
  intros [Hname|Hcsv].
  - rewrite bool_decide_eq_true_2 by exact Hname. eauto.
  - destruct (bool_decide (filename file = "")); [eauto|].
    rewrite Hcsv. eauto.
Qed.

(** Every way an upload can end. *)
Lemma analyze_csv_outcome (A : Analyzer) (env : Env)
    (files : gmap string FileStorage) (w : World) :
  (bad_upload files
   /\ exists msg, analyze_csv A env files w = (failure 400 msg, w))
  \/ (~ bad_upload files
      /\ exists resp self' evs,
           analyze_csv A env files w
           = (resp, mkWorld self' (insights w) (session_dirty w)
                            (trace w ++ evs))
           /\ ((exists e, resp = failure 500 (str_exn e))
               \/ (exists out, resp = analysis_response out))).
Proof.
  destruct (files !! "file") as [file|] eqn:Hfile.
  2: { left. assert (Hbad : bad_upload files)
         by (unfold bad_upload; rewrite Hfile; exact I).
       split; [exact Hbad | apply analyze_csv_refused; exact Hbad]. }
  destruct (decide (filename file = "")) as [Hname|Hname].
  { left. assert (Hbad : bad_upload files)
      by (unfold bad_upload; rewrite Hfile; left; exact Hname).
    split; [exact Hbad | apply analyze_csv_refused; exact Hbad]. }
  destruct (endswith (filename file) ".csv") eqn:Hcsv.
  2: { left. assert (Hbad : bad_upload files)
         by (unfold bad_upload; rewrite Hfile; right; exact Hcsv).
       split; [exact Hbad | apply analyze_csv_refused; exact Hbad]. }
  right. split.
  { unfold bad_upload. rewrite Hfile.
    intros [H|H]; [contradiction | rewrite Hcsv in H; discriminate H]. }
  destruct (pd_read_csv env (content file)) as [e|df] eqn:Hread.
  { rewrite (analyze_csv_read_fails A env files w file e) by assumption.
    unfold logged. eexists _, _, _. split; [reflexivity | eauto]. }
  rewrite (analyze_csv_reaches_analyzer A env files w file df) by assumption.
  destruct (analyze_dataframe A (dq_analyzer w) df (filename file))
    as [self' [e|analysis]].
  { cbv zeta. eexists _, _, _. split; [reflexivity | eauto]. }
  cbv zeta.
  match goal with
  | |- context [generate_insights ?a ?b ?c ?d ?w1] =>
      destruct (generate_insights_total a b c d w1) as (v & evs & Hrun)
  end.
  rewrite Hrun. unfold logged; cbn [dq_analyzer insights session_dirty trace].
  eexists _, self',
    ([EvReadCsv (filename file);
      EvAnalyze (dq_analyzer w) df (filename file)]
     ++ detect_events env df (filename file) ++ evs)%list.
  split; [|eauto]. rewrite <- !app_assoc. reflexivity.
Qed.

(** Once [request.files] is there, an upload is answered 400 exactly
    when no file came under the key [file], or its name is empty, or its
    name does not end in [.csv]; such a request changes nothing. *)
Lemma analyze_csv_400_iff (A : Analyzer) (env : Env)
    (files : gmap string FileStorage) (w : World) :
  (status (fst (analyze_csv A env files w)) = 400%Z <-> bad_upload files)
  /\ (bad_upload files -> snd (analyze_csv A env files w) = w).
Proof.
  destruct (analyze_csv_outcome A env files w)
    as [(Hbad & msg & Hrun)
       | (Hok & resp & self' & evs & Hrun & Hresp)]; rewrite Hrun; cbn [fst snd].
  - split; [split; auto | auto].
  - split; [|contradiction]. split; [|contradiction].
    destruct Hresp as [[e ->] | [out ->]]; intros H; discriminate H.
Qed.

(** Once [request.files] is there, the view leaves the database and the
    session alone and answers 200, 400 or 500, with [success] true
    exactly in the answers with status 200. *)
Lemma analyze_csv_parsed_statuses (A : Analyzer) (env : Env)
    (files : gmap string FileStorage) (w : World) :
  let resp := fst (analyze_csv A env files w) in
  let w' := snd (analyze_csv A env files w) in
  insights w' = insights w
  /\ session_dirty w' = session_dirty w
  /\ (status resp = 200%Z \/ status resp = 400%Z \/ status resp = 500%Z)
  /\ (success_flag resp = Some (JBool true) <-> status resp = 200%Z).
Proof.
  cbv zeta.
  destruct (analyze_csv_outcome A env files w)
    as [(Hbad & msg & Hrun)
       | (Hok & resp & self' & evs & Hrun & Hresp)]; rewrite Hrun;
    cbn [fst snd insights session_dirty].
  - split; [reflexivity|]. split; [reflexivity|]. split; [auto|].
    split; intros H; discriminate H.
  - split; [reflexivity|]. split; [reflexivity|].
    destruct Hresp as [[e ->] | [out ->]]; cbn [status failure];
      (split; [auto|]).
    + split; intros H; discriminate H.
    + split; intros _; reflexivity.
Qed.

(** A body declared longer than the limit never yields its files. *)
Lemma request_files_too_large (req : UploadRequest) (n : Z) :
  content_length req = Some n ->
  (MAX_CONTENT_LENGTH < n)%Z ->
  request_files req = None.
Proof.
  intros Hlen Hbig. unfold request_files. rewrite Hlen.
  destruct (Z.ltb_spec MAX_CONTENT_LENGTH n) as [_|Hle]; [reflexivity | lia].
Qed.

(** X2. An upload is answered 413 exactly when evaluating
    [request.files] is refused, which is the case of every body declared
    longer than [MAX_CONTENT_LENGTH]; it is answered 400 exactly when the
    files were read and no file came under the key [file], or its name
    is empty, or its name does not end in [.csv]. A request answered 413
    or 400 changes nothing: pandas, the analyzer and the insight
    generator are not reached. *)
Theorem analyze_csv_rejects_bad_uploads (A : Analyzer) (env : Env)
    (req : UploadRequest) (w : World) :
  let resp := fst (analyze_csv_request A env req w) in
  let w' := snd (analyze_csv_request A env req w) in
  (status resp = 413%Z <-> request_files req = None)
  /\ (forall n, content_length req = Some n ->
                (MAX_CONTENT_LENGTH < n)%Z ->
                resp = request_entity_too_large)
  /\ (status resp = 400%Z <->
      exists files, request_files req = Some files /\ bad_upload files)
  /\ (status resp = 413%Z \/ status resp = 400%Z -> w' = w).
Proof.
  cbv zeta. unfold analyze_csv_request.
  split; [|split; [|split]].
  - destruct (request_files req) as [files|] eqn:Hfiles; cbn [fst].
    + split; [|discriminate]. intros H.
      destruct (analyze_csv_parsed_statuses A env files w)
        as (_ & _ & [Hs|[Hs|Hs]] & _); rewrite Hs in H; discriminate H.
    + split; reflexivity.
  - intros n Hlen Hbig.
    rewrite (request_files_too_large req n Hlen Hbig). reflexivity.
  - destruct (request_files req) as [files|] eqn:Hfiles; cbn [fst].
    + destruct (analyze_csv_400_iff A env files w) as [Hiff _].
      split.
      * intros H. exists files. split; [reflexivity | apply Hiff; exact H].
      * intros (files' & Heq & Hbad). injection Heq as <-.
        apply Hiff; exact Hbad.
    + split; [discriminate|]. intros (files' & Heq & _). discriminate Heq.
  - destruct (request_files req) as [files|] eqn:Hfiles; cbn [fst snd].
    + destruct (analyze_csv_400_iff A env files w) as [Hiff Hsame].
      intros [H|H].
      * destruct (analyze_csv_parsed_statuses A env files w)
          as (_ & _ & [Hs|[Hs|Hs]] & _); rewrite Hs in H; discriminate H.
      * apply Hsame, Hiff, H.
    + intros _. reflexivity.
Qed.

(** X3. An upload never touches the database or a session: the persisted
    insights and the pending changes are what they were; it answers 200,
    400, 413 or 500, and [success] is true exactly in the answers with
    status 200. *)
Theorem analyze_csv_leaves_database (A : Analyzer) (env : Env)
    (req : UploadRequest) (w : World) :
  let resp := fst (analyze_csv_request A env req w) in
  let w' := snd (analyze_csv_request A env req w) in
  insights w' = insights w
  /\ session_dirty w' = session_dirty w
  /\ (status resp = 200%Z \/ status resp = 400%Z
      \/ status resp = 413%Z \/ status resp = 500%Z)
  /\ (success_flag resp = Some (JBool true) <-> status resp = 200%Z).
Proof.
  cbv zeta. unfold analyze_csv_request.
  destruct (request_files req) as [files|]; cbn [fst snd].
  - destruct (analyze_csv_parsed_statuses A env files w)
      as (Hins & Hdirty & Hs & Hflag).
    split; [exact Hins|]. split; [exact Hdirty|]. split; [|exact Hflag].
    destruct Hs as [Hs|[Hs|Hs]]; auto.
  - split; [reflexivity|]. split; [reflexivity|].
    split; [right; right; left; reflexivity|].
    split; intros H; discriminate H.
Qed.

(** An upload declared one byte above the limit is answered 413 and one
    that brings no file 400, both with the world as it was. *)
Lemma analyze_csv_rejects_bad_uploads_witness :
  fst (analyze_csv_request counting_analyzer env_up oversized_upload
         (module_init counting_analyzer)) = request_entity_too_large
  /\ snd (analyze_csv_request counting_analyzer env_up empty_upload
            (module_init counting_analyzer))
     = module_init counting_analyzer.
Proof.
  split.
  - apply (proj1 (proj2 (analyze_csv_rejects_bad_uploads
                           counting_analyzer env_up oversized_upload
                           (module_init counting_analyzer)))
             (MAX_CONTENT_LENGTH + 1)%Z eq_refl).
    unfold MAX_CONTENT_LENGTH. lia.
  - apply (proj2 (proj2 (proj2 (analyze_csv_rejects_bad_uploads
                                  counting_analyzer env_up empty_upload
                                  (module_init counting_analyzer))))).
    right. vm_compute. reflexivity.
Defined.

(** ** The payload of the insight generator: edge cases *)

(** X4. When the analyzer's dictionary has no [table_scores] entry, the
    [KeyError] is raised inside the inner [try]: the insight generator is
    not called at all, whatever it would have answered, and the table
    route still answers 200 with [ai_insights] set to the failure record
    whose error is the text of the [KeyError]. *)
Theorem missing_scores_skip_generator (A : Analyzer) (env : Env)
    (table_name : string) (w : World) row rows0 df analysis :
  table_name ∈ table_map ->
  db_query_all env table_name = inr (row :: rows0) ->
  pd_read_sql env table_name = inr df ->
  snd (analyze_dataframe A (dq_analyzer w) df table_name) = inr analysis ->
  analysis !! "table_scores" = None ->
  status (fst (analyze_table A env table_name w)) = 200%Z
  /\ response_field (fst (analyze_table A env table_name w)) "ai_insights"
     = Some (insights_failure (mkExn "KeyError" "'table_scores'"))
  /\ engine_fields_of_response_eq
       (fst (analyze_table A env table_name w)) analysis
  /\ insight_calls (trace (snd (analyze_table A env table_name w)))
     = insight_calls (trace w).
Proof.
  intros Hin Hq Hsql Han Hnone.
  rewrite (analyze_table_reaches_analyzer A env table_name w row rows0 df)
    by assumption.
  destruct (analyze_dataframe A (dq_analyzer w) df table_name)
    as [self' r]; cbn [snd] in Han; subst r.
  cbv zeta. rewrite generate_insights_run.
  unfold insights_payload, getitem. rewrite Hnone.
  cbn [fst snd status analysis_response].
  split; [reflexivity|]. split.
  { rewrite response_field_analysis. apply lookup_insert_eq. }
  split.
  { unfold engine_fields_of_response_eq, response_engine_fields.
    rewrite !response_field_analysis.
    apply (engine_fields_ai_insights _ analysis). }
  unfold logged; cbn [trace].
  rewrite !insight_calls_app; cbn. rewrite !app_nil_r. reflexivity.
Qed.

(** X5. In the mapping handed to the insight generator the later entries
    of the dict display win: a [table_name] or [domain] key among the
    table scores replaces the display name or the domain, while [issues]
    is always the analyzer's issues list, even when the table scores hold
    a key of that name. *)
Theorem payload_later_keys_win (name : string) (domain : Json)
    (analysis scores : Dict) (issues_v : Json) :
  analysis !! "table_scores" = Some (JObj scores) ->
  analysis !! "issues" = Some issues_v ->
  exists p,
    insights_payload name domain analysis = inr p
    /\ p !! "issues" = Some issues_v
    /\ p !! "table_name"
       = Some (default (JStr name) (scores !! "table_name"))
    /\ p !! "domain" = Some (default domain (scores !! "domain")).
Proof.
  intros Hs Hi. unfold insights_payload, getitem. rewrite Hs; cbn. rewrite Hi.
  eexists. split; [reflexivity|]. split; [apply lookup_insert_eq|].
  split.
  - rewrite lookup_insert_ne by discriminate.
    destruct (scores !! "table_name") as [v|] eqn:Hk; cbn.
    + apply lookup_union_Some_l. exact Hk.
    + rewrite lookup_union_r by exact Hk.
      rewrite lookup_insert_ne by discriminate. apply lookup_insert_eq.
  - rewrite lookup_insert_ne by discriminate.
    destruct (scores !! "domain") as [v|] eqn:Hk; cbn.
    + apply lookup_union_Some_l. exact Hk.
    + rewrite lookup_union_r by exact Hk. apply lookup_insert_eq.
Qed.

(** ** Reviewing an insight: the success path *)

(** What the four attribute writes leave pending is the one row
    [reviewed_row]. *)
Lemma review_pending_row (env : Env) (m : Dict) (insight_id : Z)
    (i0 : DQInsight) :
  review_pending env m insight_id i0
  = {[ insight_id := reviewed_row env m i0 ]}.
Proof.
  unfold review_pending, reviewed_row; cbv zeta.
  rewrite !insert_insert_eq. reflexivity.
Qed.

(** [review_insight] written as the ways it can go. *)
Lemma review_insight_run (env : Env) (request_json : Exn + Json)
    (insight_id : Z) (w : World) :
  review_insight env request_json insight_id w =
  let closed evs :=
    mkWorld (dq_analyzer w) (insights w) ∅ (trace w ++ evs) in
  match request_json with
  | inl e => (failure 500 (str_exn e), closed [EvRollback; EvClose])
  | inr data =>
      match db_query_insight_error env with
      | Some e =>
          (failure 500 (str_exn e),
           closed [EvQueryInsight insight_id; EvRollback; EvClose])
      | None =>
          match insights w !! insight_id with
          | None =>
              (failure 404 "Insight not found",
               closed [EvQueryInsight insight_id; EvClose])
          | Some i0 =>
              match data with
              | JObj m =>
                  match db_commit_error env
                          (review_pending env m insight_id i0) with
                  | Some e =>
                      (failure 500 (str_exn e),
                       closed [EvQueryInsight insight_id; EvRollback; EvClose])
                  | None =>
                      (review_ok,
                       mkWorld (dq_analyzer w)
                         (<[insight_id := reviewed_row env m i0]> (insights w))
                         ∅
                         (trace w ++ [EvQueryInsight insight_id; EvCommit;
                                      EvClose]))
                  end
              | _ =>
                  (failure 500 "object has no attribute 'get'",
                   closed [EvQueryInsight insight_id; EvRollback; EvClose])
              end
          end
      end
  end.
Proof.
  cbv zeta.
  unfold review_insight, review_insight_view, query_insight, set_insight,
    session_commit.
  run.
  destruct request_json as [e|data]; cbn.
  { rewrite <- !app_assoc. reflexivity. }
  destruct (db_query_insight_error env) as [e|]; cbn.
  { rewrite <- !app_assoc. reflexivity. }
  rewrite (left_id_L ∅ (∪)).
  destruct (insights w !! insight_id) as [i0|]; cbn.
  2: { rewrite <- !app_assoc. reflexivity. }
  destruct data as [| | | | |m]; cbn;
    try (rewrite <- !app_assoc; reflexivity).
  fold (review_pending env m insight_id i0).
  destruct (db_commit_error env (review_pending env m insight_id i0)); cbn.
  { rewrite <- !app_assoc. reflexivity. }
  rewrite <- !app_assoc; cbn.
  rewrite review_pending_row, <- insert_union_singleton_l. reflexivity.
Qed.

(** X6. A review answers 200 exactly when the body is a JSON object, the
    lookup works, the insight exists and the database accepts the commit;
    it answers 404 exactly when the body was read, the lookup works and no
    insight has the id. *)
Theorem review_insight_success_iff (env : Env) (request_json : Exn + Json)
    (insight_id : Z) (w : World) :
  (status (fst (review_insight env request_json insight_id w)) = 200%Z
   <-> exists m i0,
         request_json = inr (JObj m)
         /\ db_query_insight_error env = None
         /\ insights w !! insight_id = Some i0
         /\ db_commit_error env (review_pending env m insight_id i0) = None)
  /\
  (status (fst (review_insight env request_json insight_id w)) = 404%Z
   <-> exists data,
         request_json = inr data
         /\ db_query_insight_error env = None
         /\ insights w !! insight_id = None).
Proof.
  rewrite review_insight_run; cbv zeta.
  destruct request_json as [e|data]; cbn [fst status failure].
  { split; split; try discriminate.
    - intros (m & i0 & H & _). discriminate H.
    - intros (d & H & _). discriminate H. }
  destruct (db_query_insight_error env) as [e|]; cbn [fst status failure].
  { split; split; try discriminate.
    - intros (m & i0 & _ & H & _). discriminate H.
    - intros (d & _ & H & _). discriminate H. }
  destruct (insights w !! insight_id) as [i0|]; cbn [fst status failure].
  2: { split; split; try discriminate; eauto.
       intros (m & i0 & _ & _ & H & _). discriminate H. }
  assert (H404 : ~ exists d : Json,
             @inr Exn Json data = inr d /\ @None Exn = None
             /\ Some i0 = @None DQInsight)
    by (intros (d & _ & _ & H); discriminate H).
  destruct data as [| | | | |m]; cbn [fst status failure];
    try (split; split; try discriminate; try (intros H; exfalso; tauto);
         intros (m & i1 & H & _); discriminate H).
  destruct (db_commit_error env (review_pending env m insight_id i0)) eqn:Hc;
    cbn [fst status failure review_ok].
  - split; split; try discriminate; try (intros H; exfalso; tauto).
    intros (m' & i1 & Hm & _ & Hi & Hcommit).
    injection Hm as <-. injection Hi as <-.
    rewrite Hc in Hcommit. discriminate Hcommit.
  - split; split; try discriminate; try (intros H; exfalso; tauto).
    + intros _. eauto 6.
    + intros _. reflexivity.
Qed.

(** X7. A review that answers 200 has rewritten its row and nothing else:
    the row is marked reviewed, [is_approved] and [reviewed_by] are the
    body's [approved] and [reviewer] or their defaults [False] and
    ['Admin'], [reviewed_at] is the clock's time, the descriptive columns
    are untouched, and every other row is what it was. *)
Theorem review_insight_success_row (env : Env) (request_json : Exn + Json)
    (insight_id : Z) (w : World) :
  status (fst (review_insight env request_json insight_id w)) = 200%Z ->
  exists m i0 r,
    request_json = inr (JObj m)
    /\ insights w !! insight_id = Some i0
    /\ insights (snd (review_insight env request_json insight_id w))
         !! insight_id = Some r
    /\ is_reviewed r = true
    /\ is_approved r = default (JBool false) (m !! "approved")
    /\ reviewed_by r = default (JStr "Admin") (m !! "reviewer")
    /\ reviewed_at r = Some (now env)
    /\ (entity_type r, entity_name r, issue_type r, severity r, insight r,
        recommendation r)
       = (entity_type i0, entity_name i0, issue_type i0, severity i0,
          insight i0, recommendation i0)
    /\ (forall j, j <> insight_id ->
          insights (snd (review_insight env request_json insight_id w)) !! j
          = insights w !! j).
Proof.
  rewrite review_insight_run; cbv zeta.
  destruct request_json as [e|data]; [discriminate|].
  destruct (db_query_insight_error env) as [e|]; [discriminate|].
  destruct (insights w !! insight_id) as [i0|] eqn:Hfind; [|discriminate].
  destruct data as [| | | | |m]; try discriminate.
  destruct (db_commit_error env (review_pending env m insight_id i0));
    [discriminate|].
  intros _. cbn [snd insights].
  exists m, i0, (reviewed_row env m i0).
  split; [reflexivity|]. split; [reflexivity|].
  split; [apply lookup_insert_eq|].
  repeat split.
  intros j Hj. apply lookup_insert_ne. congruence.
Qed.

(** X8. Reviewing is idempotent: when the same review is submitted twice
    and both are answered 200, the second leaves the persisted insights as
    the first left them. *)
Theorem review_insight_twice (env : Env) (request_json : Exn + Json)
    (insight_id : Z) (w : World) :
  let first := review_insight env request_json insight_id w in
  let second := review_insight env request_json insight_id (snd first) in
  status (fst first) = 200%Z ->
  status (fst second) = 200%Z ->
  insights (snd second) = insights (snd first).
Proof.
  cbv zeta. rewrite !review_insight_run; cbv zeta.
  destruct request_json as [e|data]; [discriminate|].
  destruct (db_query_insight_error env) as [e|]; [discriminate|].
  destruct (insights w !! insight_id) as [i0|] eqn:Hfind; [|discriminate].
  destruct data as [| | | | |m]; try discriminate.
  destruct (db_commit_error env (review_pending env m insight_id i0));
    [discriminate|].
  intros _. cbn [snd insights]. rewrite lookup_insert_eq.
  destruct (db_commit_error env
              (review_pending env m insight_id (reviewed_row env m i0)));
    [discriminate|].
  intros _. cbn [snd insights]. rewrite insert_insert_eq. reflexivity.
Qed.

(** ** The read-only statistics routes *)

(** X9. [/api/domains/from-database] closes its session whatever the
    queries do. When they all answer, the response is 200 and its domain
    list is never empty: it names, in the order HR, Payroll, Finance,
    Expenses, exactly the tables with a positive row count, or the two
    default domains when there is none. When a count raises, nothing in
    the view catches it and the answer is the generic 500. *)
Theorem domains_from_database_listing (db : Database) (w : World) :
  snd (get_domains_from_database db w) = closed_after w []
  /\ (forall e p i x,
         db_count db "employees" = inr e ->
         db_count db "payroll" = inr p ->
         db_count db "invoices" = inr i ->
         db_count db "expenses" = inr x ->
         let listed :=
           omap (fun '(name, source, n) =>
                   if (0 <? n)%Z then Some (domain_entry name source) else None)
                [("HR", "employees", e); ("Payroll", "payroll", p);
                 ("Finance", "invoices", i); ("Expenses", "expenses", x)] in
         exists l,
           status (fst (get_domains_from_database db w)) = 200%Z
           /\ body_field (fst (get_domains_from_database db w)) "domains"
              = Some (JList l)
           /\ l <> []
           /\ l = match listed with [] => default_domains | _ => listed end)
  /\ (forall t e,
         t ∈ table_map ->
         db_count db t = inl e ->
         fst (get_domains_from_database db w) = internal_error).
Proof.
  unfold get_domains_from_database, get_domains_from_database_view.
  run. unfold closed_after; cbn [app].
  destruct (db_count db "employees") as [e1|e] eqn:H1;
    [|destruct (db_count db "payroll") as [e2|p] eqn:H2;
      [|destruct (db_count db "invoices") as [e3|i] eqn:H3;
        [|destruct (db_count db "expenses") as [e4|x] eqn:H4]]];
    cbn [fst snd].
  1-4: (split; [reflexivity|]; split;
        [intros; discriminate
        |intros t e0 Ht He; reflexivity]).
  split; [reflexivity|]. split.
  - intros e' p' i' x' He Hp Hi Hx.
    injection He as <-. injection Hp as <-. injection Hi as <-.
    injection Hx as <-.
    cbv zeta. unfold append_if_rows, body_field; cbn [omap list_omap body status].
    rewrite lookup_insert_ne by discriminate. rewrite lookup_insert_eq.
    destruct (0 <? e)%Z, (0 <? p)%Z, (0 <? i)%Z, (0 <? x)%Z; cbn;
      eexists; (split; [reflexivity|]); (split; [reflexivity|]);
      (split; [discriminate | reflexivity]).
  - intros t e0 Ht He. exfalso. unfold table_map in Ht.
    repeat (apply elem_of_cons in Ht as [->|Ht]; [congruence|]).
    apply elem_of_nil in Ht. exact Ht.
Qed.

(** The dashboard route written as the ways it can go: the first query
    that raises decides the answer, and only the last line closes the
    session. *)
Lemma get_dashboard_overview_run (rt : Runtime) (db : Database) (w : World) :
  get_dashboard_overview rt db w =
  let opened := mkWorld (dq_analyzer w) (insights w) ∅ (trace w) in
  match db_count db "employees" with
  | inl e => (failure 500 (str_exn e), opened)
  | inr employees =>
      match db_count db "payroll" with
      | inl e => (failure 500 (str_exn e), opened)
      | inr payroll =>
          match db_count db "invoices" with
          | inl e => (failure 500 (str_exn e), opened)
          | inr invoices =>
              match db_count db "expenses" with
              | inl e => (failure 500 (str_exn e), opened)
              | inr expenses =>
                  match db_scores db with
                  | inl e => (failure 500 (str_exn e), opened)
                  | inr scores =>
                      (mkResponse 200
                         (JObj (<["overview" :=
                                    JObj (overview_dict rt employees payroll
                                            invoices expenses scores)]>
                                (<["success" := JBool true]> ∅))),
                       closed_after w [])
                  end
              end
          end
      end
  end.
Proof.
  unfold get_dashboard_overview, get_dashboard_overview_view, closed_after.
  run.
  destruct (db_count db "employees"); cbn; [reflexivity|].
  destruct (db_count db "payroll"); cbn; [reflexivity|].
  destruct (db_count db "invoices"); cbn; [reflexivity|].
  destruct (db_count db "expenses"); cbn; [reflexivity|].
  destruct (db_scores db); reflexivity.
Qed.



(** X11. The dashboard overview closes its session only on its last line:
    when a query raises, the answer is 500 with the text of that exception
    and the session opened for the request is never closed; it is closed
    exactly when the answer is 200. *)
Theorem dashboard_overview_session (rt : Runtime) (db : Database) (w : World) :
  let resp := fst (get_dashboard_overview rt db w) in
  let w' := snd (get_dashboard_overview rt db w) in
  (status resp = 200%Z \/ status resp = 500%Z)
  /\ (status resp = 200%Z -> trace w' = (trace w ++ [EvClose])%list)
  /\ (status resp = 500%Z ->
      trace w' = trace w
      /\ exists e, resp = failure 500 (str_exn e)
                   /\ (db_count db "employees" = inl e
                       \/ db_count db "payroll" = inl e
                       \/ db_count db "invoices" = inl e
                       \/ db_count db "expenses" = inl e
                       \/ db_scores db = inl e)).
Proof.
  cbv zeta. rewrite get_dashboard_overview_run. cbv zeta.
  destruct (db_count db "employees") as [e|n1];
    [|destruct (db_count db "payroll") as [e|n2];
      [|destruct (db_count db "invoices") as [e|n3];
        [|destruct (db_count db "expenses") as [e|n4];
          [|destruct (db_scores db) as [e|l]]]]];
    cbn [fst snd status failure trace closed_after].
  1-5: (split; [auto|]; split; [discriminate|];
        intros _; split; [reflexivity|]; exists e; split; [reflexivity|];
        auto 6).
  split; [auto|]. split; [intros _; reflexivity | discriminate].
Qed.

(** X12. [/api/stats/overall] reports the four counts under their keys
    when the queries answer; when one raises, the answer is the generic
    500 of the application, and in both cases the session is closed. *)
Theorem overall_stats_counts (db : Database) (w : World) :
  snd (get_overall_stats db w) = closed_after w []
  /\ (forall employees invoices expenses payroll,
         db_count db "employees" = inr employees ->
         db_count db "invoices" = inr invoices ->
         db_count db "expenses" = inr expenses ->
         db_count db "payroll" = inr payroll ->
         let resp := fst (get_overall_stats db w) in
         status resp = 200%Z
         /\ body_path resp "stats" "total_employees" = Some (JInt employees)
         /\ body_path resp "stats" "total_invoices" = Some (JInt invoices)
         /\ body_path resp "stats" "total_expenses" = Some (JInt expenses)
         /\ body_path resp "stats" "total_payroll_records"
            = Some (JInt payroll))
  /\ (forall t e,
         t ∈ table_map ->
         db_count db t = inl e ->
         fst (get_overall_stats db w) = internal_error).
Proof.
  unfold get_overall_stats, get_overall_stats_view.
  run. unfold closed_after; cbn [app].
  destruct (db_count db "employees") as [e1|e] eqn:H1;
    [|destruct (db_count db "invoices") as [e2|i] eqn:H2;
      [|destruct (db_count db "expenses") as [e3|x] eqn:H3;
        [|destruct (db_count db "payroll") as [e4|p] eqn:H4]]];
    cbn [fst snd].
  1-4: (split; [reflexivity|]; split;
        [intros; discriminate
        |intros t e0 Ht He; reflexivity]).
  split; [reflexivity|]. split.
  - intros e' i' x' p' He Hi Hx Hp.
    injection He as <-. injection Hi as <-. injection Hx as <-.
    injection Hp as <-.
    cbv zeta. unfold body_path; cbn [body status].
    rewrite lookup_insert_eq.
    split; [reflexivity|].
    split; [do 3 (rewrite lookup_insert_ne by discriminate);
            apply lookup_insert_eq|].
    split; [do 2 (rewrite lookup_insert_ne by discriminate);
            apply lookup_insert_eq|].
    split; [rewrite lookup_insert_ne by discriminate;
            apply lookup_insert_eq|].
    apply lookup_insert_eq.
  - intros t e0 Ht He. exfalso. unfold table_map in Ht.
    repeat (apply elem_of_cons in Ht as [->|Ht]; [congruence|]).
    apply elem_of_nil in Ht. exact Ht.
Qed.

(** ** The detailed issue analysis *)

Lemma before_colon_no_colon (s : string) : has_colon (before_colon s) = false.
Proof.
  induction s as [|c s IH]; cbn; [reflexivity|].
  destruct (is_colon c) eqn:Hc; cbn; [reflexivity|].
  rewrite Hc, IH. reflexivity.
Qed.

Lemma lstrip_no_colon (s : string) :
  has_colon s = false -> has_colon (lstrip s) = false.
Proof.
  induction s as [|c s IH]; cbn; [auto|].
  intros H. apply orb_false_iff in H as [Hc Hs].
  destruct (py_isspace c); [auto|]. cbn. rewrite Hc, Hs. reflexivity.
Qed.

Lemma rstrip_no_colon (s : string) :
  has_colon s = false -> has_colon (rstrip s) = false.
Proof.
  induction s as [|c s IH]; cbn; [auto|].
  intros H. apply orb_false_iff in H as [Hc Hs]. specialize (IH Hs).
  destruct (rstrip s) as [|c' r].
  - destruct (py_isspace c); cbn; [reflexivity|]. rewrite Hc. reflexivity.
  - cbn in *. rewrite Hc, IH. reflexivity.
Qed.

Lemma lstrip_head (s : string) (c : Ascii.ascii) :
  head_char (lstrip s) = Some c -> py_isspace c = false.
Proof.
  induction s as [|c0 s IH]; cbn; [discriminate|].
  destruct (py_isspace c0) eqn:Hc0; [exact IH|].
  cbn. intros H. injection H as <-. exact Hc0.
Qed.

Lemma rstrip_last (s : string) (c : Ascii.ascii) :
  last_char (rstrip s) = Some c -> py_isspace c = false.
Proof.
  induction s as [|c0 s IH]; cbn; [discriminate|].
  destruct (rstrip s) as [|c1 r].
  - destruct (py_isspace c0) eqn:Hc0; cbn; [discriminate|].
    intros H. injection H as <-. exact Hc0.
  - exact IH.
Qed.

Lemma rstrip_head (s : string) (c : Ascii.ascii) :
  head_char (rstrip s) = Some c -> head_char s = Some c.
Proof.
  destruct s as [|c0 s]; cbn; [auto|].
  destruct (rstrip s); [destruct (py_isspace c0)|]; cbn; auto; discriminate.
Qed.

(** X13. The field the route extracts from a finding is clean: it holds no
    colon, it neither starts nor ends with a white-space character, and it
    is ['General'] when the finding's text has no colon at all. *)
Theorem finding_field_clean (rt : Runtime) (finding : Json) :
  has_colon (finding_field rt finding) = false
  /\ (forall c, head_char (finding_field rt finding) = Some c ->
                py_isspace c = false)
  /\ (forall c, last_char (finding_field rt finding) = Some c ->
                py_isspace c = false)
  /\ (has_colon (py_str rt finding) = false ->
      finding_field rt finding = "General").
Proof.
  unfold finding_field, strip.
  destruct (has_colon (py_str rt finding)) eqn:Hcolon.
  - split; [apply rstrip_no_colon, lstrip_no_colon, before_colon_no_colon|].
    split; [intros c Hc; apply rstrip_head in Hc;
            exact (lstrip_head _ c Hc)|].
    split; [intros c Hc; exact (rstrip_last _ c Hc) | discriminate].
  - split; [reflexivity|].
    split; [intros c Hc; injection Hc as <-; reflexivity|].
    split; [intros c Hc; injection Hc as <-; reflexivity | reflexivity].
Qed.

(** The route when the service answers with a dictionary whose two lists
    can be walked. *)
Lemma detailed_analysis_run (rt : Runtime) (llm : Llm) (d res : Dict)
    (fs items : list Json) (w : World) :
  llm_generate_detailed_issue_analyses llm
    (default (JList []) (d !! "issues"))
    (default (JList []) (d !! "field_analyses"))
    (default (JStr "Data") (d !! "domain")) = inr (JObj res) ->
  py_iter rt (default (JList []) (res !! "critical_findings")) = inr fs ->
  py_iter rt (default (JList []) (res !! "recommended_actions")) = inr items ->
  generate_detailed_issue_analysis rt llm (JObj d) w =
  match collect (recommended_action rt) items with
  | inl e => (failure 500 (str_exn e), logged w [EvPrint "traceback"])
  | inr actions =>
      (mkResponse 200
         (JObj (<["issue_analyses" :=
                    default (JList []) (res !! "critical_findings")]>
                (<["structured_analysis" :=
                     JObj (<["recommended_actions" := JList actions]>
                           (<["critical_findings" :=
                                JList (imap (critical_finding rt) fs)]>
                           (<["domain" :=
                                default (default (JStr "Data") (d !! "domain"))
                                        (res !! "domain")]> ∅)))]>
                (<["success" := JBool true]> ∅)))),
       w)
  end.
Proof.
  intros Hllm Hfs Hitems.
  unfold generate_detailed_issue_analysis,
    generate_detailed_issue_analysis_view, logged.
  run. unfold json_get at 1 2 3. cbn.
  rewrite Hllm; cbn. rewrite Hfs; cbn. rewrite Hitems; cbn.
  destruct (collect (recommended_action rt) items); reflexivity.
Qed.

(** X14. In a successful detailed analysis the structured findings follow
    the service's findings one to one and in order; the priority of each
    is decided by its position alone, ['Immediate'] for the first two,
    ['High'] for the next two and ['Medium'] from the fifth on, and its
    text is [str] of the finding. *)
Theorem critical_findings_by_position (rt : Runtime) (llm : Llm)
    (d res : Dict) (fs items actions : list Json) (w : World) :
  llm_generate_detailed_issue_analyses llm
    (default (JList []) (d !! "issues"))
    (default (JList []) (d !! "field_analyses"))
    (default (JStr "Data") (d !! "domain")) = inr (JObj res) ->
  py_iter rt (default (JList []) (res !! "critical_findings")) = inr fs ->
  py_iter rt (default (JList []) (res !! "recommended_actions")) = inr items ->
  collect (recommended_action rt) items = inr actions ->
  exists out,
    status (fst (generate_detailed_issue_analysis rt llm (JObj d) w)) = 200%Z
    /\ body_path (fst (generate_detailed_issue_analysis rt llm (JObj d) w))
         "structured_analysis" "critical_findings" = Some (JList out)
    /\ length out = length fs
    /\ (forall (k : nat) finding,
           fs !! k = Some finding ->
           exists o,
             out !! k = Some (JObj o)
             /\ o !! "finding" = Some (JStr (py_str rt finding))
             /\ o !! "field" = Some (JStr (finding_field rt finding))
             /\ ((k < 2)%nat -> o !! "priority" = Some (JStr "Immediate"))
             /\ ((2 <= k < 4)%nat -> o !! "priority" = Some (JStr "High"))
             /\ ((4 <= k)%nat -> o !! "priority" = Some (JStr "Medium"))).
Proof.
  intros Hllm Hfs Hitems Hact.
  rewrite (detailed_analysis_run rt llm d res fs items w Hllm Hfs Hitems), Hact.
  exists (imap (critical_finding rt) fs).
  split; [reflexivity|]. split.
  { unfold body_path; cbn [fst body].
    rewrite lookup_insert_ne by discriminate. rewrite lookup_insert_eq.
    rewrite lookup_insert_ne by discriminate. apply lookup_insert_eq. }
  split; [apply length_imap|].
  intros k finding Hk. eexists. split.
  { rewrite list_lookup_imap, Hk. reflexivity. }
  split; [do 2 (rewrite lookup_insert_ne by discriminate);
          apply lookup_insert_eq|].
  split; [do 3 (rewrite lookup_insert_ne by discriminate);
          apply lookup_insert_eq|].
  split; [|split]; intros Hlt;
    rewrite lookup_insert_ne by discriminate; rewrite lookup_insert_eq;
    unfold position_priority.
  - destruct (Nat.ltb_spec k 2); [reflexivity | lia].
  - destruct (Nat.ltb_spec k 2); [lia|].
    destruct (Nat.ltb_spec k 4); [reflexivity | lia].
  - destruct (Nat.ltb_spec k 2); [lia|].
    destruct (Nat.ltb_spec k 4); [lia | reflexivity].
Qed.

Lemma priority_map_get_label (key : Json) (p : string) :
  priority_map_get key = inr p ->
  p = "Immediate" \/ p = "High" \/ p = "Medium" \/ p = "Low".
Proof.
  destruct key as [| | |s| |]; cbn; try discriminate;
    try (intros H; injection H as <-; auto).
  destruct (priority_map !! s) as [v|] eqn:Hs; cbn; [|auto].
  unfold priority_map in Hs.
  repeat (apply lookup_insert_Some in Hs as [[_ <-]|[_ Hs]]; [auto|]).
  rewrite lookup_empty in Hs. discriminate Hs.
Qed.

(** Walking the items stops with the first that raises. *)
Lemma collect_raises {T U} (f : T -> Exn + U) (l : list T) (x : T) (e : Exn) :
  x ∈ l -> f x = inl e -> exists e', collect f l = inl e'.
Proof.
  intros Hx Hf. induction l as [|y l IH]; [inversion Hx|].
  cbn. apply elem_of_cons in Hx as [<-|Hx].
  - rewrite Hf. eauto.
  - destruct (f y); [eauto|]. destruct (IH Hx) as [e' ->]. eauto.
Qed.

(** X15. Every recommended action the route emits carries one of the four
    priorities ['Immediate'], ['High'], ['Medium'], ['Low'], and
    ['Medium'] when the item is not a dictionary or names no known
    priority. A dictionary item whose [priority] is a list or a dictionary
    cannot be looked up in the priority map: the route then answers 500
    instead of a report. *)
Theorem recommended_action_priority (rt : Runtime) :
  (forall item o,
      recommended_action rt item = inr o ->
      exists m p,
        o = JObj m
        /\ m !! "priority" = Some (JStr p)
        /\ (p = "Immediate" \/ p = "High" \/ p = "Medium" \/ p = "Low")
        /\ m !! "details" = Some (JStr "")
        /\ ((forall im, item <> JObj im) ->
            p = "Medium" /\ m !! "action" = Some (JStr (py_str rt item)))
        /\ (forall im s,
               item = JObj im -> im !! "priority" = Some (JStr s) ->
               priority_map !! s = None -> p = "Medium"))
  /\
  (forall llm d res fs items item im bad w,
      llm_generate_detailed_issue_analyses llm
        (default (JList []) (d !! "issues"))
        (default (JList []) (d !! "field_analyses"))
        (default (JStr "Data") (d !! "domain")) = inr (JObj res) ->
      py_iter rt (default (JList []) (res !! "critical_findings")) = inr fs ->
      py_iter rt (default (JList []) (res !! "recommended_actions"))
        = inr items ->
      item ∈ items ->
      item = JObj im ->
      im !! "priority" = Some bad ->
      (exists l, bad = JList l) \/ (exists m, bad = JObj m) ->
      status (fst (generate_detailed_issue_analysis rt llm (JObj d) w))
      = 500%Z).
Proof.
  split.
  - intros item o Hrun.
    destruct item as [| | | | |im];
      try (cbn in Hrun; injection Hrun as <-;
           eexists _, "Medium"; split; [reflexivity|];
           split; [rewrite lookup_insert_ne by discriminate;
                   apply lookup_insert_eq|];
           split; [auto|]; split; [apply lookup_insert_eq|];
           split; [intros _; split;
                   [reflexivity
                   |do 2 (rewrite lookup_insert_ne by discriminate);
                    apply lookup_insert_eq]
                  |intros ? ? H; discriminate H]).
    cbn in Hrun.
    destruct (priority_map_get (default (JStr "medium") (im !! "priority")))
      as [e|p] eqn:Hp; [discriminate|].
    injection Hrun as <-. eexists _, p. split; [reflexivity|].
    split; [rewrite lookup_insert_ne by discriminate; apply lookup_insert_eq|].
    split; [exact (priority_map_get_label _ p Hp)|].
    split; [apply lookup_insert_eq|].
    split; [intros Hno; exfalso; exact (Hno im eq_refl)|].
    intros im' s Him Hs Hnone. injection Him as <-.
    rewrite Hs in Hp. cbn in Hp. rewrite Hnone in Hp.
    injection Hp as <-. reflexivity.
  - intros llm d res fs items item im bad w Hllm Hfs Hitems Hin -> Hbad Hkind.
    rewrite (detailed_analysis_run rt llm d res fs items w Hllm Hfs Hitems).
    assert (Hraise : exists e, recommended_action rt (JObj im) = inl e).
    { cbn. rewrite Hbad. destruct Hkind as [[l ->]|[m ->]]; cbn; eauto. }
    destruct Hraise as [e He].
    destruct (collect_raises (recommended_action rt) items (JObj im) e Hin He)
      as [e' ->].
    reflexivity.
Qed.

(** ** The field analysis route *)

Lemma truthy_with_key (m : Dict) (k : string) (v : Json) :
  m !! k = Some v -> truthy (JObj m) = true.
Proof.
  intros Hk. cbn. apply negb_true_iff, bool_decide_eq_false.
  intros Hdom. assert (Hin : k ∈ dom m) by (apply elem_of_dom; eauto).
  rewrite Hdom in Hin. apply elem_of_empty in Hin. exact Hin.
Qed.

(** X16. The field route reaches the language model only for a JSON
    object with a [field_stats] entry: it answers 200 exactly when the
    body is such an object and the model answers for that entry, and then
    [insights] is the model's answer; for any other body the response is
    the same whatever the model would do, and a body that is false in
    Python ([null], [{}], [[]], [''], 0, [false]) is answered 400. *)
Theorem analyze_field_guard (llm : Llm) (data : Json) (w : World) :
  (status (fst (api_analyze_field llm data w)) = 200%Z
   <-> exists m stats answer,
         data = JObj m
         /\ m !! "field_stats" = Some stats
         /\ llm_analyze_field_quality llm stats = inr answer
         /\ body_field (fst (api_analyze_field llm data w)) "insights"
            = Some answer)
  /\ ((forall m stats, data = JObj m -> m !! "field_stats" = Some stats ->
                       False) ->
      forall llm', api_analyze_field llm' data w = api_analyze_field llm data w)
  /\ (truthy data = false ->
      fst (api_analyze_field llm data w)
      = failure 400 "Missing field statistics")
  /\ snd (api_analyze_field llm data w) = w.
Proof.
  unfold api_analyze_field, analyze_field_view. run.
  destruct data as [|b|q|s|l|m].
  - cbn. split; [split; [discriminate | intros (m & ? & ? & H & _); discriminate H]|].
    auto.
  - destruct b; cbn.
    + split; [split; [discriminate | intros (m & ? & ? & H & _); discriminate H]|].
      split; [auto|]. split; [discriminate | reflexivity].
    + split; [split; [discriminate | intros (m & ? & ? & H & _); discriminate H]|].
      auto.
  - cbn [truthy]. destruct (negb (Qeq_bool q 0)); cbn.
    + split; [split; [discriminate | intros (m & ? & ? & H & _); discriminate H]|].
      split; [auto|]. split; [discriminate | reflexivity].
    + split; [split; [discriminate | intros (m & ? & ? & H & _); discriminate H]|].
      auto.
  - cbn [truthy]. destruct (negb (bool_decide (s = ""))); cbn.
    + destruct (String.index 0 "field_stats" s); cbn;
        (split; [split; [discriminate
                        | intros (m & ? & ? & H & _); discriminate H]|]);
        (split; [auto|]); (split; [discriminate | reflexivity]).
    + split; [split; [discriminate | intros (m & ? & ? & H & _); discriminate H]|].
      auto.
  - cbn [truthy]. destruct (negb (bool_decide (l = []))); cbn.
    + destruct (existsb _ l); cbn;
        (split; [split; [discriminate
                        | intros (m & ? & ? & H & _); discriminate H]|]);
        (split; [auto|]); (split; [discriminate | reflexivity]).
    + split; [split; [discriminate | intros (m & ? & ? & H & _); discriminate H]|].
      auto.
  - destruct (m !! "field_stats") as [stats|] eqn:Hstats.
    + rewrite (truthy_with_key m "field_stats" stats Hstats). cbn.
      rewrite Hstats. unfold getitem. rewrite Hstats. cbn.
      destruct (llm_analyze_field_quality llm stats) as [e|answer] eqn:Hllm;
        cbn.
      * split.
        { split; [discriminate|].
          intros (m' & stats' & answer & Hm & Hs & Ha & _).
          injection Hm as <-. rewrite Hstats in Hs. injection Hs as <-.
          rewrite Hllm in Ha. discriminate Ha. }
        split; [intros Hno; exfalso; exact (Hno m stats eq_refl Hstats)|].
        split; [discriminate | reflexivity].
      * split.
        { split; [|reflexivity]. intros _.
          exists m, stats, answer. repeat split; assumption. }
        split; [intros Hno; exfalso; exact (Hno m stats eq_refl Hstats)|].
        split; [discriminate | reflexivity].
    + cbn [truthy]. destruct (negb (bool_decide (dom m = ∅))); cbn.
      * rewrite Hstats; cbn.
        split.
        { split; [discriminate|].
          intros (m' & stats' & answer & Hm & Hs & _).
          injection Hm as <-. rewrite Hstats in Hs. discriminate Hs. }
        split; [auto|]. split; [discriminate | reflexivity].
      * split.
        { split; [discriminate|].
          intros (m' & stats' & answer & Hm & Hs & _).
          injection Hm as <-. rewrite Hstats in Hs. discriminate Hs. }
        auto.
Qed.

(** ** Worked instances *)

Lemma missing_scores_skip_generator_witness :
  status (fst (analyze_table bare_analyzer env_up "employees"
                 (module_init bare_analyzer))) = 200%Z
  /\ response_field (fst (analyze_table bare_analyzer env_up "employees"
                            (module_init bare_analyzer))) "ai_insights"
     = Some (insights_failure (mkExn "KeyError" "'table_scores'"))
  /\ engine_fields_of_response_eq
       (fst (analyze_table bare_analyzer env_up "employees"
               (module_init bare_analyzer)))
       (<["issues" := JList []]> ∅)
  /\ insight_calls (trace (snd (analyze_table bare_analyzer env_up "employees"
                                  (module_init bare_analyzer))))
     = insight_calls (trace (module_init bare_analyzer)).
Proof.
  apply (missing_scores_skip_generator bare_analyzer env_up "employees"
           (module_init bare_analyzer) one_row [] df_one).
  - exact employees_known.
  - reflexivity.
  - reflexivity.
  - reflexivity.
  - reflexivity.
Defined.

Lemma payload_later_keys_win_witness :
  exists p,
    insights_payload "employees" (JStr "HR/Finance") clashing_analysis = inr p
    /\ p !! "issues" = Some (JList [JStr "late"])
    /\ p !! "table_name"
       = Some (default (JStr "employees")
                 ((<["issues" := JStr "early"]>
                   (<["table_name" := JStr "other"]> ∅) : Dict)
                    !! "table_name"))
    /\ p !! "domain"
       = Some (default (JStr "HR/Finance")
                 ((<["issues" := JStr "early"]>
                   (<["table_name" := JStr "other"]> ∅) : Dict) !! "domain")).
Proof.
  apply (payload_later_keys_win "employees" (JStr "HR/Finance")
           clashing_analysis).
  - reflexivity.
  - reflexivity.
Defined.

Lemma review_accepted :
  status (fst (review_insight env_up approve_body 7 world_with_insight))
  = 200%Z.
Proof. vm_compute. reflexivity. Defined.

Lemma review_insight_success_row_witness :
  exists m i0 r,
    approve_body = inr (JObj m)
    /\ insights world_with_insight !! 7%Z = Some i0
    /\ insights (snd (review_insight env_up approve_body 7 world_with_insight))
         !! 7%Z = Some r
    /\ is_reviewed r = true
    /\ is_approved r = default (JBool false) (m !! "approved")
    /\ reviewed_by r = default (JStr "Admin") (m !! "reviewer")
    /\ reviewed_at r = Some (now env_up)
    /\ (entity_type r, entity_name r, issue_type r, severity r, insight r,
        recommendation r)
       = (entity_type i0, entity_name i0, issue_type i0, severity i0,
          insight i0, recommendation i0)
    /\ (forall j, j <> 7%Z ->
          insights (snd (review_insight env_up approve_body 7
                           world_with_insight)) !! j
          = insights world_with_insight !! j).
Proof.
  apply (review_insight_success_row env_up approve_body 7 world_with_insight).
  exact review_accepted.
Defined.

Lemma review_insight_twice_witness :
  insights (snd (review_insight env_up approve_body 7
                   (snd (review_insight env_up approve_body 7
                           world_with_insight))))
  = insights (snd (review_insight env_up approve_body 7 world_with_insight)).
Proof.
  apply (review_insight_twice env_up approve_body 7 world_with_insight).
  - exact review_accepted.
  - vm_compute. reflexivity.
Defined.


Lemma critical_findings_by_position_witness :
  exists out,
    status (fst (generate_detailed_issue_analysis runtime0 llm_findings
                   (JObj ∅) (module_init bare_analyzer))) = 200%Z
    /\ body_path (fst (generate_detailed_issue_analysis runtime0 llm_findings
                         (JObj ∅) (module_init bare_analyzer)))
         "structured_analysis" "critical_findings" = Some (JList out)
    /\ length out = 3%nat.
Proof.
  destruct (critical_findings_by_position runtime0 llm_findings ∅
              (<["recommended_actions" :=
                   JList [JObj (<["priority" := JStr "critical"]>
                                (<["action" := JStr "fix"]> ∅));
                          JStr "review"] ]>
               (<["critical_findings" :=
                    JList [JStr " email : 40% invalid"; JStr "no owner";
                           JStr "id: duplicates"] ]> ∅))
              [JStr " email : 40% invalid"; JStr "no owner";
               JStr "id: duplicates"]
              [JObj (<["priority" := JStr "critical"]>
                     (<["action" := JStr "fix"]> ∅)); JStr "review"]
              [JObj (<["details" := JStr ""]>
                     (<["priority" := JStr "Immediate"]>
                     (<["action" := JStr "fix"]> ∅)));
               JObj (<["details" := JStr ""]>
                     (<["priority" := JStr "Medium"]>
                     (<["action" := JStr "review"]> ∅)))]
              (module_init bare_analyzer)
              eq_refl eq_refl eq_refl eq_refl)
    as (out & Hs & Hb & Hl & _).
  exists out. split; [exact Hs|]. split; [exact Hb | exact Hl].
Defined.

(** ** How often the services are called *)

(** The insight step calls the generator at most once and the analyzer
    never. *)
Lemma generate_insights_calls (env : Env) (name : string) (domain : Json)
    (analysis : Dict) (w : World) :
  exists v evs,
    generate_insights env name domain analysis w
    = (inr (<["ai_insights" := v]> analysis), logged w evs)
    /\ analyzer_calls evs = []
    /\ (length (insight_calls evs) <= 1)%nat.
Proof.
  rewrite generate_insights_run.
  destruct (insights_payload name domain analysis) as [e|p].
  - eexists _, _. split; [reflexivity|]. split; [reflexivity | cbn; lia].
  - destruct (analyze_table_quality env (JObj p));
      eexists _, _; (split; [reflexivity|]);
      (split; [reflexivity | cbn; lia]).
Qed.

Lemma detect_events_calls (env : Env) (df : DataFrame) (name : string) :
  analyzer_calls (detect_events env df name) = []
  /\ insight_calls (detect_events env df name) = [].
Proof.
  unfold detect_events.
  destruct (detect_domain_single_word env (columns df) name);
    split; reflexivity.
Qed.

(** X17. Within one request, either analysis route calls the analyzer at
    most once and the insight generator at most once, and the generator
    only after the analyzer was called; an answer with status 200 comes
    from exactly one analyzer call. *)
Theorem analysis_routes_call_once (A : Analyzer) (env : Env) (w : World) :
  (forall table_name,
      exists evs,
        trace (snd (analyze_table A env table_name w)) = (trace w ++ evs)%list
        /\ (length (analyzer_calls evs) <= 1)%nat
        /\ (length (insight_calls evs) <= length (analyzer_calls evs))%nat
        /\ (status (fst (analyze_table A env table_name w)) = 200%Z ->
            length (analyzer_calls evs) = 1%nat))
  /\
  (forall files,
      exists evs,
        trace (snd (analyze_csv A env files w)) = (trace w ++ evs)%list
        /\ (length (analyzer_calls evs) <= 1)%nat
        /\ (length (insight_calls evs) <= length (analyzer_calls evs))%nat
        /\ (status (fst (analyze_csv A env files w)) = 200%Z ->
            length (analyzer_calls evs) = 1%nat)).
Proof.
  split.
  - intros table_name.
    destruct (decide (table_name ∈ table_map)) as [Hin|Hout].
    2: { rewrite analyze_table_unknown by exact Hout.
         eexists. split; [reflexivity|]. cbn.
         split; [lia|]. split; [lia | discriminate]. }
    destruct (db_query_all env table_name) as [e|[|row rows0]] eqn:Hq.
    { rewrite (analyze_table_query_fails A env table_name w e) by assumption.
      eexists. split; [reflexivity|]. cbn.
      split; [lia|]. split; [lia | discriminate]. }
    { rewrite analyze_table_no_rows by assumption.
      eexists. split; [reflexivity|]. cbn.
      split; [lia|]. split; [lia | discriminate]. }
    destruct (pd_read_sql env table_name) as [e|df] eqn:Hsql.
    { rewrite (analyze_table_read_fails A env table_name w row rows0 e)
        by assumption.
      eexists. split; [reflexivity|]. cbn.
      split; [lia|]. split; [lia | discriminate]. }
    rewrite (analyze_table_reaches_analyzer A env table_name w row rows0 df)
      by assumption.
    destruct (analyze_dataframe A (dq_analyzer w) df table_name)
      as [self' [e|analysis]]; cbv zeta.
    { unfold logged; cbn [fst snd trace status failure].
      exists [EvQueryAll table_name; EvReadSql table_name;
              EvAnalyze (dq_analyzer w) df table_name;
              EvPrint "traceback"; EvClose].
      split; [rewrite <- !app_assoc; reflexivity|]. cbn.
      split; [lia|]. split; [lia | discriminate]. }
    match goal with
    | |- context [generate_insights ?a ?b ?c ?d ?w1] =>
        destruct (generate_insights_calls a b c d w1)
          as (v & evs & Hrun & Han & Hin1)
    end.
    rewrite Hrun. unfold logged; cbn [fst snd trace status].
    exists ([EvQueryAll table_name; EvReadSql table_name;
             EvAnalyze (dq_analyzer w) df table_name] ++ evs ++ [EvClose])%list.
    split; [rewrite <- !app_assoc; reflexivity|].
    rewrite !analyzer_calls_app, !insight_calls_app, Han.
    cbn. rewrite length_app; cbn.
    split; [lia|]. split; [lia | intros _; reflexivity].
  - intros files.
    destruct (analyze_csv_outcome A env files w)
      as [(Hbad & msg & Hrun) | (Hok & _)].
    { rewrite Hrun. exists []. cbn [fst snd].
      split; [symmetry; apply app_nil_r|]. cbn.
      split; [lia|]. split; [lia | discriminate]. }
    unfold bad_upload in Hok.
    destruct (files !! "file") as [file|] eqn:Hfile; [|exfalso; auto].
    assert (Hname : filename file <> "") by tauto.
    assert (Hcsv : endswith (filename file) ".csv" = true)
      by (destruct (endswith (filename file) ".csv"); [reflexivity | tauto]).
    destruct (pd_read_csv env (content file)) as [e|df] eqn:Hread.
    { rewrite (analyze_csv_read_fails A env files w file e) by assumption.
      unfold logged; cbn [fst snd trace status failure].
      eexists. split; [reflexivity|]. cbn.
      split; [lia|]. split; [lia | discriminate]. }
    rewrite (analyze_csv_reaches_analyzer A env files w file df)
      by assumption.
    destruct (analyze_dataframe A (dq_analyzer w) df (filename file))
      as [self' [e|analysis]]; cbv zeta.
    { cbn [fst snd trace status failure].
      eexists. split; [reflexivity|]. cbn.
      split; [lia|]. split; [lia | discriminate]. }
    destruct (detect_events_calls env df (filename file)) as [Hda Hdi].
    match goal with
    | |- context [generate_insights ?a ?b ?c ?d ?w1] =>
        destruct (generate_insights_calls a b c d w1)
          as (v & evs & Hrun & Han & Hin1)
    end.
    rewrite Hrun. unfold logged; cbn [fst snd trace status].
    exists ([EvReadCsv (filename file);
             EvAnalyze (dq_analyzer w) df (filename file)]
            ++ detect_events env df (filename file) ++ evs)%list.
    split; [rewrite <- !app_assoc; reflexivity|].
    rewrite !analyzer_calls_app, !insight_calls_app, Han, Hda, Hdi.
    cbn. split; [lia|]. split; [lia | intros _; reflexivity].
Qed.
